(** * Weather ingestion handler: a shallow embedding of
      [src/lambda_functions/weather_ingestion/lambda_function.py]

    The handler is one Python function, [lambda_handler].  It is modelled as a
    computation in a small state-and-exception monad over an explicit
    description of the outside world (environment variables, boto3, urllib,
    the clock).  Python values coming out of [json.loads] are an inductive
    type; the [decimal.Decimal] constructor is a parser on strings; the
    success rate is computed on binary64 floats, as Python does.  The
    [print] calls only write to the log and are left out. *)

From Stdlib Require Import ZArith NArith List String Ascii Bool Lia.
From Stdlib Require Import DecimalString DecimalPos.
From Stdlib Require DecimalFacts.
From Stdlib Require Import PrimFloat FloatOps SpecFloat FloatAxioms Uint63.
Import ListNotations.

Set Warnings "-register-all,-inexact-float,-abstract-large-number".

Open Scope list_scope.
Open Scope string_scope.

(** ** Characters and strings *)

Definition dquote : ascii := ascii_of_nat 34.
Definition squote : ascii := ascii_of_nat 39.
Definition backslash : ascii := ascii_of_nat 92.

Definition str1 (c : ascii) : string := String c EmptyString.

Fixpoint chars (s : string) : list ascii :=
  match s with
  | EmptyString => []
  | String c t => c :: chars t
  end.

Fixpoint of_chars (l : list ascii) : string :=
  match l with
  | [] => EmptyString
  | c :: t => String c (of_chars t)
  end.

Fixpoint str_mem (c : ascii) (s : string) : bool :=
  match s with
  | EmptyString => false
  | String d t => Ascii.eqb c d || str_mem c t
  end.

(** [s.replace(a, b)] for one-character [a] and [b]. *)
Fixpoint replace_char (a b : ascii) (s : string) : string :=
  match s with
  | EmptyString => EmptyString
  | String c t => String (if Ascii.eqb c a then b else c) (replace_char a b t)
  end.

(** [str(n)] for a Python [int]. *)
Definition str_of_Z (z : Z) : string := NilZero.string_of_int (Z.to_int z).
Definition str_of_nat (n : nat) : string := str_of_Z (Z.of_nat n).

(** [%0<w>d] for a non-negative integer. *)
Fixpoint zeros (k : nat) : string :=
  match k with
  | O => EmptyString
  | S k' => String "0" (zeros k')
  end.

Definition zero_pad (w n : nat) : string :=
  let s := str_of_nat n in zeros (w - String.length s) ++ s.

(** ** [repr] of a Python [float]

    A [float] is a binary64 number.  Its [repr] is the shortest decimal
    string that rounds back to it (the nearest to it among the shortest).
    With the value written [0.d1d2...dn * 10^decpt], the layout is fixed
    notation when [-4 < decpt <= 16] and exponent notation otherwise. *)

Module FloatRepr.
Open Scope Z_scope.

(** The exact number [num * 2^e2 * 10^e10]. *)
Record exact : Type := mkExact { num : Z; e2 : Z; e10 : Z }.

Definition scaled (x : exact) (b c : Z) : Z :=
  num x * 2 ^ (e2 x - b) * 10 ^ (e10 x - c).

Definition compare (x y : exact) : comparison :=
  let b := Z.min (e2 x) (e2 y) in
  let c := Z.min (e10 x) (e10 y) in
  Z.compare (scaled x b c) (scaled y b c).

Definition leb (x y : exact) : bool :=
  match compare x y with Gt => false | _ => true end.
Definition ltb (x y : exact) : bool :=
  match compare x y with Lt => true | _ => false end.

(** [floor (x / 10^q)] for [x = m * 2^e]. *)
Definition floor_div_pow10 (m e q : Z) : Z :=
  let n := m * (if 0 <=? e then 2 ^ e else 1) * (if q <? 0 then 10 ^ (- q) else 1) in
  let d := (if 0 <=? e then 1 else 2 ^ (- e)) * (if q <? 0 then 1 else 10 ^ q) in
  n / d.

(** The least [t] in [t0, t0 + fuel] with [m * 2^e < 10^t]. *)
Fixpoint find_decpt (fuel : nat) (m e t : Z) : Z :=
  match fuel with
  | O => t
  | S f =>
      if ltb (mkExact m e 0) (mkExact 1 0 t) then t
      else find_decpt f m e (t + 1)
  end.

Definition decpt_of (m e : Z) : Z :=
  find_decpt 4 m e ((e + Z.log2 m) * 30103 / 100000 - 1).

(** The values that round to the float [m * 2^e] (round to nearest, ties to
    even): between the midpoints to its two neighbours, the midpoints
    included when [m] is even. *)
Definition rounds_to (m e : Z) (y : exact) : bool :=
  let boundary := (m =? 2 ^ 52) && (-1074 <? e) in
  let lo := mkExact (4 * m - (if boundary then 1 else 2)) (e - 2) 0 in
  let hi := mkExact (4 * m + 2) (e - 2) 0 in
  if Z.even m then leb lo y && leb y hi else ltb lo y && ltb y hi.

(** The [p]-digit decimal nearest to [m * 2^e] among those that round to it,
    if there is one: its digits as an integer. *)
Definition candidate (m e t : Z) (p : Z) : option Z :=
  let q := t - p in
  let d := floor_div_pow10 m e q in
  let lo_ok := rounds_to m e (mkExact d 0 q) in
  let hi_ok := rounds_to m e (mkExact (d + 1) 0 q) in
  let closer_lo :=
    match compare (mkExact (2 * m) e 0) (mkExact (2 * d + 1) 0 q) with
    | Lt => true
    | Gt => false
    | Eq => Z.even d
    end in
  match lo_ok, hi_ok with
  | true, true => Some (if closer_lo then d else d + 1)
  | true, false => Some d
  | false, true => Some (d + 1)
  | false, false => None
  end.

Fixpoint shortest (fuel : nat) (m e t p : Z) : Z * Z :=
  match fuel with
  | O => (floor_div_pow10 m e (t - p), p)
  | S f =>
      match candidate m e t p with
      | Some d => (d, p)
      | None => shortest f m e t (p + 1)
      end
  end.

(** Remove trailing zeros of a digit string, keeping one digit. *)
Fixpoint strip_zeros (fuel : nat) (d : Z) : Z :=
  match fuel with
  | O => d
  | S f => if (d mod 10 =? 0) && negb (d =? 0) then strip_zeros f (d / 10) else d
  end.

Definition exponent_str (x : Z) : string :=
  let sign := if x <? 0 then "-"%string else "+"%string in
  let pad := if Z.abs x <? 10 then "0"%string else EmptyString in
  (sign ++ pad ++ str_of_Z (Z.abs x))%string.

Definition layout (digits : string) (decpt : Z) : string :=
  let n := Z.of_nat (String.length digits) in
  if (decpt <=? -4) || (16 <? decpt) then
    match digits with
    | EmptyString => EmptyString
    | String c EmptyString => String c ("e" ++ exponent_str (decpt - 1))%string
    | String c rest =>
        String c ("." ++ rest ++ "e" ++ exponent_str (decpt - 1))%string
    end
  else if decpt <=? 0 then
    ("0." ++ zeros (Z.to_nat (- decpt)) ++ digits)%string
  else if n <=? decpt then
    (digits ++ zeros (Z.to_nat (decpt - n)) ++ ".0")%string
  else
    (String.substring 0 (Z.to_nat decpt) digits ++ "."
       ++ String.substring (Z.to_nat decpt) (Z.to_nat (n - decpt)) digits)%string.

Definition finite_repr (m e : Z) : string :=
  let t := decpt_of m e in
  let (d, p) := shortest 17 m e t 1 in
  (* [d] has [p] digits, unless it was rounded up to [10^p] *)
  let t' := if d =? 10 ^ p then t + 1 else t in
  layout (str_of_Z (strip_zeros 18 d)) t'.

(** [repr(x)] of a Python [float]. *)
Definition repr (x : float) : string :=
  match Prim2SF x with
  | S754_zero s => if s then "-0.0" else "0.0"
  | S754_infinity s => if s then "-inf" else "inf"
  | S754_nan => "nan"
  | S754_finite s m e =>
      ((if s then "-" else EmptyString) ++ finite_repr (Zpos m) e)%string
  end.

End FloatRepr.

(** ** Python values, as [json.loads] builds them

    An [int] is unbounded, a [float] is a binary64 number.  A [dict] is its
    list of items in insertion order; [json.loads] builds it with distinct
    keys. *)

Inductive json : Type :=
| JNull
| JBool (b : bool)
| JInt (z : Z)
| JFloat (x : float)
| JStr (s : string)
| JArr (items : list json)
| JObj (fields : list (string * json)).

Definition type_name (v : json) : string :=
  match v with
  | JNull => "NoneType"
  | JBool _ => "bool"
  | JInt _ => "int"
  | JFloat _ => "float"
  | JStr _ => "str"
  | JArr _ => "list"
  | JObj _ => "dict"
  end.

(** ** Exceptions

    Every constructor stands for a subclass of Python's [Exception]; these
    are what the libraries in use and the handler's own expressions raise.
    [exn_str] is [str(e)]. *)

Inductive exn : Type :=
| URLError (reason : string)
| HTTPError (code : nat) (msg : string)
| JSONDecodeError (msg : string)
| ClientError (msg : string)
| OtherError (msg : string)
| KeyError (key_repr : string)
| IndexError (msg : string)
| TypeError (msg : string)
| AttributeError (msg : string)
| InvalidOperation (signal : string)
| UnboundLocalError (name : string)
| ZeroDivisionError.

Definition exn_str (e : exn) : string :=
  match e with
  | URLError reason => "<urlopen error " ++ reason ++ ">"
  | HTTPError code msg => "HTTP Error " ++ str_of_nat code ++ ": " ++ msg
  | JSONDecodeError msg => msg
  | ClientError msg => msg
  | OtherError msg => msg
  | KeyError key_repr => key_repr
  | IndexError msg => msg
  | TypeError msg => msg
  | AttributeError msg => msg
  | InvalidOperation signal => "[<class 'decimal." ++ signal ++ "'>]"
  | UnboundLocalError name =>
      "cannot access local variable '" ++ name
        ++ "' where it is not associated with a value"
  | ZeroDivisionError => "division by zero"
  end.

Inductive result (A : Type) : Type :=
| Ok (a : A)
| Raise (e : exn).
Arguments Ok {A} a.
Arguments Raise {A} e.

Definition rbind {A B} (r : result A) (k : A -> result B) : result B :=
  match r with
  | Ok a => k a
  | Raise e => Raise e
  end.

(** ** Operations on Python values *)

Module Py.

Fixpoint dict_get (d : list (string * json)) (k : string) : option json :=
  match d with
  | [] => None
  | (k', v) :: t => if String.eqb k k' then Some v else dict_get t k
  end.

(** [d[k] = v] on a dict: replaces in place or appends. *)
Fixpoint dict_set (d : list (string * json)) (k : string) (v : json)
  : list (string * json) :=
  match d with
  | [] => [(k, v)]
  | (k', v') :: t =>
      if String.eqb k k' then (k', v) :: t else (k', v') :: dict_set t k v
  end.

Definition hex_digit (n : nat) : ascii :=
  nth n (chars "0123456789abcdef") "0"%char.

(** One character of [repr] of a [str] quoted with [q] (ASCII). *)
Definition repr_char (q c : ascii) : string :=
  let n := nat_of_ascii c in
  if Ascii.eqb c backslash then String backslash (str1 backslash)
  else if Ascii.eqb c q then String backslash (str1 q)
  else if Nat.eqb n 10 then String backslash "n"
  else if Nat.eqb n 13 then String backslash "r"
  else if Nat.eqb n 9 then String backslash "t"
  else if (n <? 32)%nat || Nat.eqb n 127 then
    String backslash
      (String "x" (String (hex_digit (n / 16)) (str1 (hex_digit (n mod 16)))))
  else str1 c.

Definition repr_str (s : string) : string :=
  let q := if str_mem squote s && negb (str_mem dquote s)
           then dquote else squote in
  String q (String.concat EmptyString (map (repr_char q) (chars s)) ++ str1 q).

Definition join (sep : string) (l : list string) : string :=
  String.concat sep l.

(** [repr(v)]. *)
Fixpoint repr (v : json) : string :=
  match v with
  | JNull => "None"
  | JBool true => "True"
  | JBool false => "False"
  | JInt z => str_of_Z z
  | JFloat x => FloatRepr.repr x
  | JStr s => repr_str s
  | JArr items => "[" ++ join ", " (map repr items) ++ "]"
  | JObj fields =>
      "{" ++ join ", "
               (map (fun kv => repr_str (fst kv) ++ ": " ++ repr (snd kv))
                    fields)
          ++ "}"
  end.

(** [str(v)]: a [str] is itself, everything else prints its [repr]. *)
Definition str (v : json) : string :=
  match v with
  | JStr s => s
  | _ => repr v
  end.

Definition no_attribute (v : json) (attr : string) : exn :=
  AttributeError
    ("'" ++ type_name v ++ "' object has no attribute '" ++ attr ++ "'").

Definition not_subscriptable (v : json) : exn :=
  TypeError ("'" ++ type_name v ++ "' object is not subscriptable").

(** [v.get(k, default)]. *)
Definition get (v : json) (k : string) (default : json) : result json :=
  match v with
  | JObj d =>
      match dict_get d k with
      | Some x => Ok x
      | None => Ok default
      end
  | _ => Raise (no_attribute v "get")
  end.

(** [v[k]] for a string key [k]. *)
Definition getitem (v : json) (k : string) : result json :=
  match v with
  | JObj d =>
      match dict_get d k with
      | Some x => Ok x
      | None => Raise (KeyError (repr_str k))
      end
  | JArr _ => Raise (TypeError "list indices must be integers or slices, not str")
  | JStr _ => Raise (TypeError "string indices must be integers, not 'str'")
  | _ => Raise (not_subscriptable v)
  end.

(** [v[0]].  The keys of a dict built by [json.loads] are strings, so the
    integer key 0 is never found in one. *)
Definition getitem0 (v : json) : result json :=
  match v with
  | JArr (x :: _) => Ok x
  | JArr [] => Raise (IndexError "list index out of range")
  | JStr (String c _) => Ok (JStr (str1 c))
  | JStr EmptyString => Raise (IndexError "string index out of range")
  | JObj _ => Raise (KeyError "0")
  | _ => Raise (not_subscriptable v)
  end.

(** [v[k] = x] for a string key [k]; returns the updated object. *)
Definition setitem (v : json) (k : string) (x : json) : result json :=
  match v with
  | JObj d => Ok (JObj (dict_set d k x))
  | JArr _ => Raise (TypeError "list indices must be integers or slices, not str")
  | _ =>
      Raise (TypeError
               ("'" ++ type_name v ++ "' object does not support item assignment"))
  end.

End Py.

(** ** The characters of a [str]

    A [str] is kept as its UTF-8 encoding.  Where the code looks at
    characters rather than bytes (the [Decimal] constructor), the bytes are
    decoded to code points first.  The character properties are those of
    Unicode 14.0, the database of CPython 3.11. *)

Module Unicode.
Open Scope N_scope.

(** The code points of a UTF-8 sequence: [need] continuation bytes are still
    expected for the code point being read, [acc] holds its bits read so
    far and [least] is the smallest value its length may encode.  [None]
    when the bytes are not the encoding of any [str]. *)
Fixpoint decode_from (need : nat) (acc least : N) (l : list ascii)
  : option (list N) :=
  match l with
  | [] => match need with O => Some [] | S _ => None end
  | c :: t =>
      let b := N_of_ascii c in
      match need with
      | O =>
          if b <? 128 then option_map (cons b) (decode_from 0 0 0 t)
          else if (194 <=? b) && (b <? 224) then decode_from 1 (b - 192) 128 t
          else if (224 <=? b) && (b <? 240) then decode_from 2 (b - 224) 2048 t
          else if (240 <=? b) && (b <? 245) then decode_from 3 (b - 240) 65536 t
          else None
      | S n =>
          if (128 <=? b) && (b <? 192) then
            let acc' := acc * 64 + (b - 128) in
            match n with
            | O =>
                if (least <=? acc') && (acc' <? 1114112)
                   && negb ((55296 <=? acc') && (acc' <? 57344))
                then option_map (cons acc') (decode_from 0 0 0 t)
                else None
            | S _ => decode_from n acc' least t
            end
          else None
      end
  end.

Definition decode (l : list ascii) : option (list N) := decode_from 0 0 0 l.

(** [ch.isspace()]. *)
Definition is_space (cp : N) : bool :=
  ((9 <=? cp) && (cp <=? 13)) || ((28 <=? cp) && (cp <=? 32))
  || (cp =? 133) || (cp =? 160) || (cp =? 5760)
  || ((8192 <=? cp) && (cp <=? 8202)) || (cp =? 8232) || (cp =? 8233)
  || (cp =? 8239) || (cp =? 8287) || (cp =? 12288).

(** The code points of the digit zero of every script: each is followed by
    the digits one to nine of its script. *)
Definition digit_zeros : list N :=
  [48; 1632; 1776; 1984; 2406; 2534; 2662; 2790; 2918; 3046; 3174; 3302;
   3430; 3558; 3664; 3792; 3872; 4160; 4240; 6112; 6160; 6470; 6608; 6784;
   6800; 6992; 7088; 7232; 7248; 42528; 43216; 43264; 43472; 43504; 43600;
   44016; 65296; 66720; 68912; 69734; 69872; 69942; 70096; 70384; 70736;
   70864; 71248; 71360; 71472; 71904; 72016; 72784; 73040; 73120; 92768;
   92864; 93008; 120782; 120792; 120802; 120812; 120822; 123200; 123632;
   125264; 130032].

(** The value of a decimal digit ([unicodedata.decimal]). *)
Definition digit_value (cp : N) : option N :=
  match find (fun z => (z <=? cp) && (cp <? z + 10)) digit_zeros with
  | Some z => Some (cp - z)
  | None => None
  end.

End Unicode.

(** ** [decimal.Decimal]

    A decimal is a sign, a coefficient and an exponent (the number
    [(-1)^sign * coeff * 10^exp]) or one of the special values.  The
    constructor from a string is exact: it never rounds, and it refuses
    what it would have to round (the limits are those of the C
    implementation on a 64-bit platform). *)

Inductive decimal : Type :=
| DFinite (neg : bool) (coeff : N) (exp : Z)
| DInfinity (neg : bool)
| DNaN (neg : bool) (signaling : bool) (diag : N).

Module Dec.

Definition is_digit (c : ascii) : bool :=
  let n := nat_of_ascii c in (48 <=? n)%nat && (n <=? 57)%nat.

Definition digit_val (c : ascii) : N := N.of_nat (nat_of_ascii c - 48).

Definition lower (c : ascii) : ascii :=
  let n := nat_of_ascii c in
  if (65 <=? n)%nat && (n <=? 90)%nat then ascii_of_nat (n + 32) else c.

Fixpoint drop_while {A} (p : A -> bool) (l : list A) : list A :=
  match l with
  | [] => []
  | c :: t => if p c then drop_while p t else l
  end.

(** White space is removed at both ends. *)
Definition strip (l : list N) : list N :=
  rev (drop_while Unicode.is_space (rev (drop_while Unicode.is_space l))).

(** One character of the stripped string: an underscore is skipped, an
    ASCII character is kept, white space becomes a space, a decimal digit
    of any script becomes the ASCII digit; anything else is refused. *)
Definition ascii_of (cp : N) : option (list ascii) :=
  if (cp =? 95)%N then Some []
  else if (0 <? cp)%N && (cp <=? 127)%N then Some [ascii_of_N cp]
  else if Unicode.is_space cp then Some [" "%char]
  else
    match Unicode.digit_value cp with
    | Some d => Some [ascii_of_N (48 + d)]
    | None => None
    end.

Fixpoint to_ascii (l : list N) : option (list ascii) :=
  match l with
  | [] => Some []
  | cp :: t =>
      match ascii_of cp, to_ascii t with
      | Some a, Some r => Some (a ++ r)%list
      | _, _ => None
      end
  end.

(** The ASCII text that is parsed. *)
Definition normalise (l : list ascii) : option (list ascii) :=
  match Unicode.decode l with
  | Some cps => to_ascii (strip cps)
  | None => None
  end.

(** The longest prefix of digits, and what follows it. *)
Fixpoint span_digits (l : list ascii) : list ascii * list ascii :=
  match l with
  | [] => ([], [])
  | c :: t =>
      if is_digit c
      then let (ds, r) := span_digits t in (c :: ds, r)
      else ([], l)
  end.

Definition digits_val (ds : list ascii) : N :=
  fold_left (fun acc c => (acc * 10 + digit_val c)%N) ds 0%N.

(** An optional sign: [true] for a minus. *)
Definition take_sign (l : list ascii) : bool * list ascii :=
  match l with
  | "-"%char :: t => (true, t)
  | "+"%char :: t => (false, t)
  | _ => (false, l)
  end.

Definition is_nil {A} (l : list A) : bool :=
  match l with [] => true | _ => false end.

(** [digits [. digits] [e [sign] digits]] with at least one digit before
    the exponent; the input is lower case.  The result is the digits of the
    coefficient and the exponent. *)
Definition parse_number (l : list ascii) : option (list ascii * Z) :=
  let (ip, r1) := span_digits l in
  let (fp, r2) :=
    match r1 with
    | "."%char :: r => span_digits r
    | _ => ([], r1)
    end in
  if is_nil ip && is_nil fp then None
  else
    let coeff := (ip ++ fp)%list in
    let shift := Z.of_nat (List.length fp) in
    match r2 with
    | [] => Some (coeff, (- shift)%Z)
    | "e"%char :: r3 =>
        let (eneg, r4) := take_sign r3 in
        let (ed, r5) := span_digits r4 in
        if is_nil ed || negb (is_nil r5) then None
        else
          let e := Z.of_N (digits_val ed) in
          Some (coeff, ((if eneg then - e else e) - shift)%Z)
    | _ => None
    end.

(** [nan] or [snan] followed by digits only. *)
Definition parse_nan (l : list ascii) : option (bool * N) :=
  let body (signaling : bool) (r : list ascii) :=
    let (ds, rest) := span_digits r in
    if is_nil rest then Some (signaling, digits_val ds) else None in
  match l with
  | "n"%char :: "a"%char :: "n"%char :: r => body false r
  | "s"%char :: "n"%char :: "a"%char :: "n"%char :: r => body true r
  | _ => None
  end.

(** The limits of the widest context: precision and largest exponent
    [emax], smallest exponent [etiny]. *)
Definition emax : Z := 999999999999999999.
Definition etiny : Z := -1999999999999999997.

(** The number of digits of a coefficient, leading zeros apart. *)
Definition significant (ds : list ascii) : Z :=
  Z.max 1 (Z.of_nat (List.length (drop_while (Ascii.eqb "0"%char) ds))).

(** The number fits the widest context as it is. *)
Definition in_range (ds : list ascii) (e : Z) : bool :=
  (significant ds <=? emax)%Z && (etiny <=? e)%Z
  && (e + significant ds - 1 <=? emax)%Z.

Definition parse (s : string) : result decimal :=
  match normalise (chars s) with
  | None => Raise (InvalidOperation "ConversionSyntax")
  | Some l0 =>
      let l := map lower l0 in
      let (neg, body) := take_sign l in
      if String.eqb (of_chars body) "inf" || String.eqb (of_chars body) "infinity"
      then Ok (DInfinity neg)
      else
        match parse_nan body with
        | Some (signaling, diag) => Ok (DNaN neg signaling diag)
        | None =>
            match parse_number body with
            | Some (ds, e) =>
                if in_range ds e then Ok (DFinite neg (digits_val ds) e)
                else Raise (InvalidOperation "InvalidOperation")
            | None => Raise (InvalidOperation "ConversionSyntax")
            end
        end
  end.

End Dec.

(** [Decimal(s)] for a [str] argument. *)
Definition Decimal (s : string) : result decimal := Dec.parse s.

(** ** [datetime] *)

Record datetime : Type := mkDatetime {
  year : nat; month : nat; day : nat;
  hour : nat; minute : nat; second : nat; microsecond : nat
}.

(** [dt.isoformat()] of a naive datetime: the fraction is printed only when
    the microsecond is not zero. *)
Definition isoformat (dt : datetime) : string :=
  zero_pad 4 (year dt) ++ "-" ++ zero_pad 2 (month dt) ++ "-"
    ++ zero_pad 2 (day dt) ++ "T" ++ zero_pad 2 (hour dt) ++ ":"
    ++ zero_pad 2 (minute dt) ++ ":" ++ zero_pad 2 (second dt)
    ++ (if Nat.eqb (microsecond dt) 0 then EmptyString
        else "." ++ zero_pad 6 (microsecond dt)).

(** [dt.strftime('%Y/%m/%d')], for the four-digit years of [datetime.now()]. *)
Definition strftime_Ymd (dt : datetime) : string :=
  zero_pad 4 (year dt) ++ "/" ++ zero_pad 2 (month dt) ++ "/"
    ++ zero_pad 2 (day dt).

(** ** Float arithmetic of the success rate *)

Definition float_of_nat (n : nat) : float :=
  PrimFloat.of_uint63 (Uint63.of_Z (Z.of_nat n)).

(** [a / b] on two [int]s (lengths of lists: far below 2^53, so converting
    both to binary64 and dividing is the correctly rounded quotient). *)
Definition true_div (a b : nat) : result float :=
  if Nat.eqb b 0 then Raise ZeroDivisionError
  else Ok (PrimFloat.div (float_of_nat a) (float_of_nat b)).

Definition round_half_even (num den : Z) : Z :=
  let q := (num / den)%Z in
  let r := (num mod den)%Z in
  if (2 * r <? den)%Z then q
  else if (den <? 2 * r)%Z then (q + 1)%Z
  else if Z.even q then q else (q + 1)%Z.

(** [f"{x:.1f}"]: the exact binary value rounded to the nearest tenth, ties
    to even. *)
Definition format_1f (x : float) : string :=
  match Prim2SF x with
  | S754_zero s => (if s then "-" else EmptyString) ++ "0.0"
  | S754_infinity s => (if s then "-" else EmptyString) ++ "inf"
  | S754_nan => "nan"
  | S754_finite s m e =>
      let tenths :=
        if (0 <=? e)%Z then (Zpos m * 2 ^ e * 10)%Z
        else round_half_even (Zpos m * 10) (2 ^ (- e)) in
      (if s then "-" else EmptyString)
        ++ str_of_Z (tenths / 10) ++ "." ++ str_of_Z (tenths mod 10)
  end.

(** ** Numbers in a JSON text

    [json.loads] reads a number without fraction and exponent as an [int]
    and any other number as a [float]: the binary64 number nearest to it,
    ties to even. *)

Module Json.
Open Scope Z_scope.

(** [float(s)] for the decimal number [(-1)^neg * c * 10^e10].  With
    [2^l <= c * 10^e10 < 2^(l+1)], the result is [m * 2^e] for
    [e = max (l - 52) (-1074)] and [m] the quotient rounded to an integer;
    numbers from [10^311] up are infinite, numbers below [10^-330] are
    zero. *)
Definition float_of_decimal (neg : bool) (c : N) (e10 : Z) : float :=
  let c := Z.of_N c in
  if c =? 0 then SF2Prim (S754_zero neg)
  else if 310 <? e10 + Z.log2 c * 3 / 10 then SF2Prim (S754_infinity neg)
  else if e10 + Z.log2 c / 3 + 1 <? -330 then SF2Prim (S754_zero neg)
  else
    let num := c * (if 0 <=? e10 then 10 ^ e10 else 1) in
    let den := if 0 <=? e10 then 1 else 10 ^ (- e10) in
    let l0 := Z.log2 num - Z.log2 den in
    let l := if den * 2 ^ Z.max 0 l0 <=? num * 2 ^ Z.max 0 (- l0)
             then l0 else l0 - 1 in
    let e := Z.max (l - 52) (-1074) in
    match round_half_even (num * 2 ^ Z.max 0 (- e)) (den * 2 ^ Z.max 0 e) with
    | Zpos m => SF2Prim (S754_finite neg m e)
    | _ => SF2Prim (S754_zero neg)
    end.

(** [json.loads(s)] for a text that is one number: an optional minus; a
    zero or digits that do not start with a zero; optionally a point and
    digits; optionally [e] or [E], a sign and digits. *)
Definition loads_number (s : string) : option json :=
  let l := chars s in
  let (neg, r0) :=
    match l with "-"%char :: t => (true, t) | _ => (false, l) end in
  let (ip, r1) := Dec.span_digits r0 in
  let int_ok :=
    match ip with
    | [] => false
    | "0"%char :: _ :: _ => false
    | _ => true
    end in
  let (fp, r2) :=
    match r1 with
    | "."%char :: r => Dec.span_digits r
    | _ => ([], r1)
    end in
  let frac_ok :=
    match r1 with "."%char :: _ => negb (Dec.is_nil fp) | _ => true end in
  let exponent :=
    match r2 with
    | [] => Some 0
    | c :: r3 =>
        if Ascii.eqb (Dec.lower c) "e"%char then
          let (eneg, r4) := Dec.take_sign r3 in
          let (ed, r5) := Dec.span_digits r4 in
          if Dec.is_nil ed || negb (Dec.is_nil r5) then None
          else
            let e := Z.of_N (Dec.digits_val ed) in
            Some (if eneg then - e else e)
        else None
    end in
  if negb (int_ok && frac_ok) then None
  else
    match r1, exponent with
    | [], _ =>
        let n := Z.of_N (Dec.digits_val ip) in
        Some (JInt (if neg then - n else n))
    | _, Some e =>
        Some (JFloat (float_of_decimal neg (Dec.digits_val (ip ++ fp)%list)
                                       (e - Z.of_nat (List.length fp))))
    | _, None => None
    end.

End Json.

(** ** The outside world

    The storage requests and the table row are records of what the handler
    passes.  [Body] is the value handed to [json.dumps(_, indent=2)]: the
    JSON text is kept as the document it prints. *)

Record s3_request : Type := mkS3 {
  Bucket : string;
  Key : string;
  Body : json;
  ContentType : string;
  Metadata : list (string * string)
}.

Record table_item : Type := mkItem {
  item_city : string;
  item_timestamp : string;
  temperature : decimal;
  humidity : decimal;
  pressure : decimal;
  weather_condition : json;
  weather_description : json;
  wind_speed : decimal;
  visibility : decimal;
  cloudiness : decimal;
  country : json;
  sunrise : decimal;
  sunset : decimal
}.

(** A call the handler makes on a library, in the order it makes them. *)
Inductive event : Type :=
| ev_client (service : string)
| ev_resource (service : string)
| ev_Table (name : string)
| ev_urlopen (url : string)
| ev_put_object (req : s3_request)
| ev_put_item (it : table_item).

(** What the libraries answer.  [None] is a call that returns; [Some e] one
    that raises [e].  [urlopen_json url] is
    [json.loads(urlopen(url).read().decode())]: a network failure, a status
    outside 2xx ([HTTPError]), a body that does not decode or is not JSON all
    raise; [now k] is what the [k]-th call of [datetime.now()] returns. *)
Record world : Type := mkWorld {
  environ : string -> option string;
  boto3_client : string -> option exn;
  boto3_resource : string -> option exn;
  dynamodb_Table : string -> option exn;
  urlopen_json : string -> result json;
  put_object : s3_request -> option exn;
  put_item : table_item -> option exn;
  now : nat -> datetime
}.

(** The handler's return value; [body] is the document that [json.dumps]
    prints. *)
Record response : Type := mkResponse {
  statusCode : nat;
  body : json
}.

(** ** The monad: calls made so far, clock reads, and the two locals that
    outlive a [try] block *)

Record state : Type := mkState {
  trace : list event;
  clock_reads : nat;
  results : list json;
  display_name : option string
}.

Definition initial_state : state := mkState [] 0 [] None.

Definition M (A : Type) : Type := state -> result A * state.

Definition ret {A} (a : A) : M A := fun st => (Ok a, st).

Definition raise {A} (e : exn) : M A := fun st => (Raise e, st).

Definition bind {A B} (m : M A) (k : A -> M B) : M B :=
  fun st =>
    match m st with
    | (Ok a, st') => k a st'
    | (Raise e, st') => (Raise e, st')
    end.

Definition lift {A} (r : result A) : M A := fun st => (r, st).

(** [try: m  except Exception as e: h e]. *)
Definition try_except {A} (m : M A) (h : exn -> M A) : M A :=
  fun st =>
    match m st with
    | (Ok a, st') => (Ok a, st')
    | (Raise e, st') => h e st'
    end.

Declare Scope monad_scope.
Delimit Scope monad_scope with monad.
Notation "x <- m ;; k" := (bind m (fun x => k))
  (at level 61, m at next level, right associativity) : monad_scope.
Notation "m ;; k" := (bind m (fun _ => k))
  (at level 61, right associativity) : monad_scope.
Notation "'let*' x ':=' r 'in' k" := (rbind r (fun x => k))
  (at level 61, x name, r at next level, right associativity).

Definition emit (ev : event) : M unit :=
  fun st =>
    (Ok tt, mkState (trace st ++ [ev]) (clock_reads st) (results st)
                    (display_name st)).

(** A library call: it is made, then it returns or raises. *)
Definition call (ev : event) (outcome : option exn) : M unit :=
  (emit ev ;;
   match outcome with
   | None => ret tt
   | Some e => raise e
   end)%monad.

Definition set_display_name (s : string) : M unit :=
  fun st => (Ok tt, mkState (trace st) (clock_reads st) (results st) (Some s)).

Definition get_display_name : M string :=
  fun st =>
    match display_name st with
    | Some s => (Ok s, st)
    | None => (Raise (UnboundLocalError "display_name"), st)
    end.

Definition set_results (l : list json) : M unit :=
  fun st => (Ok tt, mkState (trace st) (clock_reads st) l (display_name st)).

Definition get_results : M (list json) := fun st => (Ok (results st), st).

(** [results.append(r)]. *)
Definition append_result (r : json) : M unit :=
  fun st =>
    (Ok tt, mkState (trace st) (clock_reads st) (results st ++ [r])
                    (display_name st)).

(** [l[i]] on a list of strings. *)
Definition index (l : list string) (i : nat) : result string :=
  match nth_error l i with
  | Some x => Ok x
  | None => Raise (IndexError "list index out of range")
  end.

(** ** The handler *)

Definition cities : list string :=
  ["Pretoria"; "Cape%20Town"; "Johannesburg"; "Durban"].

Definition city_display : list string :=
  ["Pretoria"; "Cape Town"; "Johannesburg"; "Durban"].

Definition api_url (city api_key : string) : string :=
  "http://api.openweathermap.org/data/2.5/weather?q=" ++ city
    ++ "&appid=" ++ api_key ++ "&units=metric".

Definition s3_key (safe_city date timestamp : string) : string :=
  "raw-data/" ++ safe_city ++ "/" ++ date ++ "/" ++ timestamp ++ ".json".

(** [data[a][b]]. *)
Definition getitem2 (data : json) (a b : string) : result json :=
  let* x := Py.getitem data a in Py.getitem x b.

(** [data['weather'][0][b]]. *)
Definition weather0 (data : json) (b : string) : result json :=
  let* x := Py.getitem data "weather" in
  let* y := Py.getitem0 x in
  Py.getitem y b.

(** [data.get('main', {}).get('temp', 'N/A')] (line 61). *)
Definition current_temp_of (data : json) : result json :=
  let* main := Py.get data "main" (JObj []) in
  Py.get main "temp" (JStr "N/A").

(** [data['timestamp'] = timestamp; data['city'] = display_name]
    (lines 66 and 67). *)
Definition stamp (data : json) (timestamp display_name : string) : result json :=
  let* d1 := Py.setitem data "timestamp" (JStr timestamp) in
  Py.setitem d1 "city" (JStr display_name).

(** The arguments of [s3.put_object] (lines 73 to 83). *)
Definition raw_request (bucket_name display_name key timestamp : string)
           (data : json) : s3_request :=
  mkS3 bucket_name key data "application/json"
       [("city", display_name); ("collection_time", timestamp);
        ("data_source", "openweathermap")].

(** [Decimal(str(v))]. *)
Definition Decimal_str (v : json) : result decimal := Decimal (Py.str v).

(** The [Item] of [table.put_item]: its values are evaluated in the order
    they are written, and the first one that raises aborts the rest. *)
Definition build_item (display_name timestamp : string) (data : json)
  : result table_item :=
  let* v_temp := getitem2 data "main" "temp" in
  let* d_temp := Decimal_str v_temp in
  let* v_hum := getitem2 data "main" "humidity" in
  let* d_hum := Decimal_str v_hum in
  let* v_pres := getitem2 data "main" "pressure" in
  let* d_pres := Decimal_str v_pres in
  let* cond := weather0 data "main" in
  let* descr := weather0 data "description" in
  let* v_wind := getitem2 data "wind" "speed" in
  let* d_wind := Decimal_str v_wind in
  let* v_vis := Py.get data "visibility" (JInt 0) in
  let* d_vis := Decimal_str v_vis in
  let* v_cloud := getitem2 data "clouds" "all" in
  let* d_cloud := Decimal_str v_cloud in
  let* ctry := getitem2 data "sys" "country" in
  let* v_rise := getitem2 data "sys" "sunrise" in
  let* d_rise := Decimal_str v_rise in
  let* v_set := getitem2 data "sys" "sunset" in
  let* d_set := Decimal_str v_set in
  Ok (mkItem display_name timestamp d_temp d_hum d_pres cond descr d_wind
             d_vis d_cloud ctry d_rise d_set).

Definition success_entry (display_name timestamp : string) (current_temp : json)
  : json :=
  JObj [("city", JStr display_name); ("status", JStr "success");
        ("timestamp", JStr timestamp); ("temperature", current_temp)].

Definition error_entry (display_name error_msg : string) : json :=
  JObj [("city", JStr display_name); ("status", JStr "error");
        ("error", JStr error_msg)].

(** [r['status'] == 'success']. *)
Definition status_is_success (r : json) : result bool :=
  let* s := Py.getitem r "status" in
  Ok (match s with JStr x => String.eqb x "success" | _ => false end).

(** [[r for r in results if r['status'] == 'success']]. *)
Fixpoint successful (rs : list json) : result (list json) :=
  match rs with
  | [] => Ok []
  | r :: t =>
      let* b := status_is_success r in
      let* t' := successful t in
      Ok (if b then r :: t' else t')
  end.

Section Handler.

Variable w : world.

(** [datetime.now()]. *)
Definition datetime_now : M datetime :=
  fun st =>
    (Ok (now w (clock_reads st)),
     mkState (trace st) (S (clock_reads st)) (results st) (display_name st)).

(** The body of the [try] of one iteration (lines 51 to 111). *)
Definition city_try (api_key bucket_name : string) (i : nat) (city : string)
  : M unit :=
  (dn <- lift (index city_display i) ;;
   set_display_name dn ;;
   let url := api_url city api_key in
   emit (ev_urlopen url) ;;
   data <- lift (urlopen_json w url) ;;
   current_temp <- lift (current_temp_of data) ;;
   t <- datetime_now ;;
   let timestamp := isoformat t in
   data <- lift (stamp data timestamp dn) ;;
   let safe_city := replace_char " " "_" dn in
   d <- datetime_now ;;
   let req :=
     raw_request bucket_name dn (s3_key safe_city (strftime_Ymd d) timestamp)
                 timestamp data in
   call (ev_put_object req) (put_object w req) ;;
   it <- lift (build_item dn timestamp data) ;;
   call (ev_put_item it) (put_item w it) ;;
   append_result (success_entry dn timestamp current_temp))%monad.

(** The [except Exception as e] of one iteration (lines 113 to 120). *)
Definition city_except (e : exn) : M unit :=
  (let error_msg := exn_str e in
   dn <- get_display_name ;;
   append_result (error_entry dn error_msg))%monad.

Definition process_city (api_key bucket_name : string) (i : nat)
           (city : string) : M unit :=
  try_except (city_try api_key bucket_name i city) city_except.

(** [for i, city in enumerate(cities)], from index [i]. *)
Fixpoint for_cities (api_key bucket_name : string) (i : nat)
         (cs : list string) : M unit :=
  match cs with
  | [] => ret tt
  | city :: rest =>
      (process_city api_key bucket_name i city ;;
       for_cities api_key bucket_name (S i) rest)%monad
  end.

(** Lines 122 to 139. *)
Definition summary : M response :=
  (rs <- get_results ;;
   ok <- lift (successful rs) ;;
   q <- lift (true_div (List.length ok) (List.length rs)) ;;
   let success_rate := PrimFloat.mul q (float_of_nat 100) in
   t <- datetime_now ;;
   ret (mkResponse 200
          (JObj [("message", JStr "Weather data collection completed");
                 ("processed_cities", JInt (Z.of_nat (List.length rs)));
                 ("successful_cities", JInt (Z.of_nat (List.length ok)));
                 ("success_rate", JStr (format_1f success_rate ++ "%"));
                 ("execution_time", JStr (isoformat t));
                 ("results", JArr rs)])))%monad.

Definition missing_variable (name : string) : response :=
  mkResponse 400
    (JObj [("error", JStr ("Missing " ++ name ++ " environment variable"))]).

(** The body of the outer [try] (lines 20 to 139).  [not v] holds of
    [None] and of the empty string. *)
Definition handler_try : M response :=
  (call (ev_client "s3") (boto3_client w "s3") ;;
   call (ev_resource "dynamodb") (boto3_resource w "dynamodb") ;;
   call (ev_Table "WeatherData") (dynamodb_Table w "WeatherData") ;;
   match environ w "WEATHER_API_KEY" with
   | None | Some EmptyString => ret (missing_variable "WEATHER_API_KEY")
   | Some api_key =>
       match environ w "S3_BUCKET_NAME" with
       | None | Some EmptyString => ret (missing_variable "S3_BUCKET_NAME")
       | Some bucket_name =>
           set_results [] ;;
           for_cities api_key bucket_name 0 cities ;;
           summary
       end
   end)%monad.

(** The outer [except Exception as e] (lines 141 to 151). *)
Definition handler_except (e : exn) : M response :=
  (let error_msg := exn_str e in
   t <- datetime_now ;;
   ret (mkResponse 500
          (JObj [("error", JStr "Fatal error in weather data collection");
                 ("details", JStr error_msg);
                 ("execution_time", JStr (isoformat t))])))%monad.

(** [lambda_handler(event, context)]: neither argument is read. *)
Definition lambda_handler (event context : json) : result response * state :=
  try_except handler_try handler_except initial_state.

End Handler.

(** ** Concrete payloads and worlds, for running the handler *)

Module Sample.

(** A complete observation, with ["temp": 23.456]. *)
Definition fields_no_visibility : list (string * json) :=
  [("coord", JObj [("lon", JFloat 18.4232%float); ("lat", JFloat (-33.9258)%float)]);
   ("weather",
    JArr [JObj [("id", JInt 800); ("main", JStr "Clear");
                ("description", JStr "clear sky")]]);
   ("main",
    JObj [("temp", JFloat 23.456%float); ("humidity", JInt 60);
          ("pressure", JInt 1013)]);
   ("wind", JObj [("speed", JFloat 3.6%float); ("deg", JInt 180)]);
   ("clouds", JObj [("all", JInt 0)]);
   ("sys",
    JObj [("country", JStr "ZA"); ("sunrise", JInt 1709611200);
          ("sunset", JInt 1709656800)])].


Definition payload : json :=
  JObj (fields_no_visibility ++ [("visibility", JInt 10000)])%list.

(** A payload that is JSON but has no ["weather"] entry. *)
Definition payload_no_weather : json :=
  JObj [("main",
         JObj [("temp", JInt 20); ("humidity", JInt 60);
               ("pressure", JInt 1013)])].

Definition ten_o_clock : datetime := mkDatetime 2024 3 5 10 0 0 0.

Definition env (api_key bucket : option string) (name : string)
  : option string :=
  if String.eqb name "WEATHER_API_KEY" then api_key
  else if String.eqb name "S3_BUCKET_NAME" then bucket
  else None.

(** Everything works: every city answers [payload], every write returns. *)
Definition all_up : world :=
  mkWorld (env (Some "k3y") (Some "weather-raw"))
          (fun _ => None) (fun _ => None) (fun _ => None)
          (fun _ => Ok payload)
          (fun _ => None) (fun _ => None)
          (fun _ => ten_o_clock).

(** The same world with other environment variables. *)
Definition with_env (api_key bucket : option string) : world :=
  mkWorld (env api_key bucket)
          (boto3_client all_up) (boto3_resource all_up)
          (dynamodb_Table all_up) (urlopen_json all_up)
          (put_object all_up) (put_item all_up) (now all_up).

(** The same world where one URL answers with [r] instead. *)
Definition with_fetch (url : string) (r : result json) : world :=
  mkWorld (environ all_up)
          (boto3_client all_up) (boto3_resource all_up)
          (dynamodb_Table all_up)
          (fun u => if String.eqb u url then r else Ok payload)
          (put_object all_up) (put_item all_up) (now all_up).

(** No variable is set and [boto3.client('s3')] raises. *)
Definition no_key_no_client : world :=
  mkWorld (env None None)
          (fun _ => Some (ClientError "You must specify a region."))
          (fun _ => None) (fun _ => None)
          (fun _ => Ok payload)
          (fun _ => None) (fun _ => None)
          (fun _ => ten_o_clock).

(** The credential is the empty string and [boto3.resource('dynamodb')]
    raises. *)
Definition empty_key_no_resource : world :=
  mkWorld (env (Some EmptyString) (Some "weather-raw"))
          (fun _ => None)
          (fun _ => Some (ClientError "You must specify a region."))
          (fun _ => None)
          (fun _ => Ok payload)
          (fun _ => None) (fun _ => None)
          (fun _ => ten_o_clock).

(** The table rejects the rows of one city. *)
Definition table_down_for (city : string) : world :=
  mkWorld (environ all_up)
          (boto3_client all_up) (boto3_resource all_up)
          (dynamodb_Table all_up) (urlopen_json all_up)
          (put_object all_up)
          (fun it =>
             if String.eqb (item_city it) city
             then Some (ClientError "An error occurred (ThrottlingException)")
             else None)
          (now all_up).

End Sample.

(** ** One iteration in direct style

    [run_city] reads one iteration of the loop off the world: the calls it
    makes, the clock reads after it, and how its [try] block ends (the
    timestamp and echoed temperature, or the exception).  [n] is the number
    of clock reads before the iteration.  [city_try_run] below proves that
    the monadic code does exactly this. *)

Record city_run : Type := mkRun {
  run_events : list event;
  run_reads : nat;
  run_outcome : result (string * json)
}.

Definition city_request (w : world) (bucket_name dn : string) (n : nat)
           (stamped : json) : s3_request :=
  let ts := isoformat (now w n) in
  raw_request bucket_name dn
    (s3_key (replace_char " " "_" dn) (strftime_Ymd (now w (S n))) ts)
    ts stamped.

Definition run_city (w : world) (api_key bucket_name dn city : string)
           (n : nat) : city_run :=
  let url := api_url city api_key in
  match urlopen_json w url with
  | Raise e => mkRun [ev_urlopen url] n (Raise e)
  | Ok data =>
  match current_temp_of data with
  | Raise e => mkRun [ev_urlopen url] n (Raise e)
  | Ok current_temp =>
  let ts := isoformat (now w n) in
  match stamp data ts dn with
  | Raise e => mkRun [ev_urlopen url] (S n) (Raise e)
  | Ok stamped =>
  let req := city_request w bucket_name dn n stamped in
  match put_object w req with
  | Some e => mkRun [ev_urlopen url; ev_put_object req] (S (S n)) (Raise e)
  | None =>
  match build_item dn ts stamped with
  | Raise e => mkRun [ev_urlopen url; ev_put_object req] (S (S n)) (Raise e)
  | Ok it =>
  match put_item w it with
  | Some e =>
      mkRun [ev_urlopen url; ev_put_object req; ev_put_item it] (S (S n))
            (Raise e)
  | None =>
      mkRun [ev_urlopen url; ev_put_object req; ev_put_item it] (S (S n))
            (Ok (ts, current_temp))
  end end end end end end.

(** The entry appended to [results] for an iteration that ended with [o]. *)
Definition entry_of (dn : string) (o : result (string * json)) : json :=
  match o with
  | Ok (ts, current_temp) => success_entry dn ts current_temp
  | Raise e => error_entry dn (exn_str e)
  end.

Definition succeeded {A} (o : result A) : bool :=
  match o with Ok _ => true | Raise _ => false end.

(** The state after an iteration that starts in [st]. *)
Definition after_city (w : world) (api_key bucket_name dn city : string)
           (st : state) : state :=
  let r := run_city w api_key bucket_name dn city (clock_reads st) in
  mkState (trace st ++ run_events r) (run_reads r)
          (results st ++ [entry_of dn (run_outcome r)]) (Some dn).

(** The state after the three constructors and [results = []]. *)
Definition loop_start : state :=
  mkState [ev_client "s3"; ev_resource "dynamodb"; ev_Table "WeatherData"]
          0 [] None.

Definition after_loop (w : world) (api_key bucket_name : string) : state :=
  after_city w api_key bucket_name "Durban" "Durban"
    (after_city w api_key bucket_name "Johannesburg" "Johannesburg"
       (after_city w api_key bucket_name "Cape Town" "Cape%20Town"
          (after_city w api_key bucket_name "Pretoria" "Pretoria" loop_start))).

(** [not v] for what [os.environ.get] returns. *)
Definition missing (v : option string) : bool :=
  match v with
  | None | Some EmptyString => true
  | Some _ => false
  end.

Definition clients_up (w : world) : Prop :=
  boto3_client w "s3" = None /\ boto3_resource w "dynamodb" = None
  /\ dynamodb_Table w "WeatherData" = None.

(** The entry is one of the two shapes the loop appends. *)
Definition entry_status (r : json) : option string :=
  match r with
  | JObj fs => match Py.dict_get fs "status" with
               | Some (JStr s) => Some s
               | _ => None
               end
  | _ => None
  end.

Definition entry_city (r : json) : option string :=
  match r with
  | JObj fs => match Py.dict_get fs "city" with
               | Some (JStr s) => Some s
               | _ => None
               end
  | _ => None
  end.

Definition is_success (r : json) : bool :=
  match entry_status r with
  | Some s => String.eqb s "success"
  | None => false
  end.

Definition is_error (r : json) : bool :=
  match entry_status r with
  | Some s => String.eqb s "error"
  | None => false
  end.

(** A field of the body of a response. *)
Definition body_field (resp : response) (k : string) : option json :=
  match body resp with
  | JObj fs => Py.dict_get fs k
  | _ => None
  end.

(** HTTP and storage calls, as opposed to building the clients. *)
Definition is_io_call (ev : event) : bool :=
  match ev with
  | ev_urlopen _ | ev_put_object _ | ev_put_item _ => true
  | _ => false
  end.

(** [f"{successes / total * 100:.1f}%"]. *)
Definition success_rate_str (successes total : nat) : string :=
  format_1f
    (PrimFloat.mul
       (PrimFloat.div (float_of_nat successes) (float_of_nat total))
       (float_of_nat 100)) ++ "%".

(** The three kinds of response, as values. *)
Definition summary_response (rs : list json) (t : datetime) : response :=
  let ok := List.length (filter is_success rs) in
  mkResponse 200
    (JObj [("message", JStr "Weather data collection completed");
           ("processed_cities", JInt (Z.of_nat (List.length rs)));
           ("successful_cities", JInt (Z.of_nat ok));
           ("success_rate", JStr (success_rate_str ok (List.length rs)));
           ("execution_time", JStr (isoformat t));
           ("results", JArr rs)]).

Definition fatal_response (e : exn) (t : datetime) : response :=
  mkResponse 500
    (JObj [("error", JStr "Fatal error in weather data collection");
           ("details", JStr (exn_str e));
           ("execution_time", JStr (isoformat t))]).

Definition tick (st : state) : state :=
  mkState (trace st) (S (clock_reads st)) (results st) (display_name st).

(** The whole invocation in direct style ([handler_run_eq] below). *)
Definition handler_run (w : world) : result response * state :=
  let fatal e tr := (Ok (fatal_response e (now w 0)), mkState tr 1 [] None) in
  match boto3_client w "s3" with
  | Some e => fatal e [ev_client "s3"]
  | None =>
  match boto3_resource w "dynamodb" with
  | Some e => fatal e [ev_client "s3"; ev_resource "dynamodb"]
  | None =>
  match dynamodb_Table w "WeatherData" with
  | Some e => fatal e (trace loop_start)
  | None =>
  match environ w "WEATHER_API_KEY" with
  | None | Some EmptyString => (Ok (missing_variable "WEATHER_API_KEY"), loop_start)
  | Some api_key =>
  match environ w "S3_BUCKET_NAME" with
  | None | Some EmptyString => (Ok (missing_variable "S3_BUCKET_NAME"), loop_start)
  | Some bucket_name =>
      let st := after_loop w api_key bucket_name in
      (Ok (summary_response (results st) (now w (clock_reads st))), tick st)
  end end end end end.

(** [os.environ[name] = v] (or its removal, for [None]) before the call. *)
Definition set_env (w : world) (name : string) (v : option string) : world :=
  mkWorld (fun x => if String.eqb x name then v else environ w x)
          (boto3_client w) (boto3_resource w) (dynamodb_Table w)
          (urlopen_json w) (put_object w) (put_item w) (now w).

(** The status code of an invocation that returned. *)
Definition status_of (r : result response * state) : option nat :=
  match fst r with
  | Ok resp => Some (statusCode resp)
  | Raise _ => None
  end.

(** The payload has every field that [build_item] reads, with values that
    [Decimal] accepts. *)
Definition complete_payload (data : json) : Prop :=
  exists it, build_item EmptyString EmptyString data = Ok it.

(** Both stores accept every write. *)
Definition storage_up (w : world) : Prop :=
  (forall req, put_object w req = None) /\ (forall it, put_item w it = None).

(** [it] with other values for its two keys. *)
Definition item_named (dn ts : string) (it : table_item) : table_item :=
  mkItem dn ts (temperature it) (humidity it) (pressure it)
         (weather_condition it) (weather_description it) (wind_speed it)
         (visibility it) (cloudiness it) (country it) (sunrise it) (sunset it).

(** Each numeric column of the row [it] is [Decimal(str(v))] for the value
    [v] found in [data] at the column's path ([0] where an absent
    ["visibility"] is read). *)
Definition column_from (data : json) (a b : string) (d : decimal) : Prop :=
  exists v, getitem2 data a b = Ok v /\ Decimal (Py.str v) = Ok d.

Definition numeric_columns_from (data : json) (it : table_item) : Prop :=
  column_from data "main" "temp" (temperature it)
  /\ column_from data "main" "humidity" (humidity it)
  /\ column_from data "main" "pressure" (pressure it)
  /\ column_from data "wind" "speed" (wind_speed it)
  /\ (exists v, Py.get data "visibility" (JInt 0) = Ok v
                /\ Decimal (Py.str v) = Ok (visibility it))
  /\ column_from data "clouds" "all" (cloudiness it)
  /\ column_from data "sys" "sunrise" (sunrise it)
  /\ column_from data "sys" "sunset" (sunset it).

(** The success rate in the spec's words: [successes / total * 100] as an
    exact rational number, to one decimal place (half to even), then [%]. *)
Definition percent_one_decimal (successes total : nat) : string :=
  let tenths :=
    round_half_even (Z.of_nat successes * 1000) (Z.of_nat total) in
  str_of_Z (tenths / 10) ++ "." ++ str_of_Z (tenths mod 10) ++ "%".

(** The city answers a complete payload. *)
Definition healthy_city (w : world) (api_key city : string) : Prop :=
  exists d,
    urlopen_json w (api_url city api_key) = Ok (JObj d)
    /\ complete_payload (JObj d).

(** String forms in fixed notation: an optional minus, digits, and for
    [plain_literal] a point and more digits. *)
Definition all_digits (l : list ascii) : Prop :=
  Forall (fun c => Dec.is_digit c = true) l.

Definition sign_chars (neg : bool) : list ascii :=
  if neg then ["-"%char] else [].

Definition int_literal (neg : bool) (ip : list ascii) : string :=
  of_chars (sign_chars neg ++ ip).

Definition plain_literal (neg : bool) (ip fp : list ascii) : string :=
  of_chars (sign_chars neg ++ ip ++ "."%char :: fp).

(** The characters of the string form of a number. *)
Definition literal_char (c : ascii) : bool :=
  Dec.is_digit c || Ascii.eqb c "-" || Ascii.eqb c "." || Ascii.eqb c "e"
  || Ascii.eqb c "+".

Definition literal (l : list ascii) : Prop :=
  Forall (fun c => literal_char c = true) l.

(** The JSON text of [k / 100] written with two decimals, as in [-12.05]. *)
Definition two_decimals (k : Z) : string :=
  (if (k <? 0)%Z then "-" else EmptyString)
    ++ str_of_Z (Z.abs k / 100) ++ "."
    ++ zero_pad 2 (Z.to_nat (Z.abs k mod 100)).

(** The decimal [d] counted in hundredths, when it is a whole number of
    them. *)
Definition stored_hundredths (d : decimal) : option Z :=
  match d with
  | DFinite neg c e =>
      if (e <? -2)%Z then None
      else Some ((if neg then -1 else 1) * Z.of_N c * 10 ^ (e + 2))%Z
  | _ => None
  end.

(** The number [k / 100], read from its JSON text and converted for the
    table, is exactly [k] hundredths. *)
Definition exact_at (k : Z) : bool :=
  match Json.loads_number (two_decimals k) with
  | Some v =>
      match Decimal (Py.str v) with
      | Ok d =>
          match stored_hundredths d with
          | Some h => (h =? k)%Z
          | None => false
          end
      | Raise _ => false
      end
  | None => false
  end.

Fixpoint all_upto (n : nat) (f : Z -> bool) : bool :=
  match n with
  | O => f 0%Z
  | S m => f (Z.of_nat n) && f (- Z.of_nat n)%Z && all_upto m f
  end.

(** The entries of the response of an invocation, and the calls it made. *)
Definition entries_of (r : result response * state) : list json :=
  match fst r with
  | Ok resp =>
      match body_field resp "results" with
      | Some (JArr rs) => rs
      | _ => []
      end
  | Raise _ => []
  end.

Definition count_calls (f : event -> bool) (r : result response * state) : nat :=
  List.length (filter f (trace (snd r))).

Definition is_put_object (ev : event) : bool :=
  match ev with ev_put_object _ => true | _ => false end.

Definition is_put_item (ev : event) : bool :=
  match ev with ev_put_item _ => true | _ => false end.

(** ** Observations on a run, for the properties of the whole handler *)

(** The URLs requested, in the order of the requests. *)
Definition urls_of (tr : list event) : list string :=
  flat_map (fun ev => match ev with ev_urlopen u => [u] | _ => [] end) tr.

(** A [put_item] call that returned. *)
Definition accepted_row (w : world) (ev : event) : bool :=
  match ev with
  | ev_put_item it =>
      match put_item w it with None => true | Some _ => false end
  | _ => false
  end.

Definition returns {A} (o : option A) : bool :=
  match o with None => true | Some _ => false end.

(** The three boto3 constructors return. *)
Definition clients_upb (w : world) : bool :=
  returns (boto3_client w "s3") && returns (boto3_resource w "dynamodb")
  && returns (dynamodb_Table w "WeatherData").

(** The value of [api_key] in the handler. *)
Definition configured_key (w : world) : string :=
  match environ w "WEATHER_API_KEY" with
  | Some k => k
  | None => EmptyString
  end.

Definition returned_200 (r : result response * state) : bool :=
  match status_of r with
  | Some s => Nat.eqb s 200
  | None => false
  end.

Definition is_object (v : json) : bool :=
  match v with JObj _ => true | _ => false end.

(** The provider fails for every city: the name does not resolve. *)
Definition provider_down : world :=
  mkWorld (environ Sample.all_up)
          (boto3_client Sample.all_up) (boto3_resource Sample.all_up)
          (dynamodb_Table Sample.all_up)
          (fun _ => Raise (URLError "[Errno -2] Name or service not known"))
          (put_object Sample.all_up) (put_item Sample.all_up)
          (now Sample.all_up).

(** One URL answers with the JSON value [v], the others as in [all_up]. *)
Definition answering (city : string) (v : json) : world :=
  Sample.with_fetch (api_url city "k3y") (Ok v).

(** A complete observation whose temperature is [temp]. *)
Definition payload_with_temp (temp : json) : json :=
  JObj [("weather",
         JArr [JObj [("id", JInt 800); ("main", JStr "Clear");
                     ("description", JStr "clear sky")]]);
        ("main",
         JObj [("temp", temp); ("humidity", JInt 60); ("pressure", JInt 1013)]);
        ("wind", JObj [("speed", JFloat 3.6%float); ("deg", JInt 180)]);
        ("visibility", JInt 10000);
        ("clouds", JObj [("all", JInt 0)]);
        ("sys",
         JObj [("country", JStr "ZA"); ("sunrise", JInt 1709611200);
               ("sunset", JInt 1709656800)])].

(** The temperatures in the rows handed to the table for [city]. *)
Definition temperatures_for (city : string) (tr : list event) : list decimal :=
  flat_map (fun ev =>
              match ev with
              | ev_put_item it =>
                  if String.eqb (item_city it) city then [temperature it]
                  else []
              | _ => []
              end) tr.

(** The calls of one iteration: the request, then possibly a [put_object],
    then possibly a [put_item]. *)
Definition city_block (url : string) (evs : list event) : Prop :=
  evs = [ev_urlopen url]
  \/ (exists req, evs = [ev_urlopen url; ev_put_object req])
  \/ (exists req it, evs = [ev_urlopen url; ev_put_object req; ev_put_item it]).

(** * Properties *)

(** ** Strings *)

Lemma append_assoc (a b c : string) : (a ++ b) ++ c = a ++ (b ++ c).
Proof. induction a as [|x a IH]; cbn [append]; [reflexivity|now rewrite IH]. Qed.

Lemma chars_of_chars (l : list ascii) : chars (of_chars l) = l.
Proof. induction l as [|c l IH]; cbn; [reflexivity|now rewrite IH]. Qed.

(** ** Running the monadic code *)

Ltac run := cbv beta iota delta
  [bind ret raise lift try_except emit call set_display_name get_display_name
   set_results get_results append_result datetime_now
   trace clock_reads results display_name].

Lemma city_try_run (w : world) (api_key bucket_name city dn : string)
      (i : nat) (st : state) :
  index city_display i = Ok dn ->
  let r := run_city w api_key bucket_name dn city (clock_reads st) in
  city_try w api_key bucket_name i city st
  = (match run_outcome r with Ok _ => Ok tt | Raise e => Raise e end,
     mkState (trace st ++ run_events r) (run_reads r)
             (results st
                ++ match run_outcome r with
                   | Ok (ts, t) => [success_entry dn ts t]
                   | Raise _ => []
                   end)
             (Some dn)).
Proof.
  intros Hdn. destruct st as [tr n rs d0].
  unfold city_try, run_city, city_request. rewrite Hdn. run.
  destruct (urlopen_json w _) as [data|e]; cbn [run_outcome run_events run_reads];
    [|now rewrite app_nil_r].
  destruct (current_temp_of data) as [temp|e];
    cbn [run_outcome run_events run_reads]; [|now rewrite app_nil_r].
  destruct (stamp data _ dn) as [stamped|e];
    cbn [run_outcome run_events run_reads]; [|now rewrite app_nil_r].
  rewrite <- !app_assoc. cbn [app].
  destruct (put_object w _) as [e|];
    cbn [run_outcome run_events run_reads]; [now rewrite app_nil_r|].
  destruct (build_item dn _ stamped) as [it|e];
    cbn [run_outcome run_events run_reads]; [|now rewrite app_nil_r].
  rewrite <- !app_assoc. cbn [app].
  destruct (put_item w it) as [e|];
    cbn [run_outcome run_events run_reads]; [now rewrite app_nil_r|].
  reflexivity.
Qed.

Lemma process_city_run (w : world) (api_key bucket_name city dn : string)
      (i : nat) (st : state) :
  index city_display i = Ok dn ->
  process_city w api_key bucket_name i city st
  = (Ok tt, after_city w api_key bucket_name dn city st).
Proof.
  intros Hdn. unfold process_city, try_except, after_city.
  rewrite (city_try_run w api_key bucket_name city dn i st Hdn). cbv zeta.
  destruct (run_outcome _) as [[ts t]|e]; [reflexivity|].
  unfold city_except. run. now rewrite app_nil_r.
Qed.

Lemma for_cities_run (w : world) (api_key bucket_name : string) :
  for_cities w api_key bucket_name 0 cities loop_start
  = (Ok tt, after_loop w api_key bucket_name).
Proof.
  unfold cities, after_loop. cbn [for_cities]. unfold bind at 1.
  rewrite (process_city_run _ _ _ _ "Pretoria") by reflexivity.
  unfold bind at 1.
  rewrite (process_city_run _ _ _ _ "Cape Town") by reflexivity.
  unfold bind at 1.
  rewrite (process_city_run _ _ _ _ "Johannesburg") by reflexivity.
  unfold bind at 1.
  rewrite (process_city_run _ _ _ _ "Durban") by reflexivity.
  reflexivity.
Qed.

Lemma status_entry_of (dn : string) (o : result (string * json)) :
  status_is_success (entry_of dn o) = Ok (is_success (entry_of dn o))
  /\ is_success (entry_of dn o) = succeeded o
  /\ is_error (entry_of dn o) = negb (succeeded o)
  /\ entry_city (entry_of dn o) = Some dn.
Proof. destruct o as [[ts t]|e]; repeat split; reflexivity. Qed.

Lemma successful_filter (rs : list json) :
  Forall (fun r => status_is_success r = Ok (is_success r)) rs ->
  successful rs = Ok (filter is_success rs).
Proof.
  induction 1 as [|r rs Hr _ IH]; [reflexivity|].
  cbn [successful filter]. rewrite Hr, IH. cbn [rbind].
  now destruct (is_success r).
Qed.

Lemma summary_run (w : world) (st : state) :
  Forall (fun r => status_is_success r = Ok (is_success r)) (results st) ->
  results st <> [] ->
  summary w st
  = (Ok (summary_response (results st) (now w (clock_reads st))), tick st).
Proof.
  destruct st as [tr n rs d]. cbn [results clock_reads]. intros Hrs Hne.
  unfold summary. run. rewrite (successful_filter _ Hrs). unfold true_div.
  destruct rs as [|r rs]; [contradiction|]. reflexivity.
Qed.

Lemma after_loop_results (w : world) (api_key bucket_name : string) :
  exists o0 o1 o2 o3,
    results (after_loop w api_key bucket_name)
    = [entry_of "Pretoria" o0; entry_of "Cape Town" o1;
       entry_of "Johannesburg" o2; entry_of "Durban" o3].
Proof. unfold after_loop, after_city. cbn [results app]. do 4 eexists. reflexivity. Qed.

Theorem handler_run_eq (w : world) (event context : json) :
  lambda_handler w event context = handler_run w.
Proof.
  unfold lambda_handler, handler_run, handler_try, try_except.
  unfold call at 1. unfold bind at 1 2. unfold emit at 1.
  destruct (boto3_client w "s3") as [e|]; [reflexivity|].
  unfold ret at 1. unfold call at 1. unfold bind at 1 2. unfold emit at 1.
  destruct (boto3_resource w "dynamodb") as [e|]; [reflexivity|].
  unfold ret at 1. unfold call at 1. unfold bind at 1 2. unfold emit at 1.
  destruct (dynamodb_Table w "WeatherData") as [e|]; [reflexivity|].
  unfold ret at 1. cbn [trace clock_reads results display_name initial_state app].
  destruct (environ w "WEATHER_API_KEY") as [[|c k]|]; [reflexivity| |reflexivity].
  destruct (environ w "S3_BUCKET_NAME") as [[|c' b]|]; [reflexivity| |reflexivity].
  unfold bind at 1. unfold set_results at 1.
  cbn [trace clock_reads results display_name].
  unfold bind at 1. fold loop_start. rewrite for_cities_run.
  rewrite summary_run; [reflexivity| |].
  - destruct (after_loop_results w (String c k) (String c' b))
      as (o0 & o1 & o2 & o3 & ->).
    repeat constructor; apply status_entry_of.
  - destruct (after_loop_results w (String c k) (String c' b))
      as (o0 & o1 & o2 & o3 & ->). discriminate.
Qed.

(** ** The outer boundary *)

(** C2: for every event, context and world, [lambda_handler] returns a
    response (it never ends in an exception), with status 200, 400 or 500;
    an exception that escapes the outer [try] block gives status 500 and a
    body made of the fixed label, [str(e)] and the clock read in the handler,
    with no ["results"]; such an exception comes from one of the three
    constructor calls, so no HTTP or storage call was made; in particular a
    failing [boto3.client('s3')] gives that response after that one call. *)
Theorem lambda_handler_never_raises (w : world) (event context : json) :
  (exists resp st,
      lambda_handler w event context = (Ok resp, st)
      /\ (statusCode resp = 200 \/ statusCode resp = 400
          \/ statusCode resp = 500))
  /\ (forall e st,
        handler_try w initial_state = (Raise e, st) ->
        lambda_handler w event context
        = (Ok (mkResponse 500
                 (JObj [("error", JStr "Fatal error in weather data collection");
                        ("details", JStr (exn_str e));
                        ("execution_time",
                         JStr (isoformat (now w (clock_reads st))))])),
           tick st)
        /\ ~ clients_up w
        /\ forallb (fun ev => negb (is_io_call ev)) (trace st) = true)
  /\ (forall e,
        boto3_client w "s3" = Some e ->
        lambda_handler w event context
        = (Ok (fatal_response e (now w 0)), mkState [ev_client "s3"] 1 [] None)
        /\ body_field (fatal_response e (now w 0)) "results" = None).
Proof.
  split; [|split].
  - rewrite handler_run_eq. unfold handler_run.
    destruct (boto3_client w "s3"); [cbn; eauto 6|].
    destruct (boto3_resource w "dynamodb"); [cbn; eauto 6|].
    destruct (dynamodb_Table w "WeatherData"); [cbn; eauto 6|].
    destruct (environ w "WEATHER_API_KEY") as [[|c k]|]; [cbn; eauto 6| |cbn; eauto 6].
    destruct (environ w "S3_BUCKET_NAME") as [[|c' b]|]; cbn; eauto 6.
  - intros e st Hraise.
    assert (Hrun := handler_run_eq w event context).
    unfold lambda_handler, try_except in *. rewrite Hraise in *.
    split; [reflexivity|].
    destruct st as [tr n rs d]. unfold handler_except in Hrun.
    revert Hrun. run. unfold handler_run, clients_up. cbn [trace].
    destruct (boto3_client w "s3");
      [intros H; inversion H; split; [now intros [? _]|reflexivity]|].
    destruct (boto3_resource w "dynamodb");
      [intros H; inversion H; split; [now intros (_ & ? & _)|reflexivity]|].
    destruct (dynamodb_Table w "WeatherData");
      [intros H; inversion H; split; [now intros (_ & _ & ?)|reflexivity]|].
    destruct (environ w "WEATHER_API_KEY") as [[|c k]|]; try discriminate.
    destruct (environ w "S3_BUCKET_NAME") as [[|c' b]|]; discriminate.
  - intros e He. rewrite handler_run_eq. unfold handler_run. rewrite He.
    split; reflexivity.
Qed.

Lemma lambda_handler_never_raises_witness :
  lambda_handler Sample.no_key_no_client JNull JNull
  = (Ok (fatal_response (ClientError "You must specify a region.")
                        Sample.ten_o_clock),
     mkState [ev_client "s3"] 1 [] None)
  /\ body_field (fatal_response (ClientError "You must specify a region.")
                                Sample.ten_o_clock) "results" = None.
Proof.
  exact (proj2 (proj2 (lambda_handler_never_raises
                         Sample.no_key_no_client JNull JNull))
               (ClientError "You must specify a region.") eq_refl).
Defined.

(** ** Configuration checks *)

(** C3 as stated does not hold: the clients are built before the environment
    is read, so with the credential absent and [boto3.client('s3')] raising
    the status is 500, not 400. *)
Lemma absent_credential_with_failing_client :
  environ Sample.no_key_no_client "WEATHER_API_KEY" = None
  /\ status_of (lambda_handler Sample.no_key_no_client JNull JNull) = Some 500.
Proof. split; reflexivity. Qed.

(** C3, amended: once the three boto3 constructors have returned, an absent
    credential gives status 400 with body
    [{error: "Missing WEATHER_API_KEY environment variable"}], and with the
    credential set an absent bucket name gives the same with
    [S3_BUCKET_NAME]; in both cases the only calls made are the three
    constructors: no HTTP request, no storage write.  When one of the
    constructors raises, the status is 500 whatever the environment holds. *)
Theorem absent_configuration (w : world) (event context : json) :
  (clients_up w ->
   (environ w "WEATHER_API_KEY" = None ->
    lambda_handler w event context
    = (Ok (mkResponse 400
             (JObj [("error",
                     JStr "Missing WEATHER_API_KEY environment variable")])),
       loop_start))
   /\ (missing (environ w "WEATHER_API_KEY") = false ->
       environ w "S3_BUCKET_NAME" = None ->
       lambda_handler w event context
       = (Ok (mkResponse 400
                (JObj [("error",
                        JStr "Missing S3_BUCKET_NAME environment variable")])),
          loop_start))
   /\ trace loop_start
      = [ev_client "s3"; ev_resource "dynamodb"; ev_Table "WeatherData"]
   /\ filter is_io_call (trace loop_start) = [])
  /\ (~ clients_up w ->
      status_of (lambda_handler w event context) = Some 500).
Proof.
  rewrite handler_run_eq. unfold handler_run, clients_up. split.
  - intros (Hc & Hr & Ht). rewrite Hc, Hr, Ht. repeat split.
    + now intros ->.
    + intros Hk Hb. rewrite Hb.
      now destruct (environ w "WEATHER_API_KEY") as [[|c k]|].
  - intros Hdown.
    destruct (boto3_client w "s3"); [reflexivity|].
    destruct (boto3_resource w "dynamodb"); [reflexivity|].
    destruct (dynamodb_Table w "WeatherData"); [reflexivity|].
    now contradiction Hdown.
Qed.

Lemma absent_configuration_witness :
  clients_up (Sample.with_env None (Some "weather-raw"))
  /\ lambda_handler (Sample.with_env None (Some "weather-raw")) JNull JNull
     = (Ok (missing_variable "WEATHER_API_KEY"), loop_start).
Proof.
  assert (H : clients_up (Sample.with_env None (Some "weather-raw")))
    by (repeat split).
  split; [exact H|].
  exact (proj1 (proj1 (absent_configuration
                         (Sample.with_env None (Some "weather-raw"))
                         JNull JNull) H)
               eq_refl).
Defined.

(** C8 as stated does not hold, for the same reason as C3: with the
    credential set to the empty string and [boto3.resource('dynamodb')]
    raising the status is 500. *)
Lemma empty_credential_with_failing_resource :
  environ Sample.empty_key_no_resource "WEATHER_API_KEY" = Some EmptyString
  /\ status_of (lambda_handler Sample.empty_key_no_resource JNull JNull)
     = Some 500.
Proof. split; reflexivity. Qed.

(** C8, amended: in every world, setting either variable to the empty string
    gives the same result as removing it; once the three boto3 constructors
    have returned, an empty credential gives status 400 with the
    [WEATHER_API_KEY] message whatever the bucket name is (the credential is
    checked first), and with the credential set an empty bucket name gives
    status 400 with the [S3_BUCKET_NAME] message. *)
Theorem empty_configuration (w : world) (event context : json) :
  lambda_handler (set_env w "WEATHER_API_KEY" (Some EmptyString)) event context
  = lambda_handler (set_env w "WEATHER_API_KEY" None) event context
  /\ lambda_handler (set_env w "S3_BUCKET_NAME" (Some EmptyString)) event context
     = lambda_handler (set_env w "S3_BUCKET_NAME" None) event context
  /\ (clients_up w ->
      (environ w "WEATHER_API_KEY" = Some EmptyString ->
       lambda_handler w event context
       = (Ok (mkResponse 400
                (JObj [("error",
                        JStr "Missing WEATHER_API_KEY environment variable")])),
          loop_start))
      /\ (missing (environ w "WEATHER_API_KEY") = false ->
          environ w "S3_BUCKET_NAME" = Some EmptyString ->
          lambda_handler w event context
          = (Ok (mkResponse 400
                   (JObj [("error",
                           JStr "Missing S3_BUCKET_NAME environment variable")])),
             loop_start))).
Proof.
  rewrite !handler_run_eq. unfold handler_run, set_env.
  cbn [environ boto3_client boto3_resource dynamodb_Table now String.eqb
       Ascii.eqb Bool.eqb].
  split; [|split].
  - destruct (boto3_client w "s3"); [reflexivity|].
    destruct (boto3_resource w "dynamodb"); [reflexivity|].
    now destruct (dynamodb_Table w "WeatherData").
  - destruct (boto3_client w "s3"); [reflexivity|].
    destruct (boto3_resource w "dynamodb"); [reflexivity|].
    destruct (dynamodb_Table w "WeatherData"); [reflexivity|].
    now destruct (environ w "WEATHER_API_KEY") as [[|c k]|].
  - intros (Hc & Hr & Ht). rewrite Hc, Hr, Ht. split.
    + now intros ->.
    + intros Hk Hb. rewrite Hb.
      now destruct (environ w "WEATHER_API_KEY") as [[|c k]|].
Qed.

Lemma empty_configuration_witness :
  clients_up (Sample.with_env (Some "k3y") (Some EmptyString))
  /\ lambda_handler (Sample.with_env (Some "k3y") (Some EmptyString)) JNull JNull
     = (Ok (missing_variable "S3_BUCKET_NAME"), loop_start).
Proof.
  assert (H : clients_up (Sample.with_env (Some "k3y") (Some EmptyString)))
    by (repeat split).
  split; [exact H|].
  exact (proj2 (proj2 (proj2 (empty_configuration
                  (Sample.with_env (Some "k3y") (Some EmptyString))
                  JNull JNull)) H)
               eq_refl eq_refl).
Defined.

(** ** The shape of a status-200 response *)

(** C10: whenever the handler returns status 200, ["results"] is a list of
    exactly four entries whose ["city"] fields are Pretoria, Cape Town,
    Johannesburg and Durban in this order, each entry has status success or
    error, and ["processed_cities"] is 4. *)
Theorem results_one_per_city (w : world) (event context : json)
        (resp : response) (st : state) :
  lambda_handler w event context = (Ok resp, st) ->
  statusCode resp = 200 ->
  exists r0 r1 r2 r3,
    body_field resp "results" = Some (JArr [r0; r1; r2; r3])
    /\ map entry_city [r0; r1; r2; r3]
       = [Some "Pretoria"; Some "Cape Town"; Some "Johannesburg"; Some "Durban"]
    /\ forallb (fun r => xorb (is_success r) (is_error r)) [r0; r1; r2; r3]
       = true
    /\ body_field resp "processed_cities" = Some (JInt 4).
Proof.
  rewrite handler_run_eq. unfold handler_run.
  destruct (boto3_client w "s3"); [now intros [= <- _]|].
  destruct (boto3_resource w "dynamodb"); [now intros [= <- _]|].
  destruct (dynamodb_Table w "WeatherData"); [now intros [= <- _]|].
  destruct (environ w "WEATHER_API_KEY") as [[|c k]|];
    [now intros [= <- _]| |now intros [= <- _]].
  destruct (environ w "S3_BUCKET_NAME") as [[|c' b]|];
    [now intros [= <- _]| |now intros [= <- _]].
  cbv zeta.
  destruct (after_loop_results w (String c k) (String c' b))
    as (o0 & o1 & o2 & o3 & ->).
  intros [= <- _] _.
  exists (entry_of "Pretoria" o0), (entry_of "Cape Town" o1),
    (entry_of "Johannesburg" o2), (entry_of "Durban" o3).
  repeat split.
  - cbn [map].
    now rewrite !(proj2 (proj2 (proj2 (status_entry_of _ _)))).
  - cbn [forallb].
    rewrite !(proj1 (proj2 (status_entry_of _ _))),
            !(proj1 (proj2 (proj2 (status_entry_of _ _)))).
    now destruct (succeeded o0), (succeeded o1), (succeeded o2), (succeeded o3).
Qed.

Lemma results_one_per_city_witness :
  exists r0 r1 r2 r3,
    body_field (summary_response
                  (results (after_loop Sample.all_up "k3y" "weather-raw"))
                  Sample.ten_o_clock) "results"
    = Some (JArr [r0; r1; r2; r3])
    /\ map entry_city [r0; r1; r2; r3]
       = [Some "Pretoria"; Some "Cape Town"; Some "Johannesburg"; Some "Durban"]
    /\ forallb (fun r => xorb (is_success r) (is_error r)) [r0; r1; r2; r3]
       = true
    /\ body_field (summary_response
                     (results (after_loop Sample.all_up "k3y" "weather-raw"))
                     Sample.ten_o_clock) "processed_cities"
       = Some (JInt 4).
Proof.
  exact (results_one_per_city Sample.all_up JNull JNull
           (summary_response
              (results (after_loop Sample.all_up "k3y" "weather-raw"))
              Sample.ten_o_clock)
           (tick (after_loop Sample.all_up "k3y" "weather-raw"))
           (handler_run_eq Sample.all_up JNull JNull) eq_refl).
Defined.

(** ** Payloads *)

Lemma dict_get_set_other (d : list (string * json)) (k k' : string) (v : json) :
  String.eqb k' k = false ->
  Py.dict_get (Py.dict_set d k v) k' = Py.dict_get d k'.
Proof.
  intros Hk. induction d as [|[k0 v0] t IH]; cbn [Py.dict_set Py.dict_get].
  - now rewrite Hk.
  - destruct (String.eqb k k0) eqn:E; cbn [Py.dict_get].
    + apply String.eqb_eq in E. subst k0. now rewrite Hk.
    + now rewrite IH.
Qed.

Lemma stamp_obj (d : list (string * json)) (ts dn : string) :
  stamp (JObj d) ts dn
  = Ok (JObj (Py.dict_set (Py.dict_set d "timestamp" (JStr ts)) "city"
                          (JStr dn))).
Proof. reflexivity. Qed.

Lemma stamp_is_obj (data stamped : json) (ts dn : string) :
  stamp data ts dn = Ok stamped ->
  exists d, data = JObj d /\ stamped
    = JObj (Py.dict_set (Py.dict_set d "timestamp" (JStr ts)) "city" (JStr dn)).
Proof. destruct data; try discriminate. intros [= <-]. eauto. Qed.

Lemma current_temp_is_obj (data v : json) :
  current_temp_of data = Ok v -> exists d, data = JObj d.
Proof. destruct data; try discriminate. eauto. Qed.

Lemma stamped_get (d : list (string * json)) (ts dn k : string) :
  String.eqb k "timestamp" = false -> String.eqb k "city" = false ->
  Py.dict_get (Py.dict_set (Py.dict_set d "timestamp" (JStr ts)) "city" (JStr dn)) k
  = Py.dict_get d k.
Proof. intros H1 H2. now rewrite !dict_get_set_other. Qed.

(** [build_item] reads six keys of the payload and nothing else. *)
Lemma build_item_ext (dn ts : string) (d d' : list (string * json)) :
  (forall k, In k ["main"; "weather"; "wind"; "visibility"; "clouds"; "sys"] ->
             Py.dict_get d' k = Py.dict_get d k) ->
  build_item dn ts (JObj d') = build_item dn ts (JObj d).
Proof.
  intros H.
  assert (Hm := H "main"). assert (Hw := H "weather"). assert (Hi := H "wind").
  assert (Hv := H "visibility"). assert (Hc := H "clouds"). assert (Hs := H "sys").
  cbn [In] in *.
  unfold build_item, getitem2, weather0. cbn [Py.getitem Py.get].
  rewrite Hm, Hw, Hi, Hv, Hc, Hs by tauto. reflexivity.
Qed.

Lemma getitem2_ext (d d' : list (string * json)) (a b : string) :
  Py.dict_get d' a = Py.dict_get d a ->
  getitem2 (JObj d') a b = getitem2 (JObj d) a b.
Proof. intros H. unfold getitem2. cbn [Py.getitem]. now rewrite H. Qed.

Lemma build_item_stamped (dn ts ts' dn' : string) (d : list (string * json)) :
  build_item dn ts
    (JObj (Py.dict_set (Py.dict_set d "timestamp" (JStr ts')) "city" (JStr dn')))
  = build_item dn ts (JObj d).
Proof.
  apply build_item_ext. intros k Hk. cbn [In] in Hk.
  apply stamped_get;
    repeat (destruct Hk as [<-|Hk]; [reflexivity|]); contradiction.
Qed.

Ltac step_rbind :=
  match goal with
  | |- context [rbind ?r _] =>
      lazymatch r with
      | rbind _ _ => fail
      | _ => destruct r eqn:?; cbn [rbind]
      end
  end.

Lemma build_item_named (dn ts : string) (data : json) :
  build_item dn ts data
  = let* it := build_item EmptyString EmptyString data in
    Ok (item_named dn ts it).
Proof.
  unfold build_item. repeat (step_rbind; [|reflexivity]). reflexivity.
Qed.

Lemma build_item_columns (dn ts : string) (data : json) (it : table_item) :
  build_item dn ts data = Ok it ->
  numeric_columns_from data it /\ item_city it = dn /\ item_timestamp it = ts.
Proof.
  unfold build_item. repeat (step_rbind; [|discriminate]).
  intros [= <-]. unfold numeric_columns_from, column_from, Decimal_str in *.
  cbn [temperature humidity pressure wind_speed visibility cloudiness sunrise
       sunset item_city item_timestamp].
  repeat split; eauto.
Qed.

Lemma build_item_temp (dn ts : string) (data : json) (it : table_item) :
  build_item dn ts data = Ok it ->
  exists v, getitem2 data "main" "temp" = Ok v /\ current_temp_of data = Ok v.
Proof.
  intros H. apply build_item_columns in H.
  destruct H as (((v & Hv & _) & _) & _). exists v. split; [exact Hv|].
  unfold getitem2, current_temp_of in *. destruct data; try discriminate.
  cbn [Py.getitem Py.get rbind] in *.
  destruct (Py.dict_get fields "main") as [m|]; [|discriminate].
  cbn [rbind] in *. destruct m; try discriminate.
  cbn [Py.getitem Py.get] in *.
  now destruct (Py.dict_get fields0 "temp").
Qed.

(** [data[a][b]] succeeds on two nested dicts only. *)
Lemma getitem2_dict (data : json) (a b : string) (v : json) :
  getitem2 data a b = Ok v ->
  exists d m,
    data = JObj d /\ Py.dict_get d a = Some (JObj m)
    /\ Py.dict_get m b = Some v.
Proof.
  unfold getitem2. destruct data as [| | | | |items|d]; try discriminate.
  cbn [Py.getitem rbind].
  destruct (Py.dict_get d a) as [x|] eqn:Ea; [|discriminate].
  cbn [rbind]. destruct x as [| | | | |items|m]; try discriminate.
  cbn [Py.getitem]. destruct (Py.dict_get m b) as [y|] eqn:Eb; [|discriminate].
  intros [= <-]. exists d, m. repeat split; assumption.
Qed.

(** A complete payload and stores that accept every write: the iteration
    makes its three calls and succeeds. *)
Lemma run_city_healthy (w : world) (api_key bucket_name dn city : string)
      (n : nat) (d : list (string * json)) :
  urlopen_json w (api_url city api_key) = Ok (JObj d) ->
  complete_payload (JObj d) ->
  storage_up w ->
  exists temp it0,
    getitem2 (JObj d) "main" "temp" = Ok temp
    /\ build_item EmptyString EmptyString (JObj d) = Ok it0
    /\ run_city w api_key bucket_name dn city n
       = let ts := isoformat (now w n) in
         let stamped :=
           JObj (Py.dict_set (Py.dict_set d "timestamp" (JStr ts)) "city"
                             (JStr dn)) in
         mkRun [ev_urlopen (api_url city api_key);
                ev_put_object (city_request w bucket_name dn n stamped);
                ev_put_item (item_named dn ts it0)]
               (S (S n)) (Ok (ts, temp)).
Proof.
  intros Hf [it0 Hit] [Hpo Hpi].
  destruct (build_item_temp _ _ _ _ Hit) as (temp & Hg & Hc).
  exists temp, it0. repeat split; [exact Hg|exact Hit|].
  unfold run_city. rewrite Hf, Hc, stamp_obj, Hpo.
  cbv zeta. rewrite build_item_stamped, build_item_named, Hit. cbn [rbind].
  now rewrite Hpi.
Qed.

(** ** One city *)

Ltac run_stages w :=
  unfold run_city;
  destruct (urlopen_json w _) as [data|e0] eqn:Hfetch;
    [destruct (current_temp_of data) as [temp|e0] eqn:Htemp;
     [cbv zeta; destruct (stamp data _ _) as [stamped|e0] eqn:Hstamp;
      [destruct (put_object w _) as [e0|] eqn:Hput;
       [|destruct (build_item _ _ stamped) as [it0|e0] eqn:Hitem;
         [destruct (put_item w it0) as [e0|] eqn:Hrow|]]|]|]|];
  cbn [run_events run_reads run_outcome entry_of].

Ltac in_events :=
  repeat match goal with
         | H : In _ (_ :: _) |- _ => destruct H as [H|H]
         | H : In _ [] |- _ => contradiction H
         | H : ev_urlopen _ = _ |- _ => discriminate H
         | H : ev_put_object _ = ev_put_item _ |- _ => discriminate H
         | H : ev_put_item _ = ev_put_object _ |- _ => discriminate H
         | H : ev_put_object _ = ev_put_object _ |- _ => injection H as <-
         | H : ev_put_item _ = ev_put_item _ |- _ => injection H as <-
         end.

(** C9: an iteration appends exactly one entry.  If the entry has status
    success, the iteration made its HTTP request, then [put_object], then
    [put_item], both writes returned, and the entry is
    [{city, status: success, timestamp, temperature}] with the iteration's
    timestamp (the one of the row) and the value found at ["main"]["temp"]
    of the payload.  If [put_object] raises, the entry is
    [{city, status: error, error: str(e)}] for that exception and no
    [put_item] follows.  If [put_item] raises, the entry is the error entry
    for that exception, and the [put_object] before it had returned: nothing
    is called after the failed write, so the object stays. *)
Theorem success_only_after_both_writes
        (w : world) (api_key bucket_name city dn : string) (i : nat)
        (st : state) :
  index city_display i = Ok dn ->
  exists entry evs st',
    process_city w api_key bucket_name i city st = (Ok tt, st')
    /\ results st' = (results st ++ [entry])%list
    /\ trace st' = (trace st ++ evs)%list
    /\ (is_success entry = true ->
        exists data temp req it,
          evs = [ev_urlopen (api_url city api_key); ev_put_object req;
                 ev_put_item it]
          /\ put_object w req = None /\ put_item w it = None
          /\ urlopen_json w (api_url city api_key) = Ok data
          /\ current_temp_of data = Ok temp
          /\ getitem2 data "main" "temp" = Ok temp
          /\ (exists d m,
                data = JObj d /\ Py.dict_get d "main" = Some (JObj m)
                /\ Py.dict_get m "temp" = Some temp)
          /\ item_timestamp it = isoformat (now w (clock_reads st))
          /\ entry
             = JObj [("city", JStr dn); ("status", JStr "success");
                     ("timestamp", JStr (isoformat (now w (clock_reads st))));
                     ("temperature", temp)])
    /\ (forall req e,
          In (ev_put_object req) evs -> put_object w req = Some e ->
          entry = JObj [("city", JStr dn); ("status", JStr "error");
                        ("error", JStr (exn_str e))]
          /\ evs = [ev_urlopen (api_url city api_key); ev_put_object req])
    /\ (forall it e,
          In (ev_put_item it) evs -> put_item w it = Some e ->
          entry = JObj [("city", JStr dn); ("status", JStr "error");
                        ("error", JStr (exn_str e))]
          /\ exists req,
              put_object w req = None
              /\ evs = [ev_urlopen (api_url city api_key); ev_put_object req;
                        ev_put_item it]).
Proof.
  intros Hdn. do 3 eexists.
  split; [apply process_city_run; exact Hdn|].
  unfold after_city. cbn [results trace].
  split; [reflexivity|]. split; [reflexivity|].
  run_stages w; (split; [|split]);
    try (intros Hs; discriminate Hs);
    try (intros x e Hin Hx; in_events; congruence).
  - intros x e Hin Hx. in_events. rewrite Hput in Hx. injection Hx as <-.
    split; reflexivity.
  - intros x e Hin Hx. in_events. rewrite Hrow in Hx. injection Hx as <-.
    split; [reflexivity|]. eauto.
  - intros _. exists data, temp. do 2 eexists.
    destruct (stamp_is_obj _ _ _ _ Hstamp) as (d & -> & ->).
    assert (Hitem' := Hitem). rewrite build_item_stamped in Hitem'.
    destruct (build_item_temp _ _ _ _ Hitem') as (v & Hg & Hc).
    assert (v = temp) by congruence. subst v.
    do 5 (split; [first [reflexivity | assumption]|]).
    split; [exact Hg|]. split; [exact (getitem2_dict _ _ _ _ Hg)|].
    split; [apply (build_item_columns _ _ _ _ Hitem)|reflexivity].
Qed.

Lemma success_only_after_both_writes_witness :
  exists entry evs st' fs,
    process_city Sample.all_up "k3y" "weather-raw" 1 "Cape%20Town" loop_start
    = (Ok tt, st')
    /\ results st' = (results loop_start ++ [entry])%list
    /\ trace st' = (trace loop_start ++ evs)%list
    /\ entry = JObj fs
    /\ Py.dict_get fs "city" = Some (JStr "Cape Town")
    /\ Py.dict_get fs "status" = Some (JStr "success")
    /\ Py.dict_get fs "timestamp" = Some (JStr "2024-03-05T10:00:00")
    /\ Py.dict_get fs "temperature" = Some (JFloat 23.456%float).
Proof.
  destruct (success_only_after_both_writes
              Sample.all_up "k3y" "weather-raw" "Cape%20Town" "Cape Town" 1
              loop_start eq_refl)
    as (entry & evs & st' & Hrun & Hres & Htr & _).
  exists entry, evs, st'.
  assert (Hst : results st'
                = [JObj [("city", JStr "Cape Town"); ("status", JStr "success");
                         ("timestamp", JStr "2024-03-05T10:00:00");
                         ("temperature", JFloat 23.456%float)]]).
  { revert Hrun. vm_compute. intros [= <-]. reflexivity. }
  rewrite Hst in Hres. cbn [results loop_start app] in Hres.
  injection Hres as <-. eexists.
  split; [exact Hrun|]. split; [exact Hst|]. split; [exact Htr|].
  split; [reflexivity|]. repeat split; reflexivity.
Defined.

(** C6: every [put_object] of an iteration has the key
    [raw-data/<city>/<YYYY>/<MM>/<DD>/<timestamp>.json], where [<city>] is
    the display name with each space replaced by an underscore, [<timestamp>]
    is the ISO form of the iteration's first clock read and the date is that
    of its second clock read; the display name in the metadata keeps its
    space.  A payload that is an object (with ["main"] absent or an object)
    is written.  For Cape Town, when the first read is 2024-03-05T10:00:00
    and the second falls on the same day, the key is
    [raw-data/Cape_Town/2024/03/05/2024-03-05T10:00:00.json]. *)
Theorem raw_object_key
        (w : world) (api_key bucket_name city dn : string) (i : nat)
        (st : state) :
  index city_display i = Ok dn ->
  let t := now w (clock_reads st) in
  let d := now w (S (clock_reads st)) in
  exists evs st',
    process_city w api_key bucket_name i city st = (Ok tt, st')
    /\ trace st' = (trace st ++ evs)%list
    /\ (forall req,
          In (ev_put_object req) evs ->
          Key req
          = "raw-data/" ++ replace_char " " "_" dn ++ "/"
              ++ zero_pad 4 (year d) ++ "/" ++ zero_pad 2 (month d) ++ "/"
              ++ zero_pad 2 (day d) ++ "/" ++ isoformat t ++ ".json"
          /\ Metadata req
             = [("city", dn); ("collection_time", isoformat t);
                ("data_source", "openweathermap")])
    /\ (forall data temp,
          urlopen_json w (api_url city api_key) = Ok data ->
          current_temp_of data = Ok temp ->
          exists req, In (ev_put_object req) evs)
    /\ (dn = "Cape Town" ->
        t = mkDatetime 2024 3 5 10 0 0 0 ->
        (year d, month d, day d) = (2024, 3, 5) ->
        forall req,
          In (ev_put_object req) evs ->
          Key req = "raw-data/Cape_Town/2024/03/05/2024-03-05T10:00:00.json"
          /\ In ("city", "Cape Town") (Metadata req)).
Proof.
  intros Hdn t d. do 2 eexists.
  split; [apply process_city_run; exact Hdn|].
  unfold after_city. cbn [results trace].
  split; [reflexivity|].
  assert (Hkey : forall stamped,
             Key (city_request w bucket_name dn (clock_reads st) stamped)
             = "raw-data/" ++ replace_char " " "_" dn ++ "/"
                 ++ zero_pad 4 (year d) ++ "/" ++ zero_pad 2 (month d) ++ "/"
                 ++ zero_pad 2 (day d) ++ "/" ++ isoformat t ++ ".json").
  { intros stamped. unfold city_request, raw_request, s3_key, strftime_Ymd.
    cbn [Key]. fold d t. now rewrite !append_assoc. }
  assert (Hcape : dn = "Cape Town" ->
                  t = mkDatetime 2024 3 5 10 0 0 0 ->
                  (year d, month d, day d) = (2024, 3, 5) ->
                  forall stamped,
                    Key (city_request w bucket_name dn (clock_reads st) stamped)
                    = "raw-data/Cape_Town/2024/03/05/2024-03-05T10:00:00.json").
  { intros -> Ht [= Hy Hm Hd] stamped. rewrite Hkey, Ht, Hy, Hm, Hd.
    vm_compute. reflexivity. }
  run_stages w; (split; [|split]).
  all: try (intros x Hin; in_events; (split; [apply Hkey|reflexivity])).
  all: try (intros E Ht Hd x Hin; in_events;
            (split; [now apply Hcape|subst dn; left; reflexivity])).
  all: intros x y Hx Hy;
    first [ eexists; right; left; reflexivity
          | congruence
          | assert (data = x) by congruence; subst x;
            destruct (current_temp_is_obj _ _ Htemp) as [o ->]; discriminate ].
Qed.

Lemma raw_object_key_witness :
  exists evs st',
    process_city Sample.all_up "k3y" "weather-raw" 1 "Cape%20Town" loop_start
    = (Ok tt, st')
    /\ trace st' = (trace loop_start ++ evs)%list
    /\ (exists req, In (ev_put_object req) evs)
    /\ (forall req,
          In (ev_put_object req) evs ->
          Key req = "raw-data/Cape_Town/2024/03/05/2024-03-05T10:00:00.json"
          /\ In ("city", "Cape Town") (Metadata req)).
Proof.
  destruct (raw_object_key Sample.all_up "k3y" "weather-raw" "Cape%20Town"
                           "Cape Town" 1 loop_start eq_refl)
    as (evs & st' & Hrun & Htr & _ & Hmade & Hcape).
  exists evs, st'. split; [exact Hrun|]. split; [exact Htr|].
  split; [exact (Hmade Sample.payload (JFloat 23.456%float) eq_refl eq_refl)|].
  exact (Hcape eq_refl eq_refl eq_refl).
Defined.

(** ** The table row *)



Lemma Decimal_str_zero : Decimal (Py.str (JInt 0)) = Ok (DFinite false 0 0).
Proof. vm_compute. reflexivity. Qed.




(** ** The whole loop *)

Lemma after_loop_unfold (w : world) (api_key bucket_name : string) :
  let r0 := run_city w api_key bucket_name "Pretoria" "Pretoria" 0 in
  let r1 := run_city w api_key bucket_name "Cape Town" "Cape%20Town"
                     (run_reads r0) in
  let r2 := run_city w api_key bucket_name "Johannesburg" "Johannesburg"
                     (run_reads r1) in
  let r3 := run_city w api_key bucket_name "Durban" "Durban" (run_reads r2) in
  results (after_loop w api_key bucket_name)
  = [entry_of "Pretoria" (run_outcome r0); entry_of "Cape Town" (run_outcome r1);
     entry_of "Johannesburg" (run_outcome r2); entry_of "Durban" (run_outcome r3)]
  /\ trace (after_loop w api_key bucket_name)
     = (trace loop_start ++ run_events r0 ++ run_events r1 ++ run_events r2
          ++ run_events r3)%list
  /\ clock_reads (after_loop w api_key bucket_name) = run_reads r3.
Proof.
  cbv zeta. unfold after_loop, after_city. cbn [results trace clock_reads].
  repeat split. now rewrite <- !app_assoc.
Qed.

Lemma run_events_head (w : world) (api_key bucket_name dn city : string)
      (n : nat) :
  In (ev_urlopen (api_url city api_key))
     (run_events (run_city w api_key bucket_name dn city n)).
Proof. run_stages w; now left. Qed.

Lemma healthy_succeeds (w : world) (api_key bucket_name dn city : string)
      (n : nat) :
  healthy_city w api_key city -> storage_up w ->
  succeeded (run_outcome (run_city w api_key bucket_name dn city n)) = true.
Proof.
  intros (d & Hf & Hc) Hup.
  destruct (run_city_healthy w api_key bucket_name dn city n d Hf Hc Hup)
    as (temp & it0 & _ & _ & ->).
  reflexivity.
Qed.

Lemma failed_fetch (w : world) (api_key bucket_name dn city : string)
      (n : nat) (e : exn) :
  urlopen_json w (api_url city api_key) = Raise e ->
  run_city w api_key bucket_name dn city n
  = mkRun [ev_urlopen (api_url city api_key)] n (Raise e).
Proof. intros H. unfold run_city. now rewrite H. Qed.

Lemma success_rate_of_four (n : nat) :
  n <= 4 ->
  success_rate_str n 4 = percent_one_decimal n 4
  /\ success_rate_str n 4
     = nth n ["0.0%"; "25.0%"; "50.0%"; "75.0%"; "100.0%"] EmptyString.
Proof.
  intros H.
  assert (E : n = 0 \/ n = 1 \/ n = 2 \/ n = 3 \/ n = 4) by lia.
  destruct E as [->|[->|[->|[->| ->]]]]; split; vm_compute; reflexivity.
Qed.

Lemma filter_length_le {A} (f : A -> bool) (l : list A) :
  List.length (filter f l) <= List.length l.
Proof.
  induction l as [|x l IH]; cbn [filter List.length]; [lia|].
  destruct (f x); cbn [List.length]; lia.
Qed.

(** The response of an invocation that passes the configuration checks. *)
Lemma handler_200 (w : world) (event context : json)
      (api_key bucket_name : string) :
  clients_up w ->
  environ w "WEATHER_API_KEY" = Some api_key -> api_key <> EmptyString ->
  environ w "S3_BUCKET_NAME" = Some bucket_name -> bucket_name <> EmptyString ->
  lambda_handler w event context
  = (Ok (summary_response
           (results (after_loop w api_key bucket_name))
           (now w (clock_reads (after_loop w api_key bucket_name)))),
     tick (after_loop w api_key bucket_name)).
Proof.
  intros (Hc & Hr & Ht) Hk Hkne Hb Hbne.
  rewrite handler_run_eq. unfold handler_run. rewrite Hc, Hr, Ht, Hk, Hb.
  destruct api_key; [contradiction|]. destruct bucket_name; [contradiction|].
  reflexivity.
Qed.

(** C4: an invocation that passes the configuration checks returns status
    200 with a body made of the message, [processed_cities] = 4,
    [successful_cities] = the number of success entries, [success_rate] =
    that number divided by 4, times 100, printed with one decimal and [%]
    (the binary64 computation agrees with the exact quotient), the ISO form
    of the clock read made for the body, and the list of the four entries in
    order.  When every city answers a complete payload and both stores accept
    every write, all four entries are successes, [successful_cities] is 4 and
    [success_rate] is ["100.0%"]. *)
Theorem summary_of_run (w : world) (event context : json)
        (api_key bucket_name : string) :
  clients_up w ->
  environ w "WEATHER_API_KEY" = Some api_key -> api_key <> EmptyString ->
  environ w "S3_BUCKET_NAME" = Some bucket_name -> bucket_name <> EmptyString ->
  exists rs ok k st,
    lambda_handler w event context
    = (Ok (mkResponse 200
             (JObj [("message", JStr "Weather data collection completed");
                    ("processed_cities", JInt 4);
                    ("successful_cities", JInt (Z.of_nat ok));
                    ("success_rate", JStr (success_rate_str ok 4));
                    ("execution_time", JStr (isoformat (now w k)));
                    ("results", JArr rs)])),
       st)
    /\ rs = results st /\ List.length rs = 4
    /\ ok = List.length (filter is_success rs)
    /\ clock_reads st = S k
    /\ success_rate_str ok 4 = percent_one_decimal ok 4
    /\ ((forall city, In city cities -> healthy_city w api_key city) ->
        storage_up w ->
        Forall (fun r => is_success r = true) rs
        /\ ok = 4 /\ success_rate_str ok 4 = "100.0%").
Proof.
  intros Hup Hk Hkne Hb Hbne.
  rewrite (handler_200 w event context api_key bucket_name Hup Hk Hkne Hb Hbne).
  destruct (after_loop_unfold w api_key bucket_name) as (Hres & _ & _).
  set (st := after_loop w api_key bucket_name) in *.
  set (r0 := run_city w api_key bucket_name "Pretoria" "Pretoria" 0) in *.
  set (r1 := run_city w api_key bucket_name "Cape Town" "Cape%20Town" _) in *.
  set (r2 := run_city w api_key bucket_name "Johannesburg" "Johannesburg" _) in *.
  set (r3 := run_city w api_key bucket_name "Durban" "Durban" _) in *.
  assert (Hlen : List.length (results st) = 4) by now rewrite Hres.
  exists (results st), (List.length (filter is_success (results st))),
    (clock_reads st), (tick st).
  split; [unfold summary_response; now rewrite Hlen|].
  split; [reflexivity|]. split; [exact Hlen|]. split; [reflexivity|].
  split; [reflexivity|].
  split.
  { apply success_rate_of_four. rewrite <- Hlen. apply filter_length_le. }
  intros Hall Hstore.
  assert (H0 : succeeded (run_outcome r0) = true)
    by (apply healthy_succeeds; [apply Hall; cbn; tauto|exact Hstore]).
  assert (H1 : succeeded (run_outcome r1) = true)
    by (apply healthy_succeeds; [apply Hall; cbn; tauto|exact Hstore]).
  assert (H2 : succeeded (run_outcome r2) = true)
    by (apply healthy_succeeds; [apply Hall; cbn; tauto|exact Hstore]).
  assert (H3 : succeeded (run_outcome r3) = true)
    by (apply healthy_succeeds; [apply Hall; cbn; tauto|exact Hstore]).
  assert (Hs : forall dn o, succeeded o = true -> is_success (entry_of dn o) = true).
  { intros dn o Ho. now rewrite (proj1 (proj2 (status_entry_of dn o))). }
  rewrite Hres. cbn [filter]. rewrite !Hs by assumption. cbn [List.length].
  split; [repeat constructor; now apply Hs|].
  split; [reflexivity|vm_compute; reflexivity].
Qed.

Lemma all_up_is_healthy :
  clients_up Sample.all_up
  /\ (forall city, healthy_city Sample.all_up "k3y" city)
  /\ storage_up Sample.all_up.
Proof.
  split; [repeat split|]. split; [|split; reflexivity].
  intros city. eexists. split; [reflexivity|].
  eexists. vm_compute. reflexivity.
Defined.

Lemma summary_of_run_witness :
  exists rs ok k st,
    lambda_handler Sample.all_up JNull JNull
    = (Ok (mkResponse 200
             (JObj [("message", JStr "Weather data collection completed");
                    ("processed_cities", JInt 4);
                    ("successful_cities", JInt (Z.of_nat ok));
                    ("success_rate", JStr (success_rate_str ok 4));
                    ("execution_time", JStr (isoformat (now Sample.all_up k)));
                    ("results", JArr rs)])),
       st)
    /\ ok = 4 /\ success_rate_str ok 4 = "100.0%".
Proof.
  assert (Hk : "k3y" <> EmptyString) by discriminate.
  assert (Hb : "weather-raw" <> EmptyString) by discriminate.
  destruct (summary_of_run Sample.all_up JNull JNull "k3y" "weather-raw"
              (proj1 all_up_is_healthy) eq_refl Hk eq_refl Hb)
    as (rs & ok & k & st & Hrun & _ & _ & _ & _ & _ & Hall).
  exists rs, ok, k, st. split; [exact Hrun|].
  apply Hall.
  - intros city _. apply all_up_is_healthy.
  - apply all_up_is_healthy.
Defined.

(** ** Failures of one city *)

Lemma city_try_fst (w : world) (api_key bucket_name city dn : string)
      (i : nat) (st : state) :
  index city_display i = Ok dn ->
  fst (city_try w api_key bucket_name i city st)
  = match run_outcome (run_city w api_key bucket_name dn city (clock_reads st))
    with
    | Ok _ => Ok tt
    | Raise e => Raise e
    end.
Proof. intros Hdn. now rewrite (city_try_run _ _ _ _ _ _ _ Hdn). Qed.

Lemma body_field_success_rate (rs : list json) (t : datetime) :
  body_field (summary_response rs t) "success_rate"
  = Some (JStr (success_rate_str (List.length (filter is_success rs))
                                 (List.length rs))).
Proof. reflexivity. Qed.

Lemma is_success_entry_of (dn : string) (o : result (string * json)) :
  is_success (entry_of dn o) = succeeded o.
Proof. apply status_entry_of. Qed.

Lemma is_error_entry_of (dn : string) (o : result (string * json)) :
  is_error (entry_of dn o) = negb (succeeded o).
Proof. apply status_entry_of. Qed.

(** C1: in an invocation that passes the configuration checks, (1) whatever
    exception the [try] block of a city raises, the iteration ends normally
    with the entry [{city, status: error, error: str(e)}] appended; (2) the
    [try] block raises when the fetch raises (network error, status outside
    2xx, body that is not JSON), when the payload is not an object, when
    [put_object] raises, when a field read for the row is missing or is not
    a number, and when [put_item] raises; (3) the invocation returns status
    200 with four entries and has requested every city; (4) when exactly one
    city's fetch raises, the others answer complete payloads and the stores
    accept every write, there are three success entries, the one error entry
    is that city's with the exception's text, and the rate is ["75.0%"]. *)
Theorem per_city_isolation (w : world) (event context : json)
        (api_key bucket_name : string) :
  clients_up w ->
  environ w "WEATHER_API_KEY" = Some api_key -> api_key <> EmptyString ->
  environ w "S3_BUCKET_NAME" = Some bucket_name -> bucket_name <> EmptyString ->
  (forall i city dn st e st1,
      index city_display i = Ok dn ->
      city_try w api_key bucket_name i city st = (Raise e, st1) ->
      process_city w api_key bucket_name i city st
      = (Ok tt,
         mkState (trace st1) (clock_reads st1)
                 (results st
                    ++ [JObj [("city", JStr dn); ("status", JStr "error");
                              ("error", JStr (exn_str e))]])
                 (Some dn)))
  /\ (forall i city dn st e,
        index city_display i = Ok dn ->
        let n := clock_reads st in
        let ts := isoformat (now w n) in
        let raises := fst (city_try w api_key bucket_name i city st) = Raise e in
        (urlopen_json w (api_url city api_key) = Raise e -> raises)
        /\ (forall data,
              urlopen_json w (api_url city api_key) = Ok data ->
              current_temp_of data = Raise e -> raises)
        /\ (forall data temp stamped,
              urlopen_json w (api_url city api_key) = Ok data ->
              current_temp_of data = Ok temp ->
              stamp data ts dn = Ok stamped ->
              let req := city_request w bucket_name dn n stamped in
              (put_object w req = Some e -> raises)
              /\ (put_object w req = None ->
                  build_item dn ts stamped = Raise e -> raises)
              /\ (forall it,
                    put_object w req = None ->
                    build_item dn ts stamped = Ok it ->
                    put_item w it = Some e -> raises)))
  /\ (exists rs t st,
        lambda_handler w event context = (Ok (summary_response rs t), st)
        /\ statusCode (summary_response rs t) = 200
        /\ List.length rs = 4
        /\ forall city,
            In city cities -> In (ev_urlopen (api_url city api_key)) (trace st))
  /\ (forall i bad dn e,
        nth_error cities i = Some bad ->
        index city_display i = Ok dn ->
        urlopen_json w (api_url bad api_key) = Raise e ->
        (forall city,
            In city cities -> city <> bad -> healthy_city w api_key city) ->
        storage_up w ->
        exists rs t st,
          lambda_handler w event context = (Ok (summary_response rs t), st)
          /\ statusCode (summary_response rs t) = 200
          /\ List.length rs = 4
          /\ List.length (filter is_success rs) = 3
          /\ filter is_error rs
             = [JObj [("city", JStr dn); ("status", JStr "error");
                      ("error", JStr (exn_str e))]]
          /\ nth_error rs i
             = Some (JObj [("city", JStr dn); ("status", JStr "error");
                           ("error", JStr (exn_str e))])
          /\ body_field (summary_response rs t) "success_rate"
             = Some (JStr "75.0%")).
Proof.
  intros Hup Hk Hkne Hb Hbne.
  pose proof (handler_200 w event context api_key bucket_name Hup Hk Hkne Hb Hbne)
    as Hrun.
  destruct (after_loop_unfold w api_key bucket_name) as (Hres & Htr & _).
  split; [|split; [|split]].
  - intros i city dn st e st1 Hdn Htry.
    rewrite (process_city_run _ _ _ _ _ _ _ Hdn).
    rewrite (city_try_run _ _ _ _ _ _ _ Hdn) in Htry. cbv zeta in Htry.
    unfold after_city. cbv zeta. revert Htry.
    generalize (run_city w api_key bucket_name dn city (clock_reads st)).
    intros [evs n [[ts t]|e']]; cbn [run_outcome run_events run_reads];
      intros Htry.
    + discriminate Htry.
    + injection Htry as -> <-. reflexivity.
  - intros i city dn st e Hdn n ts raises. subst raises n ts.
    rewrite (city_try_fst _ _ _ _ _ _ _ Hdn). unfold run_city.
    split; [|split].
    + now intros ->.
    + now intros data -> ->.
    + intros data temp stamped -> -> ->. cbv zeta. split; [|split].
      * now intros ->.
      * now intros -> ->.
      * now intros it -> -> ->.
  - do 3 eexists. split; [exact Hrun|]. split; [reflexivity|].
    split; [now rewrite Hres|].
    intros city Hin. cbn [tick trace]. rewrite Htr.
    rewrite !in_app_iff.
    cbn [cities In] in Hin. destruct Hin as [<-|[<-|[<-|[<-|[]]]]].
    + right; left. apply run_events_head.
    + right; right; left. apply run_events_head.
    + right; right; right; left. apply run_events_head.
    + right; right; right; right. apply run_events_head.
  - intros i bad dn e Hnth Hdn Hbad Hothers Hstore.
    do 3 eexists. split; [exact Hrun|]. split; [reflexivity|].
    rewrite body_field_success_rate, Hres.
    assert (Hs : forall city dn n,
               In city cities -> city <> bad ->
               succeeded (run_outcome
                            (run_city w api_key bucket_name dn city n)) = true)
      by (intros; apply healthy_succeeds; auto).
    assert (Hf : forall dn n,
               run_city w api_key bucket_name dn bad n
               = mkRun [ev_urlopen (api_url bad api_key)] n (Raise e))
      by (intros; now apply failed_fetch).
    clear Hres Htr Hrun.
    destruct i as [|[|[|[|i]]]]; cbn [nth_error cities] in Hnth;
      try (destruct i; discriminate Hnth);
      (injection Hnth as <-; injection Hdn as <-;
       rewrite !Hf; cbn [run_reads run_outcome entry_of filter nth_error
                         List.length];
       rewrite !is_success_entry_of, !is_error_entry_of;
       rewrite !Hs by (first [discriminate | cbn [cities In]; tauto]);
       cbn [negb List.length succeeded];
       repeat (split; [reflexivity|]); vm_compute; reflexivity).
Qed.

(** ** [Decimal] on the string forms of numbers *)

Lemma digit_cases (c : ascii) :
  Dec.is_digit c = true ->
  In c (chars "0123456789").
Proof.
  destruct c as [[] [] [] [] [] [] [] []]; intros H;
    try discriminate H; cbn; tauto.
Qed.

(** String forms are ASCII, without white space, underscore or capital. *)
Lemma literal_char_ascii (c : ascii) :
  literal_char c = true ->
  (N_of_ascii c <? 128)%N = true
  /\ Unicode.is_space (N_of_ascii c) = false
  /\ Dec.ascii_of (N_of_ascii c) = Some [c]
  /\ Dec.lower c = c.
Proof.
  destruct c as [[] [] [] [] [] [] [] []]; intros H;
    try discriminate H; repeat split; reflexivity.
Qed.

Lemma decode_literal (l : list ascii) :
  literal l -> Unicode.decode l = Some (map N_of_ascii l).
Proof.
  unfold Unicode.decode.
  induction 1 as [|c l Hc _ IH]; [reflexivity|].
  cbn [Unicode.decode_from map]. cbv zeta.
  rewrite (proj1 (literal_char_ascii c Hc)), IH. reflexivity.
Qed.

Lemma drop_while_none {A} (p : A -> bool) (l : list A) :
  Forall (fun x => p x = false) l -> Dec.drop_while p l = l.
Proof. destruct 1 as [|x l Hx _]; [reflexivity|]. cbn. now rewrite Hx. Qed.

Lemma strip_none (l : list N) :
  Forall (fun cp => Unicode.is_space cp = false) l -> Dec.strip l = l.
Proof.
  intros H. unfold Dec.strip. rewrite (drop_while_none _ l H).
  rewrite drop_while_none by now apply Forall_rev.
  apply rev_involutive.
Qed.

Lemma normalise_literal (l : list ascii) :
  literal l -> Dec.normalise l = Some l /\ map Dec.lower l = l.
Proof.
  intros H. unfold Dec.normalise. rewrite (decode_literal l H).
  rewrite strip_none.
  - induction H as [|c l Hc _ IH]; [split; reflexivity|].
    destruct (literal_char_ascii c Hc) as (_ & _ & Ha & Hl).
    destruct IH as [IH1 IH2].
    cbn [map Dec.to_ascii]. rewrite Ha, IH1, Hl, IH2. split; reflexivity.
  - apply Forall_map. revert H. apply Forall_impl.
    intros c Hc. apply (literal_char_ascii c Hc).
Qed.

Lemma span_digits_app (ip rest : list ascii) :
  all_digits ip ->
  match rest with [] => True | c :: _ => Dec.is_digit c = false end ->
  Dec.span_digits (ip ++ rest) = (ip, rest).
Proof.
  intros Hip Hrest. induction Hip as [|c ip Hc _ IH]; cbn [app Dec.span_digits].
  - destruct rest as [|c r]; [reflexivity|]. cbn [Dec.span_digits].
    now rewrite Hrest.
  - now rewrite Hc, IH.
Qed.

(** After a sign, digits are neither [inf], [nan] nor a second sign. *)
Lemma digit_head (c : ascii) (l : list ascii) :
  Dec.is_digit c = true ->
  Dec.take_sign (c :: l) = (false, c :: l)
  /\ String.eqb (of_chars (c :: l)) "inf" = false
  /\ String.eqb (of_chars (c :: l)) "infinity" = false
  /\ Dec.parse_nan (c :: l) = None.
Proof.
  intros H. apply digit_cases in H. cbn [chars In] in H.
  repeat (destruct H as [<-|H]; [repeat split|]). contradiction.
Qed.

Lemma parse_after_sign (neg : bool) (c : ascii) (l : list ascii) :
  Dec.is_digit c = true ->
  literal (c :: l) ->
  Dec.parse (of_chars (sign_chars neg ++ c :: l))
  = match Dec.parse_number (c :: l) with
    | Some (ds, e) =>
        if Dec.in_range ds e then Ok (DFinite neg (Dec.digits_val ds) e)
        else Raise (InvalidOperation "InvalidOperation")
    | None => Raise (InvalidOperation "ConversionSyntax")
    end.
Proof.
  intros Hc Hl. unfold Dec.parse. rewrite chars_of_chars.
  assert (Hs : literal (sign_chars neg ++ c :: l))
    by (destruct neg; cbn [sign_chars app]; [constructor|]; easy).
  destruct (normalise_literal _ Hs) as [-> ->].
  destruct (digit_head c l Hc) as (Ht & Hi & Hy & Hn).
  assert (E : Dec.take_sign (sign_chars neg ++ c :: l) = (neg, c :: l))
    by (destruct neg; [reflexivity|exact Ht]).
  rewrite E, Hi, Hy, Hn. reflexivity.
Qed.

Lemma all_digits_literal (l : list ascii) : all_digits l -> literal l.
Proof.
  apply Forall_impl. intros c H. unfold literal_char. now rewrite H.
Qed.

Lemma drop_while_length {A} (p : A -> bool) (l : list A) :
  List.length (Dec.drop_while p l) <= List.length l.
Proof.
  induction l as [|x l IH]; cbn [Dec.drop_while List.length]; [lia|].
  destruct (p x); cbn [List.length]; lia.
Qed.

(** A coefficient of at most 10^18 - 1 digits with an exponent between
    minus that and zero fits. *)
Lemma in_range_fixed (ds : list ascii) (k : nat) :
  ds <> [] -> k <= List.length ds ->
  (Z.of_nat (List.length ds) <= Dec.emax)%Z ->
  Dec.in_range ds (- Z.of_nat k) = true.
Proof.
  intros Hne Hk Hlen. unfold Dec.in_range, Dec.significant.
  pose proof (drop_while_length (Ascii.eqb "0"%char) ds) as Hd.
  assert (0 < List.length ds) by (destruct ds; [contradiction|cbn; lia]).
  unfold Dec.emax, Dec.etiny in *.
  rewrite !andb_true_iff, !Z.leb_le. lia.
Qed.

(** [Decimal] keeps every digit of a string form in fixed notation. *)
Lemma Decimal_plain_literal (neg : bool) (ip fp : list ascii) :
  ip <> [] -> all_digits ip -> all_digits fp ->
  (Z.of_nat (List.length (ip ++ fp)) <= Dec.emax)%Z ->
  Decimal (plain_literal neg ip fp)
  = Ok (DFinite neg (Dec.digits_val (ip ++ fp)) (- Z.of_nat (List.length fp))).
Proof.
  intros Hne Hip Hfp Hlen. unfold Decimal, plain_literal.
  destruct ip as [|c ip]; [contradiction|].
  cbn [app]. rewrite parse_after_sign.
  - unfold Dec.parse_number.
    change (c :: (ip ++ "."%char :: fp)%list)
      with ((c :: ip) ++ "."%char :: fp)%list.
    rewrite (span_digits_app (c :: ip) ("."%char :: fp) Hip eq_refl).
    rewrite <- (app_nil_r fp) at 1.
    rewrite (span_digits_app fp [] Hfp I).
    cbn [Dec.is_nil andb].
    rewrite in_range_fixed; [reflexivity|discriminate| |exact Hlen].
    rewrite length_app. lia.
  - now inversion Hip.
  - change (c :: (ip ++ "."%char :: fp)%list)
      with ((c :: ip) ++ "."%char :: fp)%list.
    apply Forall_app. split; [now apply all_digits_literal|].
    constructor; [reflexivity|now apply all_digits_literal].
Qed.

Lemma Decimal_int_literal (neg : bool) (ip : list ascii) :
  ip <> [] -> all_digits ip ->
  (Z.of_nat (List.length ip) <= Dec.emax)%Z ->
  Decimal (int_literal neg ip) = Ok (DFinite neg (Dec.digits_val ip) 0).
Proof.
  intros Hne Hip Hlen. unfold Decimal, int_literal.
  destruct ip as [|c ip]; [contradiction|].
  rewrite parse_after_sign.
  - unfold Dec.parse_number.
    rewrite <- (app_nil_r (c :: ip)) at 1.
    rewrite (span_digits_app (c :: ip) [] Hip I).
    cbn [Dec.is_nil andb List.length]. rewrite app_nil_r.
    change (- Z.of_nat 0)%Z with (- Z.of_nat 0)%Z.
    rewrite (in_range_fixed (c :: ip) 0); [reflexivity|discriminate| |exact Hlen].
    lia.
  - now inversion Hip.
  - now apply all_digits_literal.
Qed.

(** The digits printed for an integer read back as that integer. *)
Lemma digits_val_acc (d : Decimal.uint) (acc : positive) :
  fold_left (fun a c => (a * 10 + Dec.digit_val c)%N)
            (chars (NilEmpty.string_of_uint d)) (Npos acc)
  = Npos (Pos.of_uint_acc d acc).
Proof.
  revert acc.
  induction d as [|d IH|d IH|d IH|d IH|d IH|d IH|d IH|d IH|d IH|d IH];
    intros acc; cbn [NilEmpty.string_of_uint chars fold_left Pos.of_uint_acc];
    [reflexivity|..];
    rewrite <- IH; f_equal;
    match goal with
    | |- context [Dec.digit_val ?c] =>
        let v := eval vm_compute in (Dec.digit_val c) in
        change (Dec.digit_val c) with v
    end; lia.
Qed.

Lemma digits_val_uint (d : Decimal.uint) :
  Dec.digits_val (chars (NilEmpty.string_of_uint d)) = Pos.of_uint d.
Proof.
  unfold Dec.digits_val.
  induction d as [|d IH|d IH|d IH|d IH|d IH|d IH|d IH|d IH|d IH|d IH];
    cbn [NilEmpty.string_of_uint chars fold_left Pos.of_uint];
    [reflexivity|exact IH|..];
    apply (digits_val_acc d).
Qed.

Lemma all_digits_uint (d : Decimal.uint) :
  all_digits (chars (NilEmpty.string_of_uint d)).
Proof.
  induction d; cbn [NilEmpty.string_of_uint chars]; constructor;
    solve [reflexivity|assumption].
Qed.

Lemma of_chars_chars (s : string) : of_chars (chars s) = s.
Proof. induction s as [|c s IH]; cbn; [reflexivity|now rewrite IH]. Qed.

Lemma length_chars (s : string) : List.length (chars s) = String.length s.
Proof. induction s as [|c s IH]; cbn; [reflexivity|now rewrite IH]. Qed.

Lemma str_of_pos (p : positive) :
  exists ip,
    ip <> [] /\ all_digits ip /\ Dec.digits_val ip = Npos p
    /\ str_of_Z (Zpos p) = int_literal false ip
    /\ str_of_Z (Zneg p) = int_literal true ip.
Proof.
  exists (chars (NilEmpty.string_of_uint (Pos.to_uint p))).
  assert (Hnil := DecimalPos.Unsigned.to_uint_nonnil p).
  repeat split.
  - destruct (Pos.to_uint p); [contradiction|discriminate..].
  - apply all_digits_uint.
  - rewrite digits_val_uint. apply DecimalPos.Unsigned.of_to.
  - unfold str_of_Z, int_literal. cbn [Z.to_int NilZero.string_of_int sign_chars app].
    rewrite of_chars_chars. unfold NilZero.string_of_uint.
    now destruct (Pos.to_uint p).
  - unfold str_of_Z, int_literal.
    cbn [Z.to_int NilZero.string_of_int sign_chars app of_chars].
    rewrite of_chars_chars. unfold NilZero.string_of_uint.
    now destruct (Pos.to_uint p).
Qed.

(** [Decimal(str(z))] is the integer [z], with exponent 0. *)
Lemma Decimal_str_int (z : Z) :
  (String.length (str_of_Z (Z.abs z)) <= 4300)%nat ->
  Decimal (Py.str (JInt z)) = Ok (DFinite (z <? 0)%Z (Z.abs_N z) 0).
Proof.
  cbn [Py.str Py.repr]. destruct z as [|p|p]; intros Hlen.
  - vm_compute. reflexivity.
  - cbn [Z.abs] in Hlen.
    destruct (str_of_pos p) as (ip & Hne & Hd & Hv & E & _).
    rewrite E in Hlen |- *. unfold int_literal in Hlen.
    cbn [sign_chars app] in Hlen. rewrite <- length_chars, chars_of_chars in Hlen.
    rewrite Decimal_int_literal; [now rewrite Hv|assumption..|].
    unfold Dec.emax. lia.
  - cbn [Z.abs] in Hlen.
    destruct (str_of_pos p) as (ip & Hne & Hd & Hv & E & ->).
    rewrite E in Hlen. unfold int_literal in Hlen.
    cbn [sign_chars app] in Hlen. rewrite <- length_chars, chars_of_chars in Hlen.
    rewrite Decimal_int_literal; [now rewrite Hv|assumption..|].
    unfold Dec.emax. lia.
Qed.

(** ** [Decimal] on the string form of any float *)

Lemma of_chars_app (a b : list ascii) :
  of_chars (a ++ b)%list = of_chars a ++ of_chars b.
Proof. induction a as [|c a IH]; cbn; [reflexivity|now rewrite IH]. Qed.

Lemma length_of_chars (l : list ascii) :
  String.length (of_chars l) = List.length l.
Proof. now rewrite <- length_chars, chars_of_chars. Qed.

Lemma zeros_chars (k : nat) : zeros k = of_chars (repeat "0"%char k).
Proof. induction k as [|k IH]; cbn; [reflexivity|now rewrite IH]. Qed.

Lemma all_digits_zeros (k : nat) : all_digits (repeat "0"%char k).
Proof. induction k; cbn; constructor; [reflexivity|assumption]. Qed.

Lemma substring_firstn (n : nat) (l : list ascii) :
  String.substring 0 n (of_chars l) = of_chars (firstn n l).
Proof.
  revert l. induction n as [|n IH]; intros [|c l]; cbn; try reflexivity.
  now rewrite IH.
Qed.

Lemma substring_skipn (n : nat) (l : list ascii) :
  n <= List.length l ->
  String.substring n (List.length l - n) (of_chars l) = of_chars (skipn n l).
Proof.
  revert l. induction n as [|n IH]; intros l Hn.
  - rewrite Nat.sub_0_r. cbn [skipn]. clear Hn.
    induction l as [|c l IHl]; [reflexivity|].
    cbn [List.length of_chars String.substring]. now rewrite IHl.
  - destruct l as [|c l]; [cbn in Hn; lia|].
    cbn [List.length of_chars String.substring skipn Nat.sub].
    apply IH. cbn in Hn. lia.
Qed.

(** The value of a digit string. *)
Lemma digits_val_fold (l : list ascii) (a : N) :
  fold_left (fun acc c => (acc * 10 + Dec.digit_val c)%N) l a
  = (a * 10 ^ N.of_nat (List.length l) + Dec.digits_val l)%N.
Proof.
  unfold Dec.digits_val. revert a.
  induction l as [|c l IH]; intros a.
  - cbn. lia.
  - cbn [fold_left List.length]. rewrite IH, (IH (0 * 10 + Dec.digit_val c)%N).
    rewrite Nat2N.inj_succ, N.pow_succ_r'. lia.
Qed.

Lemma digits_val_app (a b : list ascii) :
  Dec.digits_val (a ++ b)
  = (Dec.digits_val a * 10 ^ N.of_nat (List.length b) + Dec.digits_val b)%N.
Proof.
  unfold Dec.digits_val at 1. rewrite fold_left_app.
  fold (Dec.digits_val a). apply digits_val_fold.
Qed.

Lemma digits_val_zeros (k : nat) : Dec.digits_val (repeat "0"%char k) = 0%N.
Proof.
  induction k as [|k IH]; [reflexivity|].
  change (repeat "0"%char (S k)) with (["0"%char] ++ repeat "0"%char k)%list.
  rewrite digits_val_app, IH. reflexivity.
Qed.

(** A digit string without a leading zero is at least [10^(length - 1)]. *)
Lemma digits_val_lower (c : ascii) (l : list ascii) :
  Dec.is_digit c = true -> c <> "0"%char ->
  (10 ^ N.of_nat (List.length l) <= Dec.digits_val (c :: l))%N.
Proof.
  intros Hc Hne.
  change (c :: l) with ([c] ++ l)%list. rewrite digits_val_app.
  assert (1 <= Dec.digits_val [c])%N.
  { apply digit_cases in Hc. cbn [chars In] in Hc.
    destruct Hc as [<-|Hc]; [contradiction|].
    repeat (destruct Hc as [<-|Hc]; [vm_compute; discriminate|]).
    contradiction. }
  nia.
Qed.

Lemma to_uint_head (p : positive) (d : Decimal.uint) :
  Pos.to_uint p <> Decimal.D0 d.
Proof.
  intros E.
  assert (Hn : Decimal.unorm (Pos.to_uint p) = Pos.to_uint p).
  { rewrite <- (DecimalPos.Unsigned.to_of (Pos.to_uint p)).
    now rewrite DecimalPos.Unsigned.of_to. }
  destruct (Decimal.nzhead (Pos.to_uint p)) eqn:Ez;
    [unfold Decimal.unorm in Hn; rewrite Ez in Hn;
     apply (DecimalPos.Unsigned.to_uint_nonzero p); now symmetry|..];
    (rewrite DecimalFacts.unorm_nzhead in Hn by (rewrite Ez; discriminate);
     rewrite E in Hn; exact (DecimalFacts.nzhead_nonzero _ _ Hn)).
Qed.

(** The string form of a natural number below [10^k] has at most [k]
    digits (one digit for zero). *)
Lemma str_of_Z_digits (z : Z) :
  (0 <= z)%Z ->
  exists ip,
    str_of_Z z = of_chars ip /\ ip <> [] /\ all_digits ip
    /\ Dec.digits_val ip = Z.to_N z
    /\ forall k, (z < 10 ^ Z.of_nat k)%Z -> (0 < k)%nat ->
                 List.length ip <= k.
Proof.
  intros Hz. destruct z as [|p|p]; [|clear Hz|lia].
  - exists ["0"%char]. repeat split; try reflexivity; try discriminate.
    + repeat constructor.
    + intros k _ Hk. cbn. lia.
  - exists (chars (NilEmpty.string_of_uint (Pos.to_uint p))).
    assert (Hnil := DecimalPos.Unsigned.to_uint_nonnil p).
    assert (Hval : Dec.digits_val
                     (chars (NilEmpty.string_of_uint (Pos.to_uint p)))
                   = Npos p)
      by (rewrite digits_val_uint; apply DecimalPos.Unsigned.of_to).
    split; [|split; [|split; [|split]]].
    + unfold str_of_Z. cbn [Z.to_int NilZero.string_of_int].
      rewrite of_chars_chars. unfold NilZero.string_of_uint.
      now destruct (Pos.to_uint p).
    + destruct (Pos.to_uint p); [contradiction|discriminate..].
    + apply all_digits_uint.
    + exact Hval.
    + intros k Hlt Hk.
      pose proof (to_uint_head p) as Hhead.
      pose proof (all_digits_uint (Pos.to_uint p)) as Hd.
      destruct (chars (NilEmpty.string_of_uint (Pos.to_uint p)))
        as [|c l] eqn:El.
      { cbn. lia. }
      assert (Hc : c <> "0"%char).
      { intros ->. destruct (Pos.to_uint p) as [|u|u|u|u|u|u|u|u|u|u];
          cbn in El; try discriminate El. now apply (Hhead u). }
      inversion Hd as [|c' l' Hdc Hdl]; subst.
      pose proof (digits_val_lower c l Hdc Hc) as Hlow.
      rewrite Hval in Hlow.
      destruct (Nat.le_gt_cases (List.length (c :: l)) k) as [Hle|Hgt];
        [exact Hle|exfalso].
      cbn [List.length] in Hgt.
      assert (10 ^ Z.of_nat k <= Zpos p)%Z.
      { apply Z.le_trans with (10 ^ Z.of_nat (List.length l))%Z.
        - apply Z.pow_le_mono_r; lia.
        - apply N2Z.inj_le in Hlow. rewrite N2Z.inj_pow, nat_N_Z in Hlow.
          exact Hlow. }
      lia.
Qed.

Lemma append_assoc_rev (a b c : string) : a ++ b ++ c = (a ++ b) ++ c.
Proof. symmetry. apply append_assoc. Qed.

(** A coefficient and an exponent of moderate size fit. *)
Lemma in_range_moderate (ds : list ascii) (e : Z) :
  (Z.of_nat (List.length ds) <= 1000000)%Z ->
  (-1000000 <= e <= 1000000)%Z ->
  Dec.in_range ds e = true.
Proof.
  intros Hlen He. unfold Dec.in_range, Dec.significant.
  pose proof (drop_while_length (Ascii.eqb "0"%char) ds) as Hd.
  unfold Dec.emax, Dec.etiny. rewrite !andb_true_iff, !Z.leb_le. lia.
Qed.

Lemma digits_val_cons_zero (l : list ascii) :
  Dec.digits_val ("0"%char :: l) = Dec.digits_val l.
Proof. reflexivity. Qed.

(** The exponent part [e+XX] or [e-XX] of a string form. *)
Lemma exponent_chars (x : Z) :
  (-1000000 <= x <= 1000000)%Z ->
  exists xd,
    FloatRepr.exponent_str x
    = of_chars ((if (x <? 0)%Z then "-"%char else "+"%char) :: xd)
    /\ xd <> [] /\ all_digits xd
    /\ Z.of_N (Dec.digits_val xd) = Z.abs x.
Proof.
  intros Hx. destruct (str_of_Z_digits (Z.abs x) (Z.abs_nonneg x))
    as (ip & E & Hne & Hd & Hv & _).
  unfold FloatRepr.exponent_str. rewrite E.
  destruct (Z.abs x <? 10)%Z.
  - exists ("0"%char :: ip). repeat split.
    + destruct (x <? 0)%Z; reflexivity.
    + discriminate.
    + constructor; [reflexivity|exact Hd].
    + rewrite digits_val_cons_zero, Hv. apply Z2N.id, Z.abs_nonneg.
  - exists ip. repeat split; try assumption.
    + destruct (x <? 0)%Z; reflexivity.
    + rewrite Hv. apply Z2N.id, Z.abs_nonneg.
Qed.

Lemma take_sign_exponent (x : Z) (xd : list ascii) :
  Dec.take_sign ((if (x <? 0)%Z then "-"%char else "+"%char) :: xd)
  = ((x <? 0)%Z, xd).
Proof. destruct (x <? 0)%Z; reflexivity. Qed.

(** [Decimal] on a string form in exponent notation, with or without a
    point. *)
Lemma Decimal_exponent_literal (neg : bool) (c : ascii) (fp : list ascii)
      (point : bool) (x : Z) :
  Dec.is_digit c = true -> all_digits fp ->
  (if point then True else fp = []) ->
  (Z.of_nat (List.length fp) < 1000)%Z -> (-1000 <= x <= 1000)%Z ->
  Decimal
    ((if neg then "-" else EmptyString)
       ++ String c ((if point then "." ++ of_chars fp else EmptyString)
                      ++ "e" ++ FloatRepr.exponent_str x))
  = Ok (DFinite neg (Dec.digits_val (c :: fp)) (x - Z.of_nat (List.length fp))).
Proof.
  intros Hc Hfp Hpoint Hlen Hx.
  destruct (exponent_chars x) as (xd & -> & Hne & Hxd & Hval); [lia|].
  set (sg := if (x <? 0)%Z then "-"%char else "+"%char).
  set (tail := "e"%char :: sg :: xd).
  assert (Htail : literal tail).
  { constructor; [reflexivity|]. constructor.
    - subst sg. now destruct (x <? 0)%Z.
    - now apply all_digits_literal. }
  assert (E : (if neg then "-" else EmptyString)
                ++ String c ((if point then "." ++ of_chars fp else EmptyString)
                               ++ "e" ++ of_chars (sg :: xd))
              = of_chars (sign_chars neg
                            ++ c :: (if point then "."%char :: fp else [])
                            ++ tail)).
  { rewrite of_chars_app. cbn [of_chars]. rewrite of_chars_app.
    destruct neg, point; cbn [sign_chars of_chars append]; reflexivity. }
  rewrite E. unfold Decimal. rewrite parse_after_sign; [|exact Hc|].
  - unfold Dec.parse_number.
    change (c :: (if point then "."%char :: fp else []) ++ tail)%list
      with ([c] ++ ((if point then "."%char :: fp else []) ++ tail))%list.
    rewrite (span_digits_app [c]);
      [|repeat constructor; exact Hc|now destruct point].
    assert (Hspan :
              (let (fp', r2) :=
                 match ((if point then "."%char :: fp else []) ++ tail)%list with
                 | "."%char :: r => Dec.span_digits r
                 | _ => ([], ((if point then "."%char :: fp else []) ++ tail)%list)
                 end in (fp', r2)) = (fp, tail)).
    { destruct point.
      - cbn [app]. now rewrite (span_digits_app fp tail Hfp eq_refl).
      - subst fp. reflexivity. }
    destruct (match ((if point then "."%char :: fp else []) ++ tail)%list with
              | "."%char :: r => Dec.span_digits r
              | _ => ([], ((if point then "."%char :: fp else []) ++ tail)%list)
              end) as [fp' r2].
    injection Hspan as -> ->.
    cbn [Dec.is_nil andb app]. unfold tail. subst sg.
    rewrite take_sign_exponent.
    rewrite <- (app_nil_r xd) at 1. rewrite (span_digits_app xd [] Hxd I).
    destruct xd as [|x0 xd']; [contradiction|]. cbn [Dec.is_nil orb negb].
    rewrite Hval.
    assert (Hsigned : (if (x <? 0)%Z then - Z.abs x else Z.abs x)%Z = x)
      by (destruct (Z.ltb_spec x 0); lia).
    rewrite Hsigned.
    rewrite in_range_moderate; [reflexivity| |lia].
    cbn [List.length]. lia.
  - change (c :: (if point then "."%char :: fp else []) ++ tail)%list
      with ([c] ++ ((if point then "."%char :: fp else []) ++ tail))%list.
    apply Forall_app. split.
    + constructor; [|constructor]. unfold literal_char. now rewrite Hc.
    + apply Forall_app. split; [|exact Htail].
      destruct point; [|constructor].
      constructor; [reflexivity|now apply all_digits_literal].
Qed.

Lemma sign_plain_literal (neg : bool) (ip fp : list ascii) :
  (if neg then "-" else EmptyString) ++ of_chars ip ++ "." ++ of_chars fp
  = plain_literal neg ip fp.
Proof.
  unfold plain_literal. rewrite !of_chars_app.
  destruct neg; reflexivity.
Qed.

(** [Decimal] on every layout of a string of digits: the digits are kept,
    followed by [k] zeros where the layout adds some before the point. *)
Lemma Decimal_layout (neg : bool) (ip : list ascii) (t : Z) :
  ip <> [] -> all_digits ip ->
  (Z.of_nat (List.length ip) < 1000)%Z -> (-999 <= t <= 1000)%Z ->
  exists k,
    Decimal ((if neg then "-" else EmptyString)
               ++ FloatRepr.layout (of_chars ip) t)
    = Ok (DFinite neg (Dec.digits_val ip * 10 ^ N.of_nat k)
                  (t - Z.of_nat (List.length ip) - Z.of_nat k)).
Proof.
  intros Hne Hip Hlen Ht. unfold FloatRepr.layout.
  rewrite length_of_chars.
  destruct ((t <=? -4)%Z || (16 <? t)%Z) eqn:Eexp.
  - (* exponent notation *)
    exists 0. rewrite N.mul_1_r, Z.sub_0_r.
    destruct ip as [|c [|c2 rest]]; [contradiction| |].
    + cbn [of_chars].
      change (String c ("e" ++ FloatRepr.exponent_str (t - 1)))
        with (String c (EmptyString ++ "e" ++ FloatRepr.exponent_str (t - 1))).
      rewrite (Decimal_exponent_literal neg c [] false (t - 1));
        [|now inversion Hip|constructor|reflexivity|cbn; lia|lia].
      cbn [List.length]. do 2 f_equal. lia.
    + cbn [of_chars].
      change (String c ("." ++ String c2 (of_chars rest) ++ "e"
                            ++ FloatRepr.exponent_str (t - 1)))
        with (String c (("." ++ of_chars (c2 :: rest)) ++ "e"
                          ++ FloatRepr.exponent_str (t - 1))).
      rewrite (Decimal_exponent_literal neg c (c2 :: rest) true (t - 1));
        [|now inversion Hip|now inversion Hip|exact I| |lia].
      * do 2 f_equal. cbn [List.length]. lia.
      * cbn [List.length] in *. lia.
  - apply orb_false_iff in Eexp. destruct Eexp as [E1 E2].
    apply Z.leb_gt in E1. apply Z.ltb_ge in E2.
    destruct (t <=? 0)%Z eqn:E0.
    + (* 0.000ddd *)
      apply Z.leb_le in E0. exists 0. rewrite N.mul_1_r, Z.sub_0_r.
      rewrite zeros_chars, <- of_chars_app.
      change ("0." ++ of_chars (repeat "0"%char (Z.to_nat (- t)) ++ ip))
        with (of_chars ["0"%char] ++ "."
                ++ of_chars (repeat "0"%char (Z.to_nat (- t)) ++ ip)).
      rewrite sign_plain_literal.
      rewrite Decimal_plain_literal.
      * f_equal. f_equal.
        -- cbn [app]. rewrite digits_val_cons_zero, digits_val_app.
           rewrite digits_val_zeros. lia.
        -- rewrite length_app, repeat_length. lia.
      * discriminate.
      * repeat constructor.
      * apply Forall_app. split; [apply all_digits_zeros|exact Hip].
      * rewrite !length_app, repeat_length. cbn [List.length].
        unfold Dec.emax. lia.
    + apply Z.leb_gt in E0.
      destruct (Z.of_nat (List.length ip) <=? t)%Z eqn:En.
      * (* ddd000.0 *)
        apply Z.leb_le in En.
        exists (Z.to_nat (t - Z.of_nat (List.length ip) + 1)).
        rewrite zeros_chars.
        change ".0" with ("." ++ of_chars ["0"%char]).
        rewrite (append_assoc_rev (of_chars ip)), <- of_chars_app.
        rewrite sign_plain_literal.
        rewrite Decimal_plain_literal.
        -- f_equal. f_equal.
           ++ rewrite !digits_val_app, digits_val_zeros, repeat_length.
              cbn [List.length].
              change (Dec.digits_val ["0"%char]) with 0%N.
              rewrite N.add_0_r, N.add_0_r, <- N.mul_assoc, <- N.pow_add_r.
              f_equal. f_equal. lia.
           ++ cbn [List.length]. lia.
        -- destruct ip; [contradiction|discriminate].
        -- apply Forall_app. split; [exact Hip|apply all_digits_zeros].
        -- repeat constructor.
        -- rewrite !length_app, repeat_length. cbn [List.length].
           unfold Dec.emax. lia.
      * (* dd.ddd *)
        apply Z.leb_gt in En. exists 0. rewrite N.mul_1_r, Z.sub_0_r.
        rewrite substring_firstn.
        replace (Z.to_nat (Z.of_nat (List.length ip) - t))
          with (List.length ip - Z.to_nat t) by lia.
        rewrite substring_skipn by lia.
        rewrite sign_plain_literal.
        assert (Hsplit := firstn_skipn (Z.to_nat t) ip).
        assert (Hboth : all_digits (firstn (Z.to_nat t) ip)
                        /\ all_digits (skipn (Z.to_nat t) ip))
          by (apply Forall_app; now rewrite Hsplit).
        rewrite Decimal_plain_literal.
        -- rewrite Hsplit. f_equal. f_equal. rewrite length_skipn. lia.
        -- destruct ip as [|c ip]; [contradiction|].
           destruct (Z.to_nat t) eqn:Et; [lia|discriminate].
        -- apply Hboth.
        -- apply Hboth.
        -- rewrite Hsplit. unfold Dec.emax. lia.
Qed.

(** The mantissa and exponent of a finite float. *)
Lemma digits2_size (m : positive) : digits2_pos m = Pos.size m.
Proof. induction m as [m IH|m IH|]; cbn; now rewrite ?IH. Qed.

Lemma finite_float_bounds (x : float) (s : bool) (m : positive) (e : Z) :
  Prim2SF x = S754_finite s m e ->
  (Zpos m < 2 ^ 53)%Z /\ (-1074 <= e <= 971)%Z.
Proof.
  intros E. pose proof (Prim2SF_valid x) as Hv. rewrite E in Hv.
  unfold valid_binary, bounded, canonical_mantissa, fexp, SpecFloat.emin in Hv.
  apply andb_prop in Hv. destruct Hv as [Hc He].
  apply Z.eqb_eq in Hc. apply Z.leb_le in He.
  unfold prec, emax in *. rewrite digits2_size in Hc.
  assert (Hs : (Zpos (Pos.size m) <= 53)%Z) by lia.
  split; [|lia].
  pose proof (Pos.size_gt m) as Hgt.
  apply Z.lt_le_trans with (Zpos (2 ^ Pos.size m)); [exact Hgt|].
  rewrite Pos2Z.inj_pow. apply Z.pow_le_mono_r; lia.
Qed.

Lemma floor_div_pow10_bounds (m e q : Z) :
  (0 < m)%Z ->
  (0 <= FloatRepr.floor_div_pow10 m e q
   <= m * 2 ^ Z.max e 0 * 10 ^ Z.max (- q) 0)%Z.
Proof.
  intros Hm. unfold FloatRepr.floor_div_pow10.
  set (a := if (0 <=? e)%Z then (2 ^ e)%Z else 1%Z).
  set (b := if (q <? 0)%Z then (10 ^ (- q))%Z else 1%Z).
  set (a' := if (0 <=? e)%Z then 1%Z else (2 ^ (- e))%Z).
  set (b' := if (q <? 0)%Z then 1%Z else (10 ^ q)%Z).
  assert (Ha : (1 <= a <= 2 ^ Z.max e 0)%Z).
  { subst a. destruct (Z.leb_spec 0 e).
    - rewrite Z.max_l by lia.
      pose proof (Z.pow_pos_nonneg 2 e ltac:(lia) ltac:(lia)). lia.
    - rewrite Z.max_r by lia. cbn. lia. }
  assert (Hb : (1 <= b <= 10 ^ Z.max (- q) 0)%Z).
  { subst b. destruct (Z.ltb_spec q 0).
    - rewrite Z.max_l by lia.
      pose proof (Z.pow_pos_nonneg 10 (- q) ltac:(lia) ltac:(lia)). lia.
    - rewrite Z.max_r by lia. cbn. lia. }
  assert (Ha' : (1 <= a')%Z).
  { subst a'. destruct (Z.leb_spec 0 e); [lia|].
    pose proof (Z.pow_pos_nonneg 2 (- e) ltac:(lia) ltac:(lia)). lia. }
  assert (Hb' : (1 <= b')%Z).
  { subst b'. destruct (Z.ltb_spec q 0); [lia|].
    pose proof (Z.pow_pos_nonneg 10 q ltac:(lia) ltac:(lia)). lia. }
  assert (Hn : (0 <= m * a * b)%Z) by nia.
  assert (Hd : (1 <= a' * b')%Z) by nia.
  split.
  - apply Z.div_pos; lia.
  - apply Z.le_trans with (m * a * b)%Z.
    + apply Z.div_le_upper_bound; [lia|]. nia.
    + apply Z.mul_le_mono_nonneg; try lia.
      apply Z.mul_le_mono_nonneg_l; lia.
Qed.

Lemma find_decpt_bounds (fuel : nat) (m e t : Z) :
  (t <= FloatRepr.find_decpt fuel m e t <= t + Z.of_nat fuel)%Z.
Proof.
  revert t. induction fuel as [|f IH]; intros t; cbn [FloatRepr.find_decpt].
  - lia.
  - destruct (FloatRepr.ltb _ _); [lia|]. specialize (IH (t + 1)%Z). lia.
Qed.

Lemma decpt_bounds (m : positive) (e : Z) :
  (Zpos m < 2 ^ 53)%Z -> (-1074 <= e <= 971)%Z ->
  (-325 <= FloatRepr.decpt_of (Zpos m) e <= 311)%Z.
Proof.
  intros Hm He. unfold FloatRepr.decpt_of.
  pose proof (find_decpt_bounds 4 (Zpos m) e
                ((e + Z.log2 (Zpos m)) * 30103 / 100000 - 1)) as Hf.
  assert (Hl : (0 <= Z.log2 (Zpos m) < 53)%Z).
  { split; [apply Z.log2_nonneg|]. apply Z.log2_lt_pow2; lia. }
  assert (Hlo : (-324 <= (e + Z.log2 (Zpos m)) * 30103 / 100000)%Z)
    by (apply Z.div_le_lower_bound; lia).
  assert (Hhi : ((e + Z.log2 (Zpos m)) * 30103 / 100000 <= 308)%Z)
    by (apply Z.div_le_upper_bound; lia).
  change (Z.of_nat 4) with 4%Z in Hf. lia.
Qed.

Lemma candidate_bounds (m e t p d : Z) :
  FloatRepr.candidate m e t p = Some d ->
  (FloatRepr.floor_div_pow10 m e (t - p) <= d
   <= FloatRepr.floor_div_pow10 m e (t - p) + 1)%Z.
Proof.
  unfold FloatRepr.candidate.
  destruct (FloatRepr.rounds_to m e _), (FloatRepr.rounds_to m e _);
    try discriminate;
    [destruct (FloatRepr.compare _ _); [destruct (Z.even _)| |]|..];
    intros [= <-]; lia.
Qed.

Lemma shortest_bounds (fuel : nat) (m e t p d p' : Z) :
  FloatRepr.shortest fuel m e t p = (d, p') ->
  (p <= p' <= p + Z.of_nat fuel)%Z
  /\ (FloatRepr.floor_div_pow10 m e (t - p') <= d
      <= FloatRepr.floor_div_pow10 m e (t - p') + 1)%Z.
Proof.
  revert p. induction fuel as [|f IH]; intros p; cbn [FloatRepr.shortest].
  - intros [= <- <-]. lia.
  - destruct (FloatRepr.candidate m e t p) as [d0|] eqn:Ec.
    + intros [= <- <-]. apply candidate_bounds in Ec. lia.
    + intros H. apply IH in H. lia.
Qed.

Lemma strip_zeros_bounds (fuel : nat) (d : Z) :
  (0 <= d)%Z -> (0 <= FloatRepr.strip_zeros fuel d <= d)%Z.
Proof.
  revert d. induction fuel as [|f IH]; intros d Hd; cbn [FloatRepr.strip_zeros].
  - lia.
  - destruct ((d mod 10 =? 0)%Z && negb (d =? 0)%Z); [|lia].
    assert (0 <= d / 10 <= d)%Z.
    { split; [apply Z.div_pos; lia|].
      apply Z.div_le_upper_bound; lia. }
    specialize (IH (d / 10)%Z ltac:(lia)). lia.
Qed.

Lemma mul3_le (m a b c a' b' : Z) :
  (0 < m <= c)%Z -> (0 < a <= a')%Z -> (0 < b <= b')%Z ->
  (m * a * b <= c * a' * b')%Z.
Proof.
  intros Hm Ha Hb.
  apply Z.mul_le_mono_nonneg; [nia| |lia|lia].
  apply Z.mul_le_mono_nonneg; lia.
Qed.

(** The digits and the position of the point that [repr] prints. *)
Lemma finite_repr_layout (m : positive) (e : Z) :
  (Zpos m < 2 ^ 53)%Z -> (-1074 <= e <= 971)%Z ->
  exists D t,
    FloatRepr.finite_repr (Zpos m) e = FloatRepr.layout (str_of_Z D) t
    /\ (0 <= D < 10 ^ 700)%Z /\ (-325 <= t <= 312)%Z.
Proof.
  intros Hm He. unfold FloatRepr.finite_repr.
  pose proof (decpt_bounds m e Hm He) as Ht.
  set (t := FloatRepr.decpt_of (Zpos m) e) in *.
  destruct (FloatRepr.shortest 17 (Zpos m) e t 1) as [d p] eqn:Es.
  apply shortest_bounds in Es. destruct Es as [Hp Hd].
  change (Z.of_nat 17) with 17%Z in Hp.
  pose proof (floor_div_pow10_bounds (Zpos m) e (t - p) ltac:(lia)) as Hf.
  do 2 eexists. split; [reflexivity|]. split; [|destruct (d =? 10 ^ p)%Z; lia].
  pose proof (strip_zeros_bounds 18 d ltac:(lia)) as Hs.
  split; [lia|].
  apply Z.le_lt_trans with d; [lia|].
  apply Z.le_lt_trans
    with (Zpos m * 2 ^ Z.max e 0 * 10 ^ Z.max (- (t - p)) 0 + 1)%Z; [lia|].
  assert (H2 : (2 ^ Z.max e 0 <= 2 ^ 971)%Z)
    by (apply Z.pow_le_mono_r; lia).
  assert (H10 : (10 ^ Z.max (- (t - p)) 0 <= 10 ^ 343)%Z)
    by (apply Z.pow_le_mono_r; lia).
  assert (H2p : (0 < 2 ^ Z.max e 0)%Z) by (apply Z.pow_pos_nonneg; lia).
  assert (H10p : (0 < 10 ^ Z.max (- (t - p)) 0)%Z)
    by (apply Z.pow_pos_nonneg; lia).
  apply Z.le_lt_trans with (2 ^ 53 * 2 ^ 971 * 10 ^ 343 + 1)%Z;
    [|vm_compute; reflexivity].
  apply Z.add_le_mono_r. apply mul3_le; lia.
Qed.

(** For every float, [Decimal(str(x))] succeeds: a finite float is stored
    as a finite decimal of the same sign, whose digits are those that
    [repr] prints (followed by [k] zeros when the layout writes zeros before
    the point); an infinity as an infinity; a NaN as a NaN. *)
Lemma Decimal_str_float (x : float) :
  match Prim2SF x with
  | S754_zero s => Decimal (Py.str (JFloat x)) = Ok (DFinite s 0 (-1))
  | S754_infinity s => Decimal (Py.str (JFloat x)) = Ok (DInfinity s)
  | S754_nan => Decimal (Py.str (JFloat x)) = Ok (DNaN false false 0)
  | S754_finite s m e =>
      exists D t k,
        Py.str (JFloat x)
        = (if s then "-" else EmptyString) ++ FloatRepr.layout (str_of_Z D) t
        /\ (0 <= D)%Z
        /\ Decimal (Py.str (JFloat x))
           = Ok (DFinite s (Z.to_N D * 10 ^ N.of_nat k)
                         (t - Z.of_nat (String.length (str_of_Z D))
                          - Z.of_nat k))
  end.
Proof.
  cbn [Py.str Py.repr]. unfold FloatRepr.repr.
  destruct (Prim2SF x) as [s|s| |s m e] eqn:E.
  - destruct s; vm_compute; reflexivity.
  - destruct s; vm_compute; reflexivity.
  - vm_compute; reflexivity.
  - destruct (finite_float_bounds x s m e E) as [Hm He].
    destruct (finite_repr_layout m e Hm He) as (D & t & -> & HD & Ht).
    destruct (str_of_Z_digits D (proj1 HD)) as (ip & Es & Hne & Hip & Hv & Hlen).
    specialize (Hlen 700 ltac:(exact (proj2 HD)) ltac:(lia)).
    destruct (Decimal_layout s ip t Hne Hip ltac:(lia) ltac:(lia)) as [k Hk].
    exists D, t, k. split; [reflexivity|]. split; [apply HD|].
    rewrite Es, length_of_chars, Hk, Hv. reflexivity.
Qed.

Lemma numeric_columns_stamped (d : list (string * json)) (ts dn : string)
      (it : table_item) :
  numeric_columns_from
    (JObj (Py.dict_set (Py.dict_set d "timestamp" (JStr ts)) "city" (JStr dn)))
    it ->
  numeric_columns_from (JObj d) it.
Proof.
  unfold numeric_columns_from, column_from.
  rewrite !(getitem2_ext d _ "main" _ (stamped_get d ts dn "main" eq_refl eq_refl)).
  rewrite !(getitem2_ext d _ "wind" _ (stamped_get d ts dn "wind" eq_refl eq_refl)).
  rewrite !(getitem2_ext d _ "clouds" _ (stamped_get d ts dn "clouds" eq_refl eq_refl)).
  rewrite !(getitem2_ext d _ "sys" _ (stamped_get d ts dn "sys" eq_refl eq_refl)).
  cbn [Py.get]. now rewrite (stamped_get d ts dn "visibility" eq_refl eq_refl).
Qed.

(** A column read by [data[a][b]] is found by two dict lookups. *)
Lemma column_lookup (d : list (string * json)) (a b : string) (stored : decimal) :
  column_from (JObj d) a b stored ->
  exists m v,
    Py.dict_get d a = Some (JObj m) /\ Py.dict_get m b = Some v
    /\ Decimal (Py.str v) = Ok stored.
Proof.
  intros (v & Hv & Hdec).
  destruct (getitem2_dict _ _ _ _ Hv) as (d' & m & [= <-] & Ha & Hb).
  exists m, v. repeat split; assumption.
Qed.

Lemma all_upto_spec (n : nat) (f : Z -> bool) :
  all_upto n f = true ->
  forall k, (- Z.of_nat n <= k <= Z.of_nat n)%Z -> f k = true.
Proof.
  induction n as [|m IH]; cbn [all_upto]; intros H k Hk.
  - now replace k with 0%Z by lia.
  - apply andb_prop in H. destruct H as [H Hm].
    apply andb_prop in H. destruct H as [Hp Hn].
    destruct (Z.eq_dec k (Z.of_nat (S m))) as [->|Hne1]; [exact Hp|].
    destruct (Z.eq_dec k (- Z.of_nat (S m))) as [->|Hne2]; [exact Hn|].
    apply IH; [exact Hm|lia].
Qed.

Lemma two_decimals_exact : all_upto 5000 exact_at = true.
Proof. vm_compute. reflexivity. Qed.

(** The rows of an iteration, column by column. *)
Lemma rows_of_iteration
      (w : world) (api_key bucket_name city dn : string) (i : nat) (st : state) :
  index city_display i = Ok dn ->
  exists entry evs st',
    process_city w api_key bucket_name i city st = (Ok tt, st')
    /\ results st' = (results st ++ [entry])%list
    /\ trace st' = (trace st ++ evs)%list
    /\ (forall it,
          In (ev_put_item it) evs ->
          exists d,
            urlopen_json w (api_url city api_key) = Ok (JObj d)
            /\ numeric_columns_from (JObj d) it)
    /\ (is_success entry = true -> exists it, In (ev_put_item it) evs).
Proof.
  intros Hdn. do 3 eexists.
  split; [apply process_city_run; exact Hdn|].
  unfold after_city. cbn [results trace].
  split; [reflexivity|]. split; [reflexivity|].
  run_stages w; split;
    try (intros x Hin; in_events; fail);
    try (intros Hs; discriminate Hs).
  - intros x Hin. in_events.
    destruct (stamp_is_obj _ _ _ _ Hstamp) as (d & -> & ->).
    exists d. split; [reflexivity|].
    apply numeric_columns_stamped with (ts := isoformat (now w (clock_reads st)))
                                      (dn := dn).
    apply (build_item_columns _ _ _ _ Hitem).
  - intros x Hin. in_events.
    destruct (stamp_is_obj _ _ _ _ Hstamp) as (d & -> & ->).
    exists d. split; [reflexivity|].
    apply numeric_columns_stamped with (ts := isoformat (now w (clock_reads st)))
                                      (dn := dn).
    apply (build_item_columns _ _ _ _ Hitem).
  - intros _. exists it0. right; right; now left.
Qed.

(** C5, as it holds of the code: (1) every row an iteration hands to the
    table has, in each numeric column, [Decimal(str(v))] for the value [v]
    that [json.loads] built at that column's path of the fetched payload
    (the decimal 0 when ["visibility"] is absent), and a success entry comes
    with such a row; (2) for an integer [v] (within the 4300 digits that
    [str] prints) that decimal is the integer itself; (3) for a string form
    in fixed notation it has exactly the digits of the string, the exponent
    counting those after the point; (4) the text [23.456] is read as a
    float that prints as [23.456] and is stored as the decimal
    23456 * 10^-3, although its binary value, 6602277053725147 * 2^-48, is
    not 23.456; (5) every number of hundredths from -50.00 to 50.00, read
    from its text with two decimals, is stored as exactly that number;
    (6) whenever the float read from a text prints as that text, the stored
    decimal is the decimal of the text; (7) for every float the conversion
    succeeds, and a finite float is stored as the finite decimal of the
    same sign made of the digits that its string form shows. *)
Theorem numeric_columns_exact :
  (forall w api_key bucket_name city dn i st,
      index city_display i = Ok dn ->
      exists entry evs st',
        process_city w api_key bucket_name i city st = (Ok tt, st')
        /\ results st' = (results st ++ [entry])%list
        /\ trace st' = (trace st ++ evs)%list
        /\ (forall it,
              In (ev_put_item it) evs ->
              exists d,
                urlopen_json w (api_url city api_key) = Ok (JObj d)
                /\ let column (a b : string) (stored : decimal) :=
                     exists m v,
                       Py.dict_get d a = Some (JObj m)
                       /\ Py.dict_get m b = Some v
                       /\ Decimal (Py.str v) = Ok stored in
                   column "main" "temp" (temperature it)
                   /\ column "main" "humidity" (humidity it)
                   /\ column "main" "pressure" (pressure it)
                   /\ column "wind" "speed" (wind_speed it)
                   /\ match Py.dict_get d "visibility" with
                      | Some v => Decimal (Py.str v) = Ok (visibility it)
                      | None => visibility it = DFinite false 0 0
                      end
                   /\ column "clouds" "all" (cloudiness it)
                   /\ column "sys" "sunrise" (sunrise it)
                   /\ column "sys" "sunset" (sunset it))
        /\ (is_success entry = true -> exists it, In (ev_put_item it) evs))
  /\ (forall z,
        (String.length (str_of_Z (Z.abs z)) <= 4300)%nat ->
        Decimal (Py.str (JInt z)) = Ok (DFinite (z <? 0)%Z (Z.abs_N z) 0))
  /\ (forall neg ip fp,
        ip <> [] -> all_digits ip -> all_digits fp ->
        (Z.of_nat (List.length (ip ++ fp)) <= Dec.emax)%Z ->
        Decimal (plain_literal neg ip fp)
        = Ok (DFinite neg (Dec.digits_val (ip ++ fp))
                      (- Z.of_nat (List.length fp))))
  /\ Json.loads_number "23.456" = Some (JFloat 23.456%float)
  /\ Py.str (JFloat 23.456%float) = "23.456"
  /\ Decimal (Py.str (JFloat 23.456%float)) = Ok (DFinite false 23456 (-3))
  /\ Prim2SF 23.456%float = S754_finite false 6602277053725147 (-48)
  /\ (6602277053725147 * 10 ^ 3 <> 23456 * 2 ^ 48)%Z
  /\ (forall k,
        (-5000 <= k <= 5000)%Z ->
        exists v d,
          Json.loads_number (two_decimals k) = Some v
          /\ Decimal (Py.str v) = Ok d
          /\ stored_hundredths d = Some k)
  /\ (forall s x,
        Json.loads_number s = Some (JFloat x) ->
        Py.str (JFloat x) = s ->
        Decimal (Py.str (JFloat x)) = Decimal s)
  /\ (forall x : float,
        match Prim2SF x with
        | S754_zero s => Decimal (Py.str (JFloat x)) = Ok (DFinite s 0 (-1))
        | S754_infinity s => Decimal (Py.str (JFloat x)) = Ok (DInfinity s)
        | S754_nan => Decimal (Py.str (JFloat x)) = Ok (DNaN false false 0)
        | S754_finite s m e =>
            exists D t k,
              Py.str (JFloat x)
              = (if s then "-" else EmptyString)
                  ++ FloatRepr.layout (str_of_Z D) t
              /\ (0 <= D)%Z
              /\ Decimal (Py.str (JFloat x))
                 = Ok (DFinite s (Z.to_N D * 10 ^ N.of_nat k)
                               (t - Z.of_nat (String.length (str_of_Z D))
                                - Z.of_nat k))
        end).
Proof.
  split; [|split; [exact Decimal_str_int|split; [exact Decimal_plain_literal|]]].
  - intros w api_key bucket_name city dn i st Hdn.
    destruct (rows_of_iteration w api_key bucket_name city dn i st Hdn)
      as (entry & evs & st' & Hrun & Hres & Htr & Hrows & Hok).
    exists entry, evs, st'. repeat (split; [assumption|]).
    split; [|exact Hok].
    intros it Hin. destruct (Hrows it Hin) as (d & Hfetch & Hcols).
    exists d. split; [exact Hfetch|]. cbv zeta.
    destruct Hcols as (H1 & H2 & H3 & H4 & (v & Hv & Hvis) & H6 & H7 & H8).
    repeat (split; [now apply column_lookup|]).
    split; [|split; [|split]]; try (now apply column_lookup).
    cbn [Py.get] in Hv. destruct (Py.dict_get d "visibility") as [v'|].
    + injection Hv as <-. exact Hvis.
    + injection Hv as <-. rewrite Decimal_str_zero in Hvis. now injection Hvis.
  - split; [vm_compute; reflexivity|]. split; [vm_compute; reflexivity|].
    split; [vm_compute; reflexivity|]. split; [vm_compute; reflexivity|].
    split; [vm_compute; discriminate|]. split.
    + intros k Hk.
      assert (H := all_upto_spec 5000 exact_at two_decimals_exact k).
      change (Z.of_nat 5000) with 5000%Z in H. specialize (H Hk).
      unfold exact_at in H.
      destruct (Json.loads_number (two_decimals k)) as [v|] eqn:Ev;
        [|discriminate H].
      destruct (Decimal (Py.str v)) as [d|e] eqn:Ed; [|discriminate H].
      exists v, d. split; [reflexivity|]. split; [exact Ed|].
      destruct (stored_hundredths d) as [h|]; [|discriminate H].
      apply Z.eqb_eq in H. now subst h.
    + split; [intros s x _ ->; reflexivity|exact Decimal_str_float].
Qed.

Lemma numeric_columns_exact_witness :
  exists entry evs st',
    process_city Sample.all_up "k3y" "weather-raw" 3 "Durban" loop_start
    = (Ok tt, st')
    /\ results st' = (results loop_start ++ [entry])%list
    /\ trace st' = (trace loop_start ++ evs)%list
    /\ (forall it,
          In (ev_put_item it) evs ->
          exists d m v,
            urlopen_json Sample.all_up
              "http://api.openweathermap.org/data/2.5/weather?q=Durban&appid=k3y&units=metric"
            = Ok (JObj d)
            /\ Py.dict_get d "main" = Some (JObj m)
            /\ Py.dict_get m "temp" = Some v
            /\ Decimal (Py.str v) = Ok (temperature it)).
Proof.
  destruct (proj1 numeric_columns_exact
              Sample.all_up "k3y" "weather-raw" "Durban" "Durban" 3 loop_start
              eq_refl)
    as (entry & evs & st' & Hrun & Hres & Htr & Hrows & _).
  exists entry, evs, st'. repeat (split; [assumption|]).
  intros it Hin. destruct (Hrows it Hin) as (d & Hfetch & (m & v & Hm & Hv & Hdec) & _).
  exists d, m, v. repeat split; assumption.
Defined.

(** The claim as the specification states it (the stored decimal equals the
    number in the source JSON) fails for a number that is not the shortest
    string form of its float: the text [9007199254740993.0] is read as the
    float 9007199254740992.0, the city is a success and the row holds
    9007199254740992.0, which is not the number of the text; likewise the
    text [23.4560] is stored as 23.456, without its last digit. *)
Lemma source_number_is_rounded :
  exists v stored source v' stored' source',
    Json.loads_number "9007199254740993.0" = Some v
    /\ map is_success
           (entries_of (lambda_handler
                          (answering "Durban" (payload_with_temp v))
                          JNull JNull))
       = [true; true; true; true]
    /\ temperatures_for "Durban"
         (trace (snd (lambda_handler
                        (answering "Durban" (payload_with_temp v))
                        JNull JNull)))
       = [stored]
    /\ stored = DFinite false 90071992547409920 (-1)
    /\ Decimal "9007199254740993.0" = Ok source
    /\ source = DFinite false 90071992547409930 (-1)
    /\ stored <> source
    /\ Json.loads_number "23.4560" = Some v'
    /\ Decimal (Py.str v') = Ok stored'
    /\ stored' = DFinite false 23456 (-3)
    /\ Decimal "23.4560" = Ok source'
    /\ source' = DFinite false 234560 (-4)
    /\ stored' <> source'.
Proof.
  do 6 eexists. split; [vm_compute; reflexivity|].
  split; [vm_compute; reflexivity|]. split; [vm_compute; reflexivity|].
  split; [reflexivity|]. split; [vm_compute; reflexivity|].
  split; [reflexivity|]. split; [discriminate|].
  split; [vm_compute; reflexivity|]. split; [vm_compute; reflexivity|].
  split; [reflexivity|]. split; [vm_compute; reflexivity|].
  split; [reflexivity|discriminate].
Qed.

(** Digits of another script are digits: a temperature sent as the string
    of the two Arabic-Indic digits two and three is the decimal 23.  An
    exponent past the largest one is refused, with another text than a
    syntax error. *)
Example Decimal_of_other_digits :
  Decimal (of_chars (map ascii_of_nat [217; 162; 217; 163]))
  = Ok (DFinite false 23 0)
  /\ Decimal "1e1000000000000000000"
     = Raise (InvalidOperation "InvalidOperation")
  /\ exn_str (InvalidOperation "InvalidOperation")
     = "[<class 'decimal.InvalidOperation'>]"
  /\ Decimal "N/A" = Raise (InvalidOperation "ConversionSyntax")
  /\ exn_str (InvalidOperation "ConversionSyntax")
     = "[<class 'decimal.ConversionSyntax'>]".
Proof. vm_compute. repeat split; reflexivity. Qed.

Lemma per_city_isolation_witness :
  exists rs t st fs,
    lambda_handler
      (Sample.with_fetch (api_url "Cape%20Town" "k3y")
                         (Raise (URLError "timed out")))
      JNull JNull
    = (Ok (summary_response rs t), st)
    /\ statusCode (summary_response rs t) = 200
    /\ List.length rs = 4
    /\ List.length (filter is_success rs) = 3
    /\ filter is_error rs = [JObj fs]
    /\ nth_error rs 1 = Some (JObj fs)
    /\ Py.dict_get fs "city" = Some (JStr "Cape Town")
    /\ Py.dict_get fs "status" = Some (JStr "error")
    /\ Py.dict_get fs "error" = Some (JStr "<urlopen error timed out>")
    /\ body_field (summary_response rs t) "success_rate" = Some (JStr "75.0%").
Proof.
  assert (Hk : "k3y" <> EmptyString) by discriminate.
  assert (Hb : "weather-raw" <> EmptyString) by discriminate.
  assert (Hup : clients_up
                  (Sample.with_fetch (api_url "Cape%20Town" "k3y")
                                     (Raise (URLError "timed out"))))
    by (repeat split).
  assert (Hothers : forall city,
             In city cities -> city <> "Cape%20Town" ->
             healthy_city (Sample.with_fetch (api_url "Cape%20Town" "k3y")
                                             (Raise (URLError "timed out")))
                          "k3y" city).
  { intros city Hin Hne. cbn [cities In] in Hin.
    destruct Hin as [<-|[<-|[<-|[<-|[]]]]];
      try (now contradiction Hne);
      (eexists; split; [reflexivity|]; eexists; vm_compute; reflexivity). }
  assert (Hstore : storage_up
                     (Sample.with_fetch (api_url "Cape%20Town" "k3y")
                                        (Raise (URLError "timed out"))))
    by (split; reflexivity).
  destruct (proj2 (proj2 (proj2
              (per_city_isolation
                 (Sample.with_fetch (api_url "Cape%20Town" "k3y")
                                    (Raise (URLError "timed out")))
                 JNull JNull "k3y" "weather-raw" Hup eq_refl Hk eq_refl Hb)))
              1 "Cape%20Town" "Cape Town" (URLError "timed out")
              eq_refl eq_refl eq_refl Hothers Hstore)
    as (rs & t & st & Hrun & Hs & Hlen & Hok & Herr & Hnth & Hrate).
  exists rs, t, st. eexists.
  split; [exact Hrun|]. split; [exact Hs|]. split; [exact Hlen|].
  split; [exact Hok|]. split; [exact Herr|]. split; [exact Hnth|].
  split; [reflexivity|]. split; [reflexivity|]. split; [reflexivity|].
  exact Hrate.
Defined.

(** ** Runs on concrete worlds *)

(** A payload without ["weather"]: the raw object is written, the row is
    not, and the entry carries [str(KeyError('weather'))]. *)
Example missing_field_run :
  let r := lambda_handler
             (Sample.with_fetch (api_url "Durban" "k3y")
                                (Ok Sample.payload_no_weather))
             JNull JNull in
  status_of r = Some 200
  /\ nth_error (entries_of r) 3
     = Some (JObj [("city", JStr "Durban"); ("status", JStr "error");
                   ("error", JStr "'weather'")])
  /\ count_calls is_put_object r = 4
  /\ count_calls is_put_item r = 3.
Proof. vm_compute. repeat split; reflexivity. Qed.

(** A body that is not JSON: no write for that city. *)
Example malformed_json_run :
  let r := lambda_handler
             (Sample.with_fetch
                (api_url "Pretoria" "k3y")
                (Raise (JSONDecodeError
                          "Expecting value: line 1 column 1 (char 0)")))
             JNull JNull in
  status_of r = Some 200
  /\ nth_error (entries_of r) 0
     = Some (JObj [("city", JStr "Pretoria"); ("status", JStr "error");
                   ("error",
                    JStr "Expecting value: line 1 column 1 (char 0)")])
  /\ count_calls is_put_object r = 3
  /\ count_calls is_put_item r = 3.
Proof. vm_compute. repeat split; reflexivity. Qed.

(** A rejected row: the entry is an error, the raw object had been
    written. *)
Example rejected_row_run :
  let r := lambda_handler (Sample.table_down_for "Johannesburg") JNull JNull in
  status_of r = Some 200
  /\ nth_error (entries_of r) 2
     = Some (JObj [("city", JStr "Johannesburg"); ("status", JStr "error");
                   ("error", JStr "An error occurred (ThrottlingException)")])
  /\ map is_success (entries_of r) = [true; true; false; true]
  /\ count_calls is_put_object r = 4
  /\ count_calls is_put_item r = 4.
Proof. vm_compute. repeat split; reflexivity. Qed.

(** * Further properties of the handler *)

(** ** Which status, which requests *)

(** X2: the status code is decided by the constructors and the two
    environment variables alone: 500 when a constructor raises, else 400
    when a variable is absent or empty, else 200.  Two worlds that agree on
    these get the same status, whatever the provider, the stores and the
    clock do. *)
Theorem status_decision (w : world) (event context : json) :
  status_of (lambda_handler w event context)
  = Some (if negb (clients_upb w) then 500
          else if missing (environ w "WEATHER_API_KEY")
                  || missing (environ w "S3_BUCKET_NAME") then 400
          else 200)
  /\ (forall w',
        clients_upb w' = clients_upb w ->
        environ w' "WEATHER_API_KEY" = environ w "WEATHER_API_KEY" ->
        environ w' "S3_BUCKET_NAME" = environ w "S3_BUCKET_NAME" ->
        status_of (lambda_handler w' event context)
        = status_of (lambda_handler w event context)).
Proof.
  assert (H : forall v,
             status_of (lambda_handler v event context)
             = Some (if negb (clients_upb v) then 500
                     else if missing (environ v "WEATHER_API_KEY")
                             || missing (environ v "S3_BUCKET_NAME") then 400
                     else 200)).
  { intros v. rewrite handler_run_eq. unfold handler_run, clients_upb.
    destruct (boto3_client v "s3"); [reflexivity|].
    destruct (boto3_resource v "dynamodb"); [reflexivity|].
    destruct (dynamodb_Table v "WeatherData"); [reflexivity|].
    destruct (environ v "WEATHER_API_KEY") as [[|c k]|]; try reflexivity.
    destruct (environ v "S3_BUCKET_NAME") as [[|c' b]|]; reflexivity. }
  split; [apply H|].
  intros w' Hc Hk Hb. now rewrite !H, Hc, Hk, Hb.
Qed.

Lemma status_decision_witness :
  status_of (lambda_handler provider_down JNull JNull)
  = status_of (lambda_handler Sample.all_up JNull JNull).
Proof.
  exact (proj2 (status_decision Sample.all_up JNull JNull)
               provider_down eq_refl eq_refl eq_refl).
Defined.

Lemma urls_of_run (w : world) (api_key bucket_name dn city : string) (n : nat) :
  urls_of (run_events (run_city w api_key bucket_name dn city n))
  = [api_url city api_key].
Proof. run_stages w; reflexivity. Qed.

Lemma urls_of_app (a b : list event) :
  urls_of (a ++ b) = (urls_of a ++ urls_of b)%list.
Proof. apply flat_map_app. Qed.

(** X1: an invocation that returns 200 has requested exactly the four URLs
    [http://api.openweathermap.org/data/2.5/weather?q=<city>&appid=<key>&units=metric],
    once each, in the order Pretoria, Cape%20Town, Johannesburg, Durban,
    whatever failed on the way (no retry, no city skipped); one that returns
    400 or 500 has requested none. *)
Theorem http_requests (w : world) (event context : json) :
  urls_of (trace (snd (lambda_handler w event context)))
  = if returned_200 (lambda_handler w event context)
    then ["http://api.openweathermap.org/data/2.5/weather?q=Pretoria&appid="
            ++ configured_key w ++ "&units=metric";
          "http://api.openweathermap.org/data/2.5/weather?q=Cape%20Town&appid="
            ++ configured_key w ++ "&units=metric";
          "http://api.openweathermap.org/data/2.5/weather?q=Johannesburg&appid="
            ++ configured_key w ++ "&units=metric";
          "http://api.openweathermap.org/data/2.5/weather?q=Durban&appid="
            ++ configured_key w ++ "&units=metric"]
    else [].
Proof.
  rewrite handler_run_eq. unfold handler_run, configured_key.
  destruct (boto3_client w "s3"); [reflexivity|].
  destruct (boto3_resource w "dynamodb"); [reflexivity|].
  destruct (dynamodb_Table w "WeatherData"); [reflexivity|].
  destruct (environ w "WEATHER_API_KEY") as [[|c k]|]; try reflexivity.
  destruct (environ w "S3_BUCKET_NAME") as [[|c' b]|]; try reflexivity.
  cbv zeta.
  destruct (after_loop_unfold w (String c k) (String c' b)) as (_ & Htr & _).
  cbn [snd tick trace]. rewrite Htr.
  rewrite !urls_of_app, !urls_of_run. reflexivity.
Qed.

Lemma http_requests_witness :
  urls_of (trace (snd (lambda_handler Sample.all_up JNull JNull)))
  = ["http://api.openweathermap.org/data/2.5/weather?q=Pretoria&appid=k3y&units=metric";
     "http://api.openweathermap.org/data/2.5/weather?q=Cape%20Town&appid=k3y&units=metric";
     "http://api.openweathermap.org/data/2.5/weather?q=Johannesburg&appid=k3y&units=metric";
     "http://api.openweathermap.org/data/2.5/weather?q=Durban&appid=k3y&units=metric"]
  /\ urls_of (trace (snd (lambda_handler Sample.no_key_no_client JNull JNull)))
     = [].
Proof.
  split; rewrite http_requests; vm_compute; reflexivity.
Defined.

(** ** When everything outside fails *)

(** X3: when the configuration checks pass and the fetch raises for every
    city, the handler still returns status 200: four entries
    [{city, status: error, error: str(e)}] with the exceptions' texts,
    [successful_cities] = 0, [success_rate] = ["0.0%"]; it has made the four
    HTTP requests and no storage call, and its only clock read is the one
    printed as [execution_time]. *)
Theorem provider_outage (w : world) (event context : json)
        (api_key bucket_name : string) :
  clients_up w ->
  environ w "WEATHER_API_KEY" = Some api_key -> api_key <> EmptyString ->
  environ w "S3_BUCKET_NAME" = Some bucket_name -> bucket_name <> EmptyString ->
  (forall city,
      In city cities ->
      exists e, urlopen_json w (api_url city api_key) = Raise e) ->
  exists e0 e1 e2 e3 resp st,
    urlopen_json w (api_url "Pretoria" api_key) = Raise e0
    /\ urlopen_json w (api_url "Cape%20Town" api_key) = Raise e1
    /\ urlopen_json w (api_url "Johannesburg" api_key) = Raise e2
    /\ urlopen_json w (api_url "Durban" api_key) = Raise e3
    /\ lambda_handler w event context = (Ok resp, st)
    /\ statusCode resp = 200
    /\ body_field resp "results"
       = Some (JArr [JObj [("city", JStr "Pretoria"); ("status", JStr "error");
                           ("error", JStr (exn_str e0))];
                     JObj [("city", JStr "Cape Town"); ("status", JStr "error");
                           ("error", JStr (exn_str e1))];
                     JObj [("city", JStr "Johannesburg");
                           ("status", JStr "error");
                           ("error", JStr (exn_str e2))];
                     JObj [("city", JStr "Durban"); ("status", JStr "error");
                           ("error", JStr (exn_str e3))]])
    /\ body_field resp "successful_cities" = Some (JInt 0)
    /\ body_field resp "success_rate" = Some (JStr "0.0%")
    /\ body_field resp "execution_time" = Some (JStr (isoformat (now w 0)))
    /\ filter is_io_call (trace st)
       = map (fun city => ev_urlopen (api_url city api_key)) cities
    /\ clock_reads st = 1.
Proof.
  intros Hup Hk Hkne Hb Hbne Hall.
  destruct (Hall "Pretoria") as [e0 H0]; [cbn; tauto|].
  destruct (Hall "Cape%20Town") as [e1 H1]; [cbn; tauto|].
  destruct (Hall "Johannesburg") as [e2 H2]; [cbn; tauto|].
  destruct (Hall "Durban") as [e3 H3]; [cbn; tauto|].
  exists e0, e1, e2, e3. do 2 eexists.
  do 4 (split; [assumption|]).
  split; [exact (handler_200 w event context api_key bucket_name
                             Hup Hk Hkne Hb Hbne)|].
  unfold after_loop, after_city.
  rewrite (failed_fetch w api_key bucket_name "Pretoria" "Pretoria" _ e0 H0).
  cbn [run_reads run_events run_outcome clock_reads].
  rewrite (failed_fetch w api_key bucket_name "Cape Town" "Cape%20Town" _ e1 H1).
  cbn [run_reads run_events run_outcome clock_reads].
  rewrite (failed_fetch w api_key bucket_name "Johannesburg" "Johannesburg" _ e2 H2).
  cbn [run_reads run_events run_outcome clock_reads].
  rewrite (failed_fetch w api_key bucket_name "Durban" "Durban" _ e3 H3).
  cbn [run_reads run_events run_outcome clock_reads results trace entry_of
       loop_start app tick].
  split; [reflexivity|]. split; [reflexivity|]. split; [reflexivity|].
  split; [rewrite body_field_success_rate; vm_compute; reflexivity|].
  split; [reflexivity|]. split; reflexivity.
Qed.

Lemma provider_outage_witness :
  exists resp st,
    lambda_handler provider_down JNull JNull = (Ok resp, st)
    /\ statusCode resp = 200
    /\ body_field resp "results"
       = Some (JArr [JObj [("city", JStr "Pretoria"); ("status", JStr "error");
                           ("error",
                            JStr "<urlopen error [Errno -2] Name or service not known>")];
                     JObj [("city", JStr "Cape Town"); ("status", JStr "error");
                           ("error",
                            JStr "<urlopen error [Errno -2] Name or service not known>")];
                     JObj [("city", JStr "Johannesburg");
                           ("status", JStr "error");
                           ("error",
                            JStr "<urlopen error [Errno -2] Name or service not known>")];
                     JObj [("city", JStr "Durban"); ("status", JStr "error");
                           ("error",
                            JStr "<urlopen error [Errno -2] Name or service not known>")]])
    /\ body_field resp "successful_cities" = Some (JInt 0)
    /\ body_field resp "success_rate" = Some (JStr "0.0%")
    /\ clock_reads st = 1.
Proof.
  assert (Hk : "k3y" <> EmptyString) by discriminate.
  assert (Hb : "weather-raw" <> EmptyString) by discriminate.
  assert (Hup : clients_up provider_down) by (repeat split).
  destruct (provider_outage provider_down JNull JNull "k3y" "weather-raw"
              Hup eq_refl Hk eq_refl Hb
              (fun city _ => ex_intro _ _ eq_refl))
    as (e0 & e1 & e2 & e3 & resp & st & H0 & H1 & H2 & H3 & Hrun & Hs & Hres
        & Hn & Hr & _ & _ & Hc).
  cbn in H0, H1, H2, H3.
  injection H0 as <-. injection H1 as <-. injection H2 as <-.
  injection H3 as <-.
  exists resp, st. repeat split; assumption.
Defined.

(** ** Bookkeeping of a run *)

Lemma run_city_counts (w : world) (api_key bucket_name dn city : string)
      (n : nat) :
  let r := run_city w api_key bucket_name dn city n in
  List.length (filter (accepted_row w) (run_events r))
  = (if succeeded (run_outcome r) then 1 else 0)
  /\ List.length (filter is_put_item (run_events r))
     <= List.length (filter is_put_object (run_events r))
  /\ List.length (filter is_put_object (run_events r)) <= 1
  /\ run_reads r = n + 2 * List.length (filter is_put_object (run_events r)).
Proof.
  cbv zeta. run_stages w;
    cbn [filter accepted_row is_put_item is_put_object List.length succeeded];
    try rewrite Hrow; cbn [List.length]; try (repeat split; lia).
  destruct (current_temp_is_obj _ _ Htemp) as [o ->]. discriminate Hstamp.
Qed.

Lemma count_success_cons (dn : string) (o : result (string * json))
      (l : list json) :
  List.length (filter is_success (entry_of dn o :: l))
  = (if succeeded o then 1 else 0) + List.length (filter is_success l).
Proof.
  cbn [filter]. rewrite is_success_entry_of. now destruct (succeeded o).
Qed.

Lemma entries_of_summary (rs : list json) (t : datetime) (st : state) :
  entries_of (Ok (summary_response rs t), st) = rs.
Proof. reflexivity. Qed.

(** X4: in an invocation that passes the configuration checks, the number of
    success entries, which is [successful_cities], is the number of
    [put_item] calls that returned; there are at most as many [put_item]
    calls as [put_object] calls, and at most four of those; and the clock
    was read twice for each [put_object] call and once for the body. *)
Theorem bookkeeping (w : world) (event context : json)
        (api_key bucket_name : string) :
  clients_up w ->
  environ w "WEATHER_API_KEY" = Some api_key -> api_key <> EmptyString ->
  environ w "S3_BUCKET_NAME" = Some bucket_name -> bucket_name <> EmptyString ->
  let r := lambda_handler w event context in
  List.length (filter is_success (entries_of r))
  = count_calls (accepted_row w) r
  /\ (exists resp,
        fst r = Ok resp
        /\ body_field resp "successful_cities"
           = Some (JInt (Z.of_nat (count_calls (accepted_row w) r))))
  /\ count_calls is_put_item r <= count_calls is_put_object r
  /\ count_calls is_put_object r <= 4
  /\ clock_reads (snd r) = 2 * count_calls is_put_object r + 1.
Proof.
  intros Hup Hk Hkne Hb Hbne r. subst r.
  rewrite (handler_200 w event context api_key bucket_name Hup Hk Hkne Hb Hbne).
  rewrite entries_of_summary. unfold count_calls. cbn [fst snd tick trace clock_reads].
  destruct (after_loop_unfold w api_key bucket_name) as (Hres & Htr & Hclk).
  set (st := after_loop w api_key bucket_name) in *.
  set (r0 := run_city w api_key bucket_name "Pretoria" "Pretoria" 0) in *.
  set (r1 := run_city w api_key bucket_name "Cape Town" "Cape%20Town" _) in *.
  set (r2 := run_city w api_key bucket_name "Johannesburg" "Johannesburg" _) in *.
  set (r3 := run_city w api_key bucket_name "Durban" "Durban" _) in *.
  destruct (run_city_counts w api_key bucket_name "Pretoria" "Pretoria" 0)
    as (A0 & B0 & C0 & D0).
  destruct (run_city_counts w api_key bucket_name "Cape Town" "Cape%20Town"
                            (run_reads r0)) as (A1 & B1 & C1 & D1).
  destruct (run_city_counts w api_key bucket_name "Johannesburg" "Johannesburg"
                            (run_reads r1)) as (A2 & B2 & C2 & D2).
  destruct (run_city_counts w api_key bucket_name "Durban" "Durban"
                            (run_reads r2)) as (A3 & B3 & C3 & D3).
  fold r0 in A0, B0, C0, D0. fold r1 in A1, B1, C1, D1.
  fold r2 in A2, B2, C2, D2. fold r3 in A3, B3, C3, D3.
  assert (Hcount :
            List.length (filter is_success (results st))
            = List.length (filter (accepted_row w) (trace st))).
  { rewrite Hres, Htr, !count_success_cons, !filter_app, !length_app.
    cbn [filter List.length loop_start trace accepted_row].
    rewrite A0, A1, A2, A3. lia. }
  split; [exact Hcount|]. split.
  { eexists. split; [reflexivity|]. unfold summary_response, body_field.
    cbn [body Py.dict_get String.eqb Ascii.eqb Bool.eqb]. now rewrite Hcount. }
  rewrite Hclk, Htr, !filter_app, !length_app.
  cbn [filter List.length loop_start trace is_put_item is_put_object].
  lia.
Qed.

Lemma bookkeeping_witness :
  let r := lambda_handler (Sample.table_down_for "Johannesburg") JNull JNull in
  List.length (filter is_success (entries_of r))
  = count_calls (accepted_row (Sample.table_down_for "Johannesburg")) r
  /\ count_calls is_put_item r <= count_calls is_put_object r
  /\ clock_reads (snd r) = 2 * count_calls is_put_object r + 1.
Proof.
  assert (Hk : "k3y" <> EmptyString) by discriminate.
  assert (Hb : "weather-raw" <> EmptyString) by discriminate.
  assert (Hup : clients_up (Sample.table_down_for "Johannesburg"))
    by (repeat split).
  destruct (bookkeeping (Sample.table_down_for "Johannesburg") JNull JNull
                        "k3y" "weather-raw" Hup eq_refl Hk eq_refl Hb)
    as (H1 & _ & H3 & _ & H5).
  repeat split; assumption.
Defined.
(** ** The order of the calls *)

Lemma run_events_block (w : world) (api_key bucket_name dn city : string)
      (n : nat) :
  city_block (api_url city api_key)
             (run_events (run_city w api_key bucket_name dn city n)).
Proof.
  unfold city_block. run_stages w; eauto.
Qed.

(** X5: the calls of an invocation that passes the configuration checks are
    the three constructors followed by one block per city, in the order of
    the cities; a block is the city's request alone, or the request and a
    [put_object], or the request, a [put_object] and a [put_item]: nothing
    is written before its city was fetched, no row without its raw object
    first, and no city starts before the previous one has ended. *)
Theorem calls_in_blocks (w : world) (event context : json)
        (api_key bucket_name : string) :
  clients_up w ->
  environ w "WEATHER_API_KEY" = Some api_key -> api_key <> EmptyString ->
  environ w "S3_BUCKET_NAME" = Some bucket_name -> bucket_name <> EmptyString ->
  exists b0 b1 b2 b3,
    trace (snd (lambda_handler w event context))
    = ([ev_client "s3"; ev_resource "dynamodb"; ev_Table "WeatherData"]
         ++ b0 ++ b1 ++ b2 ++ b3)%list
    /\ city_block (api_url "Pretoria" api_key) b0
    /\ city_block (api_url "Cape%20Town" api_key) b1
    /\ city_block (api_url "Johannesburg" api_key) b2
    /\ city_block (api_url "Durban" api_key) b3.
Proof.
  intros Hup Hk Hkne Hb Hbne.
  rewrite (handler_200 w event context api_key bucket_name Hup Hk Hkne Hb Hbne).
  destruct (after_loop_unfold w api_key bucket_name) as (_ & Htr & _).
  cbn [snd tick trace]. rewrite Htr. do 4 eexists.
  split; [reflexivity|]. repeat split; apply run_events_block.
Qed.

Lemma calls_in_blocks_witness :
  exists b0 b1 b2 b3,
    trace (snd (lambda_handler provider_down JNull JNull))
    = ([ev_client "s3"; ev_resource "dynamodb"; ev_Table "WeatherData"]
         ++ b0 ++ b1 ++ b2 ++ b3)%list
    /\ city_block (api_url "Pretoria" "k3y") b0
    /\ city_block (api_url "Cape%20Town" "k3y") b1
    /\ city_block (api_url "Johannesburg" "k3y") b2
    /\ city_block (api_url "Durban" "k3y") b3.
Proof.
  assert (Hk : "k3y" <> EmptyString) by discriminate.
  assert (Hb : "weather-raw" <> EmptyString) by discriminate.
  assert (Hup : clients_up provider_down) by (repeat split).
  exact (calls_in_blocks provider_down JNull JNull "k3y" "weather-raw"
                         Hup eq_refl Hk eq_refl Hb).
Defined.

(** ** The loop on any list of cities *)

(** X6: the loop over any list of query tokens that [city_display] has
    names for, started at any index and in any state, never raises; it
    appends one entry per token, in order, each a success or an error entry
    carrying the display name at the token's index, leaves the earlier
    entries as they were, and requests the tokens' URLs once each, in
    order. *)
Theorem loop_appends_in_order (w : world) (api_key bucket_name : string)
        (cs : list string) (i : nat) (st : state) :
  i + List.length cs <= List.length city_display ->
  exists new st',
    for_cities w api_key bucket_name i cs st = (Ok tt, st')
    /\ results st' = (results st ++ new)%list
    /\ map entry_city new
       = map Some (firstn (List.length cs) (skipn i city_display))
    /\ forallb (fun r => xorb (is_success r) (is_error r)) new = true
    /\ urls_of (trace st')
       = (urls_of (trace st) ++ map (fun c => api_url c api_key) cs)%list.
Proof.
  revert i st. induction cs as [|city cs IH]; intros i st Hlen.
  - exists [], st. cbn [for_cities List.length firstn map forallb].
    rewrite !app_nil_r. repeat split.
  - cbn [List.length] in Hlen.
    destruct (nth_error city_display i) as [dn|] eqn:Hnth;
      [|apply nth_error_None in Hnth; lia].
    assert (Hdn : index city_display i = Ok dn)
      by (unfold index; now rewrite Hnth).
    assert (Hskip : skipn i city_display = dn :: skipn (S i) city_display).
    { clear - Hnth. revert i Hnth.
      induction city_display as [|x l IHl]; intros [|i] H;
        try discriminate H; cbn in *.
      - now injection H as ->.
      - now apply IHl. }
    destruct (IH (S i) (after_city w api_key bucket_name dn city st))
      as (new & st' & Hrun & Hres & Hcity & Hshape & Hurls); [lia|].
    exists (entry_of dn
              (run_outcome
                 (run_city w api_key bucket_name dn city (clock_reads st)))
            :: new), st'.
    split.
    { cbn [for_cities]. unfold bind at 1.
      now rewrite (process_city_run _ _ _ _ _ _ _ Hdn). }
    split.
    { rewrite Hres. unfold after_city. cbn [results].
      now rewrite <- app_assoc. }
    split.
    { cbn [List.length firstn map]. rewrite Hskip. cbn [firstn map].
      rewrite Hcity. f_equal. apply status_entry_of. }
    split.
    { cbn [forallb]. rewrite Hshape, andb_true_r.
      rewrite is_success_entry_of, is_error_entry_of.
      now destruct (succeeded _). }
    rewrite Hurls. unfold after_city. cbn [trace map].
    rewrite urls_of_app, urls_of_run. now rewrite <- app_assoc.
Qed.

Lemma loop_appends_in_order_witness :
  exists new st',
    for_cities Sample.all_up "k3y" "weather-raw" 2 ["Johannesburg"; "Durban"]
               loop_start
    = (Ok tt, st')
    /\ results st' = (results loop_start ++ new)%list
    /\ map entry_city new = [Some "Johannesburg"; Some "Durban"].
Proof.
  assert (H : 2 + List.length ["Johannesburg"; "Durban"]
              <= List.length city_display) by (cbn; lia).
  destruct (loop_appends_in_order Sample.all_up "k3y" "weather-raw"
              ["Johannesburg"; "Durban"] 2 loop_start H)
    as (new & st' & H1 & H2 & H3 & _).
  exists new, st'. repeat split; assumption.
Defined.

(** ** What a success entry and the sinks hold *)

Lemma Decimal_not_available :
  Decimal (Py.str (JStr "N/A")) = Raise (InvalidOperation "ConversionSyntax").
Proof. vm_compute. reflexivity. Qed.

(** X10: a success entry is [{city, status: success, timestamp,
    temperature}] where the temperature is the value at ["main"]["temp"] of
    the payload, the very value whose decimal is the row's temperature, and
    the timestamp is the row's; the fallback ['N/A'] of line 61 never
    appears in a success entry. *)
Theorem echoed_temperature
        (w : world) (api_key bucket_name city dn : string) (i : nat)
        (st : state) :
  index city_display i = Ok dn ->
  exists entry evs st',
    process_city w api_key bucket_name i city st = (Ok tt, st')
    /\ results st' = (results st ++ [entry])%list
    /\ trace st' = (trace st ++ evs)%list
    /\ (is_success entry = true ->
        exists d m temp it,
          urlopen_json w (api_url city api_key) = Ok (JObj d)
          /\ Py.dict_get d "main" = Some (JObj m)
          /\ Py.dict_get m "temp" = Some temp
          /\ In (ev_put_item it) evs
          /\ Decimal (Py.str temp) = Ok (temperature it)
          /\ entry
             = JObj [("city", JStr dn); ("status", JStr "success");
                     ("timestamp", JStr (item_timestamp it));
                     ("temperature", temp)]
          /\ temp <> JStr "N/A").
Proof.
  intros Hdn. do 3 eexists.
  split; [apply process_city_run; exact Hdn|].
  unfold after_city. cbn [results trace].
  split; [reflexivity|]. split; [reflexivity|].
  run_stages w; try (intros Hs; discriminate Hs).
  intros _.
  destruct (stamp_is_obj _ _ _ _ Hstamp) as (d & -> & ->).
  assert (Hts := proj2 (proj2 (build_item_columns _ _ _ _ Hitem))).
  rewrite build_item_stamped in Hitem.
  destruct (build_item_temp _ _ _ _ Hitem) as (v & Hg & Hc).
  assert (v = temp) by congruence. subst v.
  destruct (build_item_columns _ _ _ _ Hitem) as (((v & Hv & Hdec) & _) & _).
  assert (v = temp) by congruence. subst v.
  destruct (getitem2_dict _ _ _ _ Hg) as (d' & m & [= <-] & Hm & Ht).
  exists d, m, temp, it0.
  split; [reflexivity|]. split; [exact Hm|]. split; [exact Ht|].
  split; [right; right; now left|]. split; [exact Hdec|].
  split; [now rewrite Hts|].
  intros ->. rewrite Decimal_not_available in Hdec. discriminate Hdec.
Qed.

Lemma echoed_temperature_witness :
  exists entry evs st' fs,
    process_city Sample.all_up "k3y" "weather-raw" 0 "Pretoria" loop_start
    = (Ok tt, st')
    /\ results st' = (results loop_start ++ [entry])%list
    /\ trace st' = (trace loop_start ++ evs)%list
    /\ entry = JObj fs
    /\ Py.dict_get fs "temperature" = Some (JFloat 23.456%float)
    /\ Py.dict_get fs "timestamp" = Some (JStr "2024-03-05T10:00:00")
    /\ temperatures_for "Pretoria" evs = [DFinite false 23456 (-3)].
Proof.
  destruct (echoed_temperature Sample.all_up "k3y" "weather-raw" "Pretoria"
                               "Pretoria" 0 loop_start eq_refl)
    as (entry & evs & st' & Hrun & Hres & Htr & _).
  exists entry, evs, st'.
  assert (Hst : results st'
                = [JObj [("city", JStr "Pretoria"); ("status", JStr "success");
                         ("timestamp", JStr "2024-03-05T10:00:00");
                         ("temperature", JFloat 23.456%float)]]
                /\ temperatures_for "Pretoria" (trace st')
                   = [DFinite false 23456 (-3)]).
  { revert Hrun. vm_compute. intros [= <-]. split; reflexivity. }
  destruct Hst as [Hst Hrow].
  rewrite Hst in Hres. cbn [results loop_start app] in Hres.
  injection Hres as <-.
  rewrite Htr in Hrow. unfold temperatures_for in Hrow.
  rewrite flat_map_app in Hrow. cbn [trace loop_start flat_map app] in Hrow.
  eexists.
  split; [exact Hrun|]. split; [exact Hst|]. split; [exact Htr|].
  split; [reflexivity|]. split; [reflexivity|]. split; [reflexivity|].
  exact Hrow.
Defined.

(** X7: [display_name] is assigned inside the [try] and read in the
    [except].  For an index past the end of [city_display] the lookup raises
    inside the [try]: no call is made, and the entry is
    [{city, status: error, error: 'list index out of range'}] with the name
    left by the previous iteration; when no iteration has assigned it,
    reading it in the [except] raises [UnboundLocalError], which leaves the
    per-city [try]. *)
Theorem index_past_display_names
        (w : world) (api_key bucket_name city : string) (i : nat)
        (st : state) :
  List.length city_display <= i ->
  (forall previous,
      display_name st = Some previous ->
      process_city w api_key bucket_name i city st
      = (Ok tt,
         mkState (trace st) (clock_reads st)
                 (results st
                    ++ [JObj [("city", JStr previous);
                              ("status", JStr "error");
                              ("error", JStr "list index out of range")]])
                 (Some previous)))
  /\ (display_name st = None ->
      process_city w api_key bucket_name i city st
      = (Raise (UnboundLocalError "display_name"), st)).
Proof.
  intros Hi.
  assert (E : index city_display i = Raise (IndexError "list index out of range")).
  { unfold index. destruct (nth_error city_display i) eqn:En; [|reflexivity].
    apply nth_error_None in Hi. congruence. }
  destruct st as [tr n rs dn0]. cbn [display_name trace clock_reads results].
  unfold process_city, try_except, city_try. unfold bind at 1, lift at 1.
  rewrite E. unfold city_except, bind, get_display_name, append_result.
  cbn [display_name trace clock_reads results exn_str].
  split; [now intros previous ->|now intros ->].
Qed.

Lemma index_past_display_names_witness :
  process_city Sample.all_up "k3y" "weather-raw" 4 "Gqeberha"
               (after_loop Sample.all_up "k3y" "weather-raw")
  = (Ok tt,
     mkState (trace (after_loop Sample.all_up "k3y" "weather-raw"))
             (clock_reads (after_loop Sample.all_up "k3y" "weather-raw"))
             (results (after_loop Sample.all_up "k3y" "weather-raw")
                ++ [JObj [("city", JStr "Durban"); ("status", JStr "error");
                          ("error", JStr "list index out of range")]])
             (Some "Durban")).
Proof.
  assert (H : List.length city_display <= 4) by (cbn; lia).
  exact (proj1 (index_past_display_names
                  Sample.all_up "k3y" "weather-raw" "Gqeberha" 4
                  (after_loop Sample.all_up "k3y" "weather-raw") H)
               "Durban" eq_refl).
Defined.

(** ** Payloads of an unexpected shape *)

Lemma current_temp_not_object (data : json) :
  is_object data = false ->
  current_temp_of data = Raise (Py.no_attribute data "get").
Proof. destruct data; intros H; try reflexivity. discriminate H. Qed.

(** X8: when the provider answers JSON that is not an object (a list, a
    string, a number, a boolean, [null]), or an object whose ["main"] is not
    an object, the iteration stops at [.get]: the entry is
    [{city, status: error, error: "'<type>' object has no attribute 'get'"}]
    with the Python name of the value's type, nothing is written to either
    store and the clock is not read. *)
Theorem payload_not_an_object
        (w : world) (api_key bucket_name city dn : string) (i : nat)
        (st : state) (data : json) :
  index city_display i = Ok dn ->
  urlopen_json w (api_url city api_key) = Ok data ->
  let type_of (v : json) :=
    match v with
    | JNull => "NoneType"
    | JBool _ => "bool"
    | JInt _ => "int"
    | JFloat _ => "float"
    | JStr _ => "str"
    | JArr _ => "list"
    | JObj _ => "dict"
    end in
  let stops_with (v : json) :=
    process_city w api_key bucket_name i city st
    = (Ok tt,
       mkState (trace st ++ [ev_urlopen (api_url city api_key)])
               (clock_reads st)
               (results st
                  ++ [JObj [("city", JStr dn); ("status", JStr "error");
                            ("error",
                             JStr ("'" ++ type_of v
                                       ++ "' object has no attribute 'get'"))]])
               (Some dn)) in
  (is_object data = false -> stops_with data)
  /\ (forall d m,
        data = JObj d -> Py.dict_get d "main" = Some m ->
        is_object m = false -> stops_with m).
Proof.
  intros Hdn Hfetch type_of stops_with. subst stops_with type_of. cbv beta.
  rewrite (process_city_run _ _ _ _ _ _ _ Hdn). unfold after_city, run_city.
  rewrite Hfetch. split.
  - intros Hno. rewrite (current_temp_not_object _ Hno).
    destruct data; reflexivity.
  - intros d m -> Hm Hno. unfold current_temp_of. cbn [Py.get rbind].
    rewrite Hm. cbn [rbind]. destruct m; try reflexivity. discriminate Hno.
Qed.

Lemma payload_not_an_object_witness :
  process_city (answering "Durban" (JArr [])) "k3y" "weather-raw" 3 "Durban"
               loop_start
  = (Ok tt,
     mkState (trace loop_start
                ++ [ev_urlopen
                      "http://api.openweathermap.org/data/2.5/weather?q=Durban&appid=k3y&units=metric"])
             (clock_reads loop_start)
             (results loop_start
                ++ [JObj [("city", JStr "Durban"); ("status", JStr "error");
                          ("error",
                           JStr "'list' object has no attribute 'get'")]])
             (Some "Durban")).
Proof.
  exact (proj1 (payload_not_an_object
                  (answering "Durban" (JArr [])) "k3y" "weather-raw"
                  "Durban" "Durban" 3 loop_start (JArr []) eq_refl eq_refl)
               eq_refl).
Defined.

(** X9: when the payload is an object and [put_object] returns but a field
    of the row cannot be read or converted, the raw object has been written
    and no row follows: the calls are the request and the [put_object], the
    clock was read twice, and the entry is
    [{city, status: error, error: <text>}] with the text of the exception.
    For a payload without ["main"] the text is ['main'], for a ["main"]
    without ["temp"] it is ['temp'], and for a ["temp"] that is [null] it is
    the text of the decimal conversion error. *)
Theorem raw_object_without_row
        (w : world) (api_key bucket_name city dn : string) (i : nat)
        (st : state) (d : list (string * json)) (temp : json) :
  index city_display i = Ok dn ->
  urlopen_json w (api_url city api_key) = Ok (JObj d) ->
  current_temp_of (JObj d) = Ok temp ->
  let ts := isoformat (now w (clock_reads st)) in
  let stamped :=
    JObj (Py.dict_set (Py.dict_set d "timestamp" (JStr ts)) "city" (JStr dn)) in
  let req := city_request w bucket_name dn (clock_reads st) stamped in
  put_object w req = None ->
  let stops_with (text : string) :=
    process_city w api_key bucket_name i city st
    = (Ok tt,
       mkState (trace st ++ [ev_urlopen (api_url city api_key);
                             ev_put_object req])
               (S (S (clock_reads st)))
               (results st
                  ++ [JObj [("city", JStr dn); ("status", JStr "error");
                            ("error", JStr text)]])
               (Some dn)) in
  (forall e, build_item dn ts (JObj d) = Raise e -> stops_with (exn_str e))
  /\ (Py.dict_get d "main" = None ->
      stops_with "'main'" /\ temp = JStr "N/A")
  /\ (forall m,
        Py.dict_get d "main" = Some (JObj m) -> Py.dict_get m "temp" = None ->
        stops_with "'temp'" /\ temp = JStr "N/A")
  /\ (forall m,
        Py.dict_get d "main" = Some (JObj m) ->
        Py.dict_get m "temp" = Some JNull ->
        stops_with "[<class 'decimal.ConversionSyntax'>]" /\ temp = JNull).
Proof.
  intros Hdn Hfetch Htemp ts stamped req Hput stops_with.
  assert (Hstop : forall e,
             build_item dn ts (JObj d) = Raise e -> stops_with (exn_str e)).
  { intros e He. unfold stops_with.
    rewrite (process_city_run _ _ _ _ _ _ _ Hdn).
    unfold after_city, run_city. rewrite Hfetch, Htemp, stamp_obj.
    cbv zeta. fold ts. fold stamped. fold req. rewrite Hput.
    unfold stamped. rewrite build_item_stamped, He. reflexivity. }
  unfold current_temp_of in Htemp. cbn [Py.get rbind] in Htemp.
  split; [exact Hstop|]. split; [|split].
  - intros Hmain. split.
    + apply (Hstop (KeyError "'main'")).
      unfold build_item, getitem2. cbn [Py.getitem rbind]. now rewrite Hmain.
    + rewrite Hmain in Htemp. cbn in Htemp. now injection Htemp as <-.
  - intros m Hmain Hnone. split.
    + apply (Hstop (KeyError "'temp'")).
      unfold build_item, getitem2. cbn [Py.getitem rbind]. rewrite Hmain.
      cbn [Py.getitem rbind]. now rewrite Hnone.
    + rewrite Hmain in Htemp. cbn [rbind Py.get] in Htemp.
      rewrite Hnone in Htemp. now injection Htemp as <-.
  - intros m Hmain Hnull. split.
    + apply (Hstop (InvalidOperation "ConversionSyntax")).
      unfold build_item, getitem2. cbn [Py.getitem rbind]. rewrite Hmain.
      cbn [Py.getitem rbind]. rewrite Hnull. reflexivity.
    + rewrite Hmain in Htemp. cbn [rbind Py.get] in Htemp.
      rewrite Hnull in Htemp. now injection Htemp as <-.
Qed.

Lemma raw_object_without_row_witness :
  process_city (answering "Durban" (JObj [])) "k3y" "weather-raw" 3 "Durban"
               loop_start
  = (Ok tt,
     mkState (trace loop_start
                ++ [ev_urlopen
                      "http://api.openweathermap.org/data/2.5/weather?q=Durban&appid=k3y&units=metric";
                    ev_put_object
                      (mkS3 "weather-raw"
                            "raw-data/Durban/2024/03/05/2024-03-05T10:00:00.json"
                            (JObj [("timestamp", JStr "2024-03-05T10:00:00");
                                   ("city", JStr "Durban")])
                            "application/json"
                            [("city", "Durban");
                             ("collection_time", "2024-03-05T10:00:00");
                             ("data_source", "openweathermap")])])
             2
             (results loop_start
                ++ [JObj [("city", JStr "Durban"); ("status", JStr "error");
                          ("error", JStr "'main'")]])
             (Some "Durban")).
Proof.
  exact (proj1 (proj1 (proj2 (raw_object_without_row
                                (answering "Durban" (JObj [])) "k3y"
                                "weather-raw" "Durban" "Durban" 3 loop_start
                                [] (JStr "N/A")
                                eq_refl eq_refl eq_refl eq_refl))
                      eq_refl)).
Defined.

(** ** The stamped payload *)

Lemma dict_get_set_same (d : list (string * json)) (k : string) (v : json) :
  Py.dict_get (Py.dict_set d k v) k = Some v.
Proof.
  induction d as [|[k0 v0] t IH]; cbn [Py.dict_set Py.dict_get].
  - now rewrite String.eqb_refl.
  - destruct (String.eqb k k0) eqn:E; cbn [Py.dict_get]; now rewrite E.
Qed.

Lemma dict_set_keys (d : list (string * json)) (k : string) (v : json) :
  map fst (Py.dict_set d k v)
  = if existsb (String.eqb k) (map fst d) then map fst d
    else (map fst d ++ [k])%list.
Proof.
  induction d as [|[k0 v0] t IH]; cbn [Py.dict_set map fst existsb app];
    [reflexivity|].
  destruct (String.eqb k k0) eqn:E; cbn [map fst orb]; [reflexivity|].
  rewrite IH. now destruct (existsb (String.eqb k) (map fst t)).
Qed.

Lemma dict_set_nodup (d : list (string * json)) (k : string) (v : json) :
  NoDup (map fst d) -> NoDup (map fst (Py.dict_set d k v)).
Proof.
  intros H. rewrite dict_set_keys.
  destruct (existsb (String.eqb k) (map fst d)) eqn:E; [exact H|].
  apply NoDup_app; [exact H|repeat constructor; intros []|].
  intros x Hx [E'|[]]. subst x.
  assert (existsb (String.eqb k) (map fst d) = true); [|congruence].
  apply existsb_exists. exists k. split; [exact Hx|apply String.eqb_refl].
Qed.

(** X11: the body written to the object store is the fetched object with
    ["timestamp"] and ["city"] set: these two keys hold the iteration's
    timestamp and the display name (replacing what the provider sent under
    them), every other key holds what the provider sent, the keys of the
    provider stay in their order with the new ones appended, and no key is
    duplicated. *)
Theorem stamped_body
        (w : world) (api_key bucket_name city dn : string) (i : nat)
        (st : state) :
  index city_display i = Ok dn ->
  let ts := isoformat (now w (clock_reads st)) in
  exists evs st',
    process_city w api_key bucket_name i city st = (Ok tt, st')
    /\ trace st' = (trace st ++ evs)%list
    /\ (forall req,
          In (ev_put_object req) evs ->
          exists d body,
            urlopen_json w (api_url city api_key) = Ok (JObj d)
            /\ Body req = JObj body
            /\ Py.dict_get body "timestamp" = Some (JStr ts)
            /\ Py.dict_get body "city" = Some (JStr dn)
            /\ (forall k,
                  String.eqb k "timestamp" = false ->
                  String.eqb k "city" = false ->
                  Py.dict_get body k = Py.dict_get d k)
            /\ (exists added,
                  map fst body = (map fst d ++ added)%list
                  /\ incl added ["timestamp"; "city"])
            /\ (NoDup (map fst d) -> NoDup (map fst body))).
Proof.
  intros Hdn ts. do 2 eexists.
  split; [apply process_city_run; exact Hdn|].
  unfold after_city. cbn [results trace].
  split; [reflexivity|].
  assert (Hbody : forall d,
             let body := Py.dict_set (Py.dict_set d "timestamp" (JStr ts))
                                     "city" (JStr dn) in
             Py.dict_get body "timestamp" = Some (JStr ts)
             /\ Py.dict_get body "city" = Some (JStr dn)
             /\ (forall k,
                   String.eqb k "timestamp" = false ->
                   String.eqb k "city" = false ->
                   Py.dict_get body k = Py.dict_get d k)
             /\ (exists added,
                   map fst body = (map fst d ++ added)%list
                   /\ incl added ["timestamp"; "city"])
             /\ (NoDup (map fst d) -> NoDup (map fst body))).
  { intros d body. subst body. split; [|split; [|split; [|split]]].
    - rewrite dict_get_set_other by reflexivity. apply dict_get_set_same.
    - apply dict_get_set_same.
    - intros k H1 H2. now apply stamped_get.
    - rewrite !dict_set_keys.
      destruct (existsb (String.eqb "timestamp") (map fst d)) eqn:E1;
        destruct (existsb (String.eqb "city") _) eqn:E2.
      + exists []. rewrite app_nil_r. split; [reflexivity|intros x []].
      + exists ["city"]. split; [reflexivity|].
        intros x [<-|[]]. right; now left.
      + exists ["timestamp"]. split; [reflexivity|].
        intros x [<-|[]]. now left.
      + exists ["timestamp"; "city"]. rewrite <- app_assoc.
        split; [reflexivity|apply incl_refl].
    - intros Hnd. now do 2 apply dict_set_nodup. }
  run_stages w; intros x Hin; in_events;
    destruct (stamp_is_obj _ _ _ _ Hstamp) as (d & -> & ->);
    exists d; eexists; (split; [reflexivity|]);
    (split; [reflexivity|]); apply Hbody.
Qed.

Lemma stamped_body_witness :
  exists evs st',
    process_city
      (answering "Durban"
                 (JObj [("city", JStr "eThekwini"); ("main", JObj [])]))
      "k3y" "weather-raw" 3 "Durban" loop_start
    = (Ok tt, st')
    /\ trace st' = (trace loop_start ++ evs)%list.
Proof.
  destruct (stamped_body
              (answering "Durban"
                         (JObj [("city", JStr "eThekwini"); ("main", JObj [])]))
              "k3y" "weather-raw" "Durban" "Durban" 3 loop_start eq_refl)
    as (evs & st' & H1 & H2 & _).
  exists evs, st'. split; assumption.
Defined.

(** X12: whatever an iteration writes carries the same city and timestamp:
    every [put_object] goes to the configured bucket with content type
    [application/json] and the iteration's timestamp as [collection_time],
    and every [put_item] row has the display name (with its space) and that
    same timestamp as its keys; the row follows a [put_object] that
    returned. *)
Theorem one_city_and_timestamp
        (w : world) (api_key bucket_name city dn : string) (i : nat)
        (st : state) :
  index city_display i = Ok dn ->
  let ts := isoformat (now w (clock_reads st)) in
  exists evs st',
    process_city w api_key bucket_name i city st = (Ok tt, st')
    /\ trace st' = (trace st ++ evs)%list
    /\ (forall req,
          In (ev_put_object req) evs ->
          Bucket req = bucket_name
          /\ ContentType req = "application/json"
          /\ In ("collection_time", ts) (Metadata req))
    /\ (forall it,
          In (ev_put_item it) evs ->
          item_city it = dn /\ item_timestamp it = ts
          /\ exists req,
              evs = [ev_urlopen (api_url city api_key); ev_put_object req;
                     ev_put_item it]
              /\ put_object w req = None).
Proof.
  intros Hdn ts. do 2 eexists.
  split; [apply process_city_run; exact Hdn|].
  unfold after_city. cbn [results trace].
  split; [reflexivity|].
  run_stages w; split;
    try (intros x Hin; in_events; fail);
    try (intros x Hin; in_events;
         (split; [reflexivity|split; [reflexivity|right; left; reflexivity]]);
         fail).
  all: intros x Hin; in_events;
    destruct (build_item_columns _ _ _ _ Hitem) as (_ & Hc & Ht);
    (split; [exact Hc|]); (split; [exact Ht|]); eauto.
Qed.

Lemma one_city_and_timestamp_witness :
  exists evs st',
    process_city Sample.all_up "k3y" "weather-raw" 1 "Cape%20Town" loop_start
    = (Ok tt, st')
    /\ trace st' = (trace loop_start ++ evs)%list.
Proof.
  destruct (one_city_and_timestamp Sample.all_up "k3y" "weather-raw"
              "Cape%20Town" "Cape Town" 1 loop_start eq_refl)
    as (evs & st' & H1 & H2 & _).
  exists evs, st'. split; assumption.
Defined.

(** ** The object key has no space *)

Lemma str_mem_app (c : ascii) (a b : string) :
  str_mem c (a ++ b) = str_mem c a || str_mem c b.
Proof.
  induction a as [|x a IH]; cbn [append str_mem]; [reflexivity|].
  now rewrite IH, orb_assoc.
Qed.

Lemma no_space_replace (s : string) :
  str_mem " " (replace_char " " "_" s) = false.
Proof.
  induction s as [|c s IH]; cbn [replace_char str_mem]; [reflexivity|].
  rewrite IH, orb_false_r.
  destruct (Ascii.eqb c " ") eqn:E; [reflexivity|].
  now rewrite Ascii.eqb_sym.
Qed.

Lemma no_space_digits (l : list ascii) :
  all_digits l -> str_mem " " (of_chars l) = false.
Proof.
  induction 1 as [|c l Hc _ IH]; cbn [of_chars str_mem]; [reflexivity|].
  rewrite IH, orb_false_r. apply digit_cases in Hc. cbn [chars In] in Hc.
  repeat (destruct Hc as [<-|Hc]; [reflexivity|]). contradiction.
Qed.

Lemma no_space_str_of_nat (n : nat) : str_mem " " (str_of_nat n) = false.
Proof.
  unfold str_of_nat. destruct (Z.of_nat n) as [|p|p] eqn:E.
  - reflexivity.
  - destruct (str_of_pos p) as (ip & _ & Hd & _ & -> & _).
    now apply no_space_digits.
  - lia.
Qed.

Lemma no_space_zero_pad (w n : nat) : str_mem " " (zero_pad w n) = false.
Proof.
  unfold zero_pad. rewrite str_mem_app, no_space_str_of_nat, orb_false_r.
  induction (w - String.length (str_of_nat n)) as [|k IH];
    cbn [zeros str_mem]; [reflexivity|exact IH].
Qed.

Lemma no_space_isoformat (t : datetime) : str_mem " " (isoformat t) = false.
Proof.
  unfold isoformat.
  destruct (Nat.eqb (microsecond t) 0);
    rewrite !str_mem_app, !no_space_zero_pad; reflexivity.
Qed.

(** X13: no key written to the object store contains a space, whatever the
    display name and the clock: the spaces of the name are replaced, and the
    date and the timestamp have none. *)
Theorem object_key_has_no_space
        (w : world) (api_key bucket_name city dn : string) (i : nat)
        (st : state) :
  index city_display i = Ok dn ->
  exists evs st',
    process_city w api_key bucket_name i city st = (Ok tt, st')
    /\ trace st' = (trace st ++ evs)%list
    /\ (forall req,
          In (ev_put_object req) evs -> str_mem " " (Key req) = false).
Proof.
  intros Hdn. do 2 eexists.
  split; [apply process_city_run; exact Hdn|].
  unfold after_city. cbn [results trace].
  split; [reflexivity|].
  assert (Hkey : forall stamped,
             str_mem " "
               (Key (city_request w bucket_name dn (clock_reads st) stamped))
             = false).
  { intros stamped. unfold city_request, raw_request, s3_key, strftime_Ymd.
    cbn [Key].
    rewrite !str_mem_app, no_space_replace, no_space_isoformat,
      !no_space_zero_pad.
    reflexivity. }
  run_stages w; intros x Hin; in_events; apply Hkey.
Qed.

Lemma object_key_has_no_space_witness :
  exists evs st',
    process_city Sample.all_up "k3y" "weather-raw" 1 "Cape%20Town" loop_start
    = (Ok tt, st')
    /\ trace st' = (trace loop_start ++ evs)%list.
Proof.
  destruct (object_key_has_no_space Sample.all_up "k3y" "weather-raw"
              "Cape%20Town" "Cape Town" 1 loop_start eq_refl)
    as (evs & st' & H1 & H2 & _).
  exists evs, st'. split; assumption.
Defined.

(** ** The aggregation on any list of results *)

(** X14: lines 122 to 139 on any list of results: when every entry is an
    object with a ["status"], the response has status 200, counts the
    entries and those whose status is ["success"] (never more than the
    entries), keeps the list as it is and reads the clock once; on an empty
    list the division raises [ZeroDivisionError] before any clock read; an
    entry without ["status"] raises [KeyError]. *)
Theorem aggregation (w : world) (st : state) :
  (results st = [] -> summary w st = (Raise ZeroDivisionError, st))
  /\ (results st <> [] ->
      Forall (fun r => exists fs s,
                  r = JObj fs /\ Py.dict_get fs "status" = Some s)
             (results st) ->
      exists resp,
        summary w st = (Ok resp, tick st)
        /\ statusCode resp = 200
        /\ body_field resp "processed_cities"
           = Some (JInt (Z.of_nat (List.length (results st))))
        /\ body_field resp "successful_cities"
           = Some (JInt (Z.of_nat
                           (List.length (filter is_success (results st)))))
        /\ List.length (filter is_success (results st))
           <= List.length (results st)
        /\ body_field resp "results" = Some (JArr (results st))
        /\ body_field resp "execution_time"
           = Some (JStr (isoformat (now w (clock_reads st)))))
  /\ (forall fs rest,
        results st = JObj fs :: rest ->
        Py.dict_get fs "status" = None ->
        summary w st = (Raise (KeyError "'status'"), st)).
Proof.
  destruct st as [tr n rs d]. cbn [results clock_reads]. split; [|split].
  - intros ->. reflexivity.
  - intros Hne Hall. eexists. split.
    + apply (summary_run w (mkState tr n rs d)); [|exact Hne].
      cbn [results]. eapply Forall_impl; [|exact Hall].
      intros r (fs & s & -> & Hs). unfold status_is_success, is_success.
      cbn [Py.getitem entry_status]. rewrite Hs. cbn [rbind].
      now destruct s.
    + repeat split. apply filter_length_le.
  - intros fs rest -> Hs. unfold summary. run.
    cbn [successful]. unfold status_is_success. cbn [Py.getitem].
    rewrite Hs. reflexivity.
Qed.

Lemma aggregation_witness :
  summary Sample.all_up
          (mkState [] 0 [JObj [("city", JStr "Pretoria")]] None)
  = (Raise (KeyError "'status'"),
     mkState [] 0 [JObj [("city", JStr "Pretoria")]] None).
Proof.
  exact (proj2 (proj2 (aggregation Sample.all_up
                         (mkState [] 0 [JObj [("city", JStr "Pretoria")]] None)))
               [("city", JStr "Pretoria")] [] eq_refl eq_refl).
Defined.
